(** * The path classifier and the scan pipeline of the Debricked CLI

    A shallow embedding of
    - [internal/file/default_exclusion.go] (the default exclusion sets),
    - the exclusion resolver and the path classifier of package [file]
      ([Exclusions], [Excluded]), of which only the tests are among the
      sources: they are modelled from the specification, over a glob
      matcher modelled from its pattern language, and
    - [internal/scan/scanner.go] (the scan pipeline and its verdict),
      with the packages it calls as collaborators whose calls and
      results are recorded in a trace, and
    - [RunE] of the fingerprint command,
    followed by the properties of the classifier, of the pipeline and
    of the command. *)

From Stdlib Require Import String Ascii List Bool ZArith Lia DecimalString
  DecimalZ Sorted.
Import ListNotations.
Open Scope string_scope.

(** ** Go's [strings] and [path/filepath], as far as the code uses them *)

Module Strings.

(** [strings.Split(s, sep)] for a one-character separator: every
    substring between separators, empty ones included, in order. *)
Fixpoint Split (s : string) (sep : ascii) : list string :=
  match s with
  | EmptyString => [EmptyString]
  | String c s' =>
      if Ascii.eqb c sep then EmptyString :: Split s' sep
      else match Split s' sep with
           | [] => [String c EmptyString]
           | h :: t => String c h :: t
           end
  end.

(** [strings.Join(elems, sep)]. *)
Definition Join (elems : list string) (sep : string) : string :=
  String.concat sep elems.

Fixpoint contains (c : ascii) (s : string) : bool :=
  match s with
  | EmptyString => false
  | String c' s' => Ascii.eqb c' c || contains c s'
  end.

End Strings.

Module Filepath.

(** The tests of package [file] compare the joined default patterns with
    slash-separated literals: the platform separator is the slash. *)
Definition Separator : ascii := "/"%char.

Definition rooted (path : string) : bool :=
  match path with
  | String c _ => Ascii.eqb c Separator
  | EmptyString => false
  end.

(** One step of the lexical clean-up of [filepath.Clean]: [stack] holds
    the elements kept so far, innermost first. *)
Definition clean_step (is_rooted : bool) (stack : list string) (elem : string)
  : list string :=
  if String.eqb elem "" then stack
  else if String.eqb elem "." then stack
  else if String.eqb elem ".." then
    match stack with
    | top :: below =>
        if String.eqb top ".." then elem :: stack else below
    | [] => if is_rooted then [] else [elem]
    end
  else elem :: stack.

(** [filepath.Clean]: no doubled separators, no [.] elements, inner
    [..] elements removed with the element before them, [..] dropped at
    the root; the empty path becomes [.]. *)
Definition Clean (path : string) : string :=
  let is_rooted := rooted path in
  let kept := rev (fold_left (clean_step is_rooted)
                             (Strings.Split path Separator) []) in
  let body := Strings.Join kept (String Separator "") in
  if is_rooted then String Separator body
  else if String.eqb body "" then "." else body.

(** [filepath.Join]: the non-empty elements joined by the separator,
    then cleaned; the empty string when there is nothing to join. *)
Definition Join (elem : list string) : string :=
  match filter (fun e => negb (String.eqb e "")) elem with
  | [] => ""
  | kept => Clean (Strings.Join kept (String Separator ""))
  end.

(** [filepath.ToSlash]: every separator replaced by a slash. *)
Fixpoint ToSlash (path : string) : string :=
  match path with
  | EmptyString => EmptyString
  | String c rest =>
      String (if Ascii.eqb c Separator then "/"%char else c) (ToSlash rest)
  end.

End Filepath.

(** ** Glob patterns *)

Module Glob.

(** Modelled from the spec: the glob matcher itself is not part of the
    sources at hand.  The pattern language is the one of the data model
    and of the help text of the fingerprint command: [*] is any run of
    non-separator characters, [**] as a whole path segment is zero or
    more segments, [?] is one non-separator character, [[...]] is a
    character class (ranges [a-z], negation by a leading [!] or [^]),
    and [{a,b,...}] is alternation.  A malformed pattern (unclosed class
    or brace, empty class) has no compiled form. *)

(** *** Alternation *)

#[warnings="-register-all"] Inductive brace :=
| BChar (c : ascii)
| BAlt (alts : list (list brace)).

(** Reading the braces of a pattern: [cur] is the current sequence,
    newest first; [stack] holds, for each open brace, the sequence
    around it and the alternatives already closed. *)
Fixpoint parse_braces (s : string) (cur : list brace)
         (stack : list (list brace * list (list brace)))
  : option (list brace) :=
  match s with
  | EmptyString =>
      match stack with
      | [] => Some (rev cur)
      | _ :: _ => None
      end
  | String c s' =>
      if Ascii.eqb c "{" then parse_braces s' [] ((cur, []) :: stack)
      else if Ascii.eqb c "," then
        match stack with
        | [] => parse_braces s' (BChar c :: cur) stack
        | (outer, alts) :: st =>
            parse_braces s' [] ((outer, rev cur :: alts) :: st)
        end
      else if Ascii.eqb c "}" then
        match stack with
        | [] => None
        | (outer, alts) :: st =>
            parse_braces s' (BAlt (rev (rev cur :: alts)) :: outer) st
        end
      else parse_braces s' (BChar c :: cur) stack
  end.

Definition cross (xs ys : list string) : list string :=
  flat_map (fun x => map (fun y => x ++ y) ys) xs.

(** The brace-free patterns an alternation stands for. *)
Fixpoint expand (b : brace) : list string :=
  match b with
  | BChar c => [String c EmptyString]
  | BAlt alts =>
      flat_map (fix expand_alt (l : list brace) : list string :=
                  match l with
                  | [] => [EmptyString]
                  | x :: l' => cross (expand x) (expand_alt l')
                  end) alts
  end.

Fixpoint expand_seq (l : list brace) : list string :=
  match l with
  | [] => [EmptyString]
  | x :: l' => cross (expand x) (expand_seq l')
  end.

(** *** Segments *)

Inductive tok :=
| Lit (c : ascii)
| AnyChar
| Star
| Class (neg : bool) (ranges : list (ascii * ascii)).

Inductive seg :=
| DoubleStar
| Seg (ts : list tok).

Inductive mode :=
| Outside
| ClassStart
| InClass (neg : bool) (acc : list (ascii * ascii))
| AfterDash (neg : bool) (lo : ascii) (acc : list (ascii * ascii)).

Definition push (t : tok) (r : option (list tok)) : option (list tok) :=
  option_map (cons t) r.

(** The tokens of one brace-free segment. *)
Fixpoint tokens (s : string) (m : mode) : option (list tok) :=
  match s with
  | EmptyString =>
      match m with
      | Outside => Some []
      | _ => None
      end
  | String c s' =>
      match m with
      | Outside =>
          if Ascii.eqb c "*" then push Star (tokens s' Outside)
          else if Ascii.eqb c "?" then push AnyChar (tokens s' Outside)
          else if Ascii.eqb c "[" then tokens s' ClassStart
          else push (Lit c) (tokens s' Outside)
      | ClassStart =>
          if Ascii.eqb c "!" || Ascii.eqb c "^" then tokens s' (InClass true [])
          else if Ascii.eqb c "]" then None
          else tokens s' (InClass false [(c, c)])
      | InClass neg acc =>
          if Ascii.eqb c "]" then
            match acc with
            | [] => None
            | _ :: _ => push (Class neg (rev acc)) (tokens s' Outside)
            end
          else if Ascii.eqb c "-" then
            match acc with
            | (lo, hi) :: acc' =>
                if Ascii.eqb lo hi then tokens s' (AfterDash neg lo acc')
                else tokens s' (InClass neg ((c, c) :: acc))
            | [] => tokens s' (InClass neg [(c, c)])
            end
          else tokens s' (InClass neg ((c, c) :: acc))
      | AfterDash neg lo acc =>
          if Ascii.eqb c "]" then
            push (Class neg (rev (("-"%char, "-"%char) :: (lo, lo) :: acc)))
                 (tokens s' Outside)
          else tokens s' (InClass neg ((lo, c) :: acc))
      end
  end.

Definition parse_seg (s : string) : option seg :=
  if String.eqb s "**" then Some DoubleStar
  else option_map Seg (tokens s Outside).

Fixpoint sequence {A : Type} (l : list (option A)) : option (list A) :=
  match l with
  | [] => Some []
  | None :: _ => None
  | Some x :: l' => option_map (cons x) (sequence l')
  end.

Definition parse_path (p : string) : option (list seg) :=
  sequence (map parse_seg (Strings.Split p "/")).

(** Modelled from the spec: matcher construction, which the sources do
    not contain; [None] for a malformed pattern. *)
Definition compile (pattern : string) : option (list (list seg)) :=
  match parse_braces pattern [] [] with
  | None => None
  | Some bs => sequence (map parse_path (expand_seq bs))
  end.

(** *** Matching *)

Definition in_range (c : ascii) (r : ascii * ascii) : bool :=
  (nat_of_ascii (fst r) <=? nat_of_ascii c)%nat
  && (nat_of_ascii c <=? nat_of_ascii (snd r))%nat.

Definition in_class (neg : bool) (ranges : list (ascii * ascii)) (c : ascii)
  : bool :=
  xorb neg (existsb (in_range c) ranges).

Definition non_separator (c : ascii) : bool := negb (Ascii.eqb c "/").

(** One segment of the path against the tokens of one pattern segment. *)
Fixpoint match_toks (ts : list tok) (s : string) : bool :=
  match ts with
  | [] => String.eqb s ""
  | Lit c :: ts' =>
      match s with
      | String c' s' => Ascii.eqb c c' && match_toks ts' s'
      | EmptyString => false
      end
  | AnyChar :: ts' =>
      match s with
      | String c' s' => non_separator c' && match_toks ts' s'
      | EmptyString => false
      end
  | Class neg ranges :: ts' =>
      match s with
      | String c' s' =>
          non_separator c' && in_class neg ranges c' && match_toks ts' s'
      | EmptyString => false
      end
  | Star :: ts' =>
      (fix star (s : string) : bool :=
         match_toks ts' s
         || match s with
            | String c' s' => non_separator c' && star s'
            | EmptyString => false
            end) s
  end.

(** The segments of the path against the segments of the pattern: a
    pattern without [**] matches only paths with as many segments as it
    has; [**] stands for zero or more whole segments. *)
Fixpoint match_segs (ps : list seg) (segs : list string) : bool :=
  match ps with
  | [] => match segs with [] => true | _ :: _ => false end
  | Seg ts :: ps' =>
      match segs with
      | s :: segs' => match_toks ts s && match_segs ps' segs'
      | [] => false
      end
  | DoubleStar :: ps' =>
      (fix skip (segs : list string) : bool :=
         match_segs ps' segs
         || match segs with
            | _ :: segs' => skip segs'
            | [] => false
            end) segs
  end.

(** Modelled from the spec: the glob match, which the sources do not
    contain; [Match pattern name] tells whether the pattern glob-matches
    the whole path, some alternative of it segment by segment. *)
Definition Match (pattern name : string) : bool :=
  match compile pattern with
  | None => false
  | Some alts =>
      existsb (fun ps => match_segs ps (Strings.Split name "/")) alts
  end.

End Glob.


(** ** Package [file]: exclusion sets and the path classifier *)

Module File.

(** *** [default_exclusion.go] *)

Definition DefaultExclusions : list string :=
  [ Filepath.Join ["**"; "node_modules"; "**"];
    Filepath.Join ["**"; "vendor"; "**"];
    Filepath.Join ["**"; ".git"; "**"];
    Filepath.Join ["**"; "obj"; "**"] ].

Definition EXCLUDED_DIRS_FINGERPRINT : list string :=
  [ "nbproject"; "nbbuild"; "nbdist"; "node_modules";
    "__pycache__"; "_yardoc"; "eggs";
    "wheels"; "htmlcov"; "__pypackages__" ].

Definition EXCLUDED_DIRS_FINGERPRINT_RAW : list string :=
  [ "**/*.egg-info/**"; "**/*venv/**" ].

Definition DefaultExclusionsFingerprint : list string :=
  let output :=
    fold_left (fun output pattern =>
                 (output ++ [Filepath.Join ["**"; pattern; "**"]])%list)
              EXCLUDED_DIRS_FINGERPRINT [] in
  (output ++ EXCLUDED_DIRS_FINGERPRINT_RAW)%list.

(** *** The process environment *)

Definition Environ := string -> option string.

(** [os.Getenv]: the value of the variable, empty when it is unset. *)
Definition Getenv (env : Environ) (key : string) : string :=
  match env key with
  | Some v => v
  | None => ""
  end.

Definition Setenv (env : Environ) (key value : string) : Environ :=
  fun k => if String.eqb k key then Some value else env k.

(** *** The effective exclusion set *)

(** Modelled from the spec: the name of the override variable; the
    tests name it only through this constant. *)
Definition debrickedExclusionEnvVar : string := "DEBRICKED_EXCLUSIONS".

(** Modelled from the spec: the fixed platform excludes that follow the
    general defaults, as the test of the empty override lists them. *)
Definition PlatformExclusions : list string :=
  [ Filepath.Join ["**"; "bower_components"; "**"];
    Filepath.Join ["**"; ".vscode-test"; "**"] ].

(** Modelled from the spec: [Exclusions] is not part of the sources at
    hand.  A present, non-empty override is split on commas and replaces
    the defaults; otherwise the general defaults and the platform
    excludes are returned. *)
Definition Exclusions (env : Environ) : list string :=
  let values := Getenv env debrickedExclusionEnvVar in
  if negb (String.eqb values "") then Strings.Split values ","
  else (DefaultExclusions ++ PlatformExclusions)%list.

(** *** The path classifier *)

Section Classifier.

(** The glob matcher the classifier consults. *)
Variable glob_match : string -> string -> bool.

Definition any_match (patterns : list string) (path : string) : bool :=
  existsb (fun pattern => glob_match pattern path) patterns.

(** Modelled from the spec: the decision rule of [Excluded], which the
    sources do not contain: normalise the separators, let any matching
    inclusion win, otherwise exclude on any matching exclusion. *)
Definition ExcludedWith (exclusions inclusions : list string)
           (path : string) : bool :=
  let path := Filepath.ToSlash path in
  if any_match inclusions path then false
  else if any_match exclusions path then true
  else false.

End Classifier.

(** Modelled from the spec: [Excluded] is not part of the sources at
    hand; it is the decision rule over the glob matcher. *)
Definition Excluded (exclusions inclusions : list string) (path : string)
  : bool :=
  ExcludedWith Glob.Match exclusions inclusions path.

End File.


(** ** The packages the scanner talks to

    Only the option records that [scanner.go] builds are needed; the
    packages themselves are collaborators (see [Scan.DebrickedScanner] and
    [Scan.Packages]). *)

(** Error values.  Go compares them by identity: the three sentinels the
    scanner knows are constructors of their own, every other error value
    is [OtherErr]. *)
Inductive error :=
| BadOptsErr
| FailPipelineErr
| NoResErr
| OtherErr (msg : string).

Definition error_eqb (a b : error) : bool :=
  match a, b with
  | BadOptsErr, BadOptsErr => true
  | FailPipelineErr, FailPipelineErr => true
  | NoResErr, NoResErr => true
  | OtherErr m, OtherErr m' => String.eqb m m'
  | _, _ => false
  end.

(** A Go result pair [(value, error)] of which exactly one side is set:
    the collaborators follow the convention that a nil error comes with
    a value, and an error with none. *)
Inductive result (A : Type) :=
| Ok (a : A)
| Err (e : error).
Arguments Ok {A} a.
Arguments Err {A} e.

Module Env.
Record Env := {
  Repository : string;
  Commit : string;
  Branch : string;
  Author : string;
  RepositoryUrl : string;
  Integration : string;
  Filepath : string
}.
End Env.

(** [file.DebrickedOptions], the options of the finder. *)
Module Finder.
Record DebrickedOptions := {
  RootPath : string;
  Exclusions : list string;
  Inclusions : list string;
  LockFileOnly : bool;
  Strictness : Z
}.
End Finder.

Module Resolution.
Record DebrickedOptions := {
  Path : string;
  Verbose : bool;
  Regenerate : Z;
  Exclusions : list string;
  Inclusions : list string;
  NpmPreferred : bool
}.
End Resolution.

Module Fingerprint.
Record DebrickedOptions := {
  Path : string;
  Exclusions : list string;
  Inclusions : list string;
  MinFingerprintContentLength : Z;
  FingerprintCompressedContent : bool;
  Regenerate : bool
}.
End Fingerprint.

Module Config.
Record IConfig := NewConfig {
  language : string;
  args : list string;
  kwargs : list (string * string);
  build : bool;
  packageManager : string;
  version : string
}.
End Config.

Module Callgraph.
Record DebrickedOptions := {
  Paths : list string;
  Exclusions : list string;
  Inclusions : list string;
  Configs : list Config.IConfig;
  Timeout : Z
}.
End Callgraph.

Module Upload.
Record AutomationRule := {
  Triggered : bool;
  FailPipeline : bool
}.

Record UploadResult := {
  LongQueue : bool;
  DetailsUrl : string;
  VulnerabilitiesFound : Z;
  AutomationRules : list AutomationRule
}.

Record DebrickedOptions (Groups MetaObject Cfg : Type) := {
  FileGroups : Groups;
  GitMetaObject : MetaObject;
  IntegrationsName : string;
  CallGraphUploadTimeout : Z;
  VersionHint : bool;
  DebrickedConfig : option Cfg;
  TagCommitAsRelease : bool;
  Experimental : bool
}.
Arguments FileGroups {_ _ _} _.
Arguments GitMetaObject {_ _ _} _.
Arguments IntegrationsName {_ _ _} _.
Arguments CallGraphUploadTimeout {_ _ _} _.
Arguments VersionHint {_ _ _} _.
Arguments DebrickedConfig {_ _ _} _.
Arguments TagCommitAsRelease {_ _ _} _.
Arguments Experimental {_ _ _} _.
End Upload.

Module Sbom.
Record OrderArgs := {
  Format : string;
  RepositoryID : string;
  CommitID : string;
  Branch : string;
  Vulnerabilities : bool;
  Licenses : bool;
  Output : string
}.
End Sbom.

(** ** Package [scan]: [scanner.go] *)

Module Scan.

Record DebrickedOptions := {
  Path : string;
  Resolve : bool;
  Fingerprint : bool;
  CallGraph : bool;
  SBOM : string;
  SBOMOutput : string;
  Exclusions : list string;
  Inclusions : list string;
  Verbose : bool;
  Debug : bool;
  Regenerate : Z;
  VersionHint : bool;
  RepositoryName : string;
  CommitName : string;
  GenerateCommitName : bool;
  BranchName : string;
  CommitAuthor : string;
  RepositoryUrl : string;
  IntegrationName : string;
  JsonFilePath : string;
  NpmPreferred : bool;
  PassOnTimeOut : bool;
  CallGraphUploadTimeout : Z;
  CallGraphGenerateTimeout : Z;
  MinFingerprintContentLength : Z;
  TagCommitAsRelease : bool;
  Experimental : bool;
  Version : string
}.

(** [IOptions] is the empty interface: a value of the concrete options
    type, or of any other type. *)
Inductive IOptions :=
| Debricked (o : DebrickedOptions)
| Foreign.

(** Assignments to the fields that the scanner writes through the
    options pointer. *)
Definition set_Path (v : string) (o : DebrickedOptions) : DebrickedOptions :=
  {| Path := v; Resolve := Resolve o; Fingerprint := Fingerprint o;
     CallGraph := CallGraph o; SBOM := SBOM o; SBOMOutput := SBOMOutput o;
     Exclusions := Exclusions o; Inclusions := Inclusions o;
     Verbose := Verbose o; Debug := Debug o; Regenerate := Regenerate o;
     VersionHint := VersionHint o; RepositoryName := RepositoryName o;
     CommitName := CommitName o; GenerateCommitName := GenerateCommitName o;
     BranchName := BranchName o; CommitAuthor := CommitAuthor o;
     RepositoryUrl := RepositoryUrl o; IntegrationName := IntegrationName o;
     JsonFilePath := JsonFilePath o; NpmPreferred := NpmPreferred o;
     PassOnTimeOut := PassOnTimeOut o;
     CallGraphUploadTimeout := CallGraphUploadTimeout o;
     CallGraphGenerateTimeout := CallGraphGenerateTimeout o;
     MinFingerprintContentLength := MinFingerprintContentLength o;
     TagCommitAsRelease := TagCommitAsRelease o;
     Experimental := Experimental o; Version := Version o |}.

Definition set_RepositoryName (v : string) (o : DebrickedOptions)
  : DebrickedOptions :=
  {| Path := Path o; Resolve := Resolve o; Fingerprint := Fingerprint o;
     CallGraph := CallGraph o; SBOM := SBOM o; SBOMOutput := SBOMOutput o;
     Exclusions := Exclusions o; Inclusions := Inclusions o;
     Verbose := Verbose o; Debug := Debug o; Regenerate := Regenerate o;
     VersionHint := VersionHint o; RepositoryName := v;
     CommitName := CommitName o; GenerateCommitName := GenerateCommitName o;
     BranchName := BranchName o; CommitAuthor := CommitAuthor o;
     RepositoryUrl := RepositoryUrl o; IntegrationName := IntegrationName o;
     JsonFilePath := JsonFilePath o; NpmPreferred := NpmPreferred o;
     PassOnTimeOut := PassOnTimeOut o;
     CallGraphUploadTimeout := CallGraphUploadTimeout o;
     CallGraphGenerateTimeout := CallGraphGenerateTimeout o;
     MinFingerprintContentLength := MinFingerprintContentLength o;
     TagCommitAsRelease := TagCommitAsRelease o;
     Experimental := Experimental o; Version := Version o |}.

Definition set_CommitName (v : string) (o : DebrickedOptions)
  : DebrickedOptions :=
  {| Path := Path o; Resolve := Resolve o; Fingerprint := Fingerprint o;
     CallGraph := CallGraph o; SBOM := SBOM o; SBOMOutput := SBOMOutput o;
     Exclusions := Exclusions o; Inclusions := Inclusions o;
     Verbose := Verbose o; Debug := Debug o; Regenerate := Regenerate o;
     VersionHint := VersionHint o; RepositoryName := RepositoryName o;
     CommitName := v; GenerateCommitName := GenerateCommitName o;
     BranchName := BranchName o; CommitAuthor := CommitAuthor o;
     RepositoryUrl := RepositoryUrl o; IntegrationName := IntegrationName o;
     JsonFilePath := JsonFilePath o; NpmPreferred := NpmPreferred o;
     PassOnTimeOut := PassOnTimeOut o;
     CallGraphUploadTimeout := CallGraphUploadTimeout o;
     CallGraphGenerateTimeout := CallGraphGenerateTimeout o;
     MinFingerprintContentLength := MinFingerprintContentLength o;
     TagCommitAsRelease := TagCommitAsRelease o;
     Experimental := Experimental o; Version := Version o |}.

Definition set_BranchName (v : string) (o : DebrickedOptions)
  : DebrickedOptions :=
  {| Path := Path o; Resolve := Resolve o; Fingerprint := Fingerprint o;
     CallGraph := CallGraph o; SBOM := SBOM o; SBOMOutput := SBOMOutput o;
     Exclusions := Exclusions o; Inclusions := Inclusions o;
     Verbose := Verbose o; Debug := Debug o; Regenerate := Regenerate o;
     VersionHint := VersionHint o; RepositoryName := RepositoryName o;
     CommitName := CommitName o; GenerateCommitName := GenerateCommitName o;
     BranchName := v; CommitAuthor := CommitAuthor o;
     RepositoryUrl := RepositoryUrl o; IntegrationName := IntegrationName o;
     JsonFilePath := JsonFilePath o; NpmPreferred := NpmPreferred o;
     PassOnTimeOut := PassOnTimeOut o;
     CallGraphUploadTimeout := CallGraphUploadTimeout o;
     CallGraphGenerateTimeout := CallGraphGenerateTimeout o;
     MinFingerprintContentLength := MinFingerprintContentLength o;
     TagCommitAsRelease := TagCommitAsRelease o;
     Experimental := Experimental o; Version := Version o |}.

Definition set_CommitAuthor (v : string) (o : DebrickedOptions)
  : DebrickedOptions :=
  {| Path := Path o; Resolve := Resolve o; Fingerprint := Fingerprint o;
     CallGraph := CallGraph o; SBOM := SBOM o; SBOMOutput := SBOMOutput o;
     Exclusions := Exclusions o; Inclusions := Inclusions o;
     Verbose := Verbose o; Debug := Debug o; Regenerate := Regenerate o;
     VersionHint := VersionHint o; RepositoryName := RepositoryName o;
     CommitName := CommitName o; GenerateCommitName := GenerateCommitName o;
     BranchName := BranchName o; CommitAuthor := v;
     RepositoryUrl := RepositoryUrl o; IntegrationName := IntegrationName o;
     JsonFilePath := JsonFilePath o; NpmPreferred := NpmPreferred o;
     PassOnTimeOut := PassOnTimeOut o;
     CallGraphUploadTimeout := CallGraphUploadTimeout o;
     CallGraphGenerateTimeout := CallGraphGenerateTimeout o;
     MinFingerprintContentLength := MinFingerprintContentLength o;
     TagCommitAsRelease := TagCommitAsRelease o;
     Experimental := Experimental o; Version := Version o |}.

Definition set_RepositoryUrl (v : string) (o : DebrickedOptions)
  : DebrickedOptions :=
  {| Path := Path o; Resolve := Resolve o; Fingerprint := Fingerprint o;
     CallGraph := CallGraph o; SBOM := SBOM o; SBOMOutput := SBOMOutput o;
     Exclusions := Exclusions o; Inclusions := Inclusions o;
     Verbose := Verbose o; Debug := Debug o; Regenerate := Regenerate o;
     VersionHint := VersionHint o; RepositoryName := RepositoryName o;
     CommitName := CommitName o; GenerateCommitName := GenerateCommitName o;
     BranchName := BranchName o; CommitAuthor := CommitAuthor o;
     RepositoryUrl := v; IntegrationName := IntegrationName o;
     JsonFilePath := JsonFilePath o; NpmPreferred := NpmPreferred o;
     PassOnTimeOut := PassOnTimeOut o;
     CallGraphUploadTimeout := CallGraphUploadTimeout o;
     CallGraphGenerateTimeout := CallGraphGenerateTimeout o;
     MinFingerprintContentLength := MinFingerprintContentLength o;
     TagCommitAsRelease := TagCommitAsRelease o;
     Experimental := Experimental o; Version := Version o |}.

Definition set_IntegrationName (v : string) (o : DebrickedOptions)
  : DebrickedOptions :=
  {| Path := Path o; Resolve := Resolve o; Fingerprint := Fingerprint o;
     CallGraph := CallGraph o; SBOM := SBOM o; SBOMOutput := SBOMOutput o;
     Exclusions := Exclusions o; Inclusions := Inclusions o;
     Verbose := Verbose o; Debug := Debug o; Regenerate := Regenerate o;
     VersionHint := VersionHint o; RepositoryName := RepositoryName o;
     CommitName := CommitName o; GenerateCommitName := GenerateCommitName o;
     BranchName := BranchName o; CommitAuthor := CommitAuthor o;
     RepositoryUrl := RepositoryUrl o; IntegrationName := v;
     JsonFilePath := JsonFilePath o; NpmPreferred := NpmPreferred o;
     PassOnTimeOut := PassOnTimeOut o;
     CallGraphUploadTimeout := CallGraphUploadTimeout o;
     CallGraphGenerateTimeout := CallGraphGenerateTimeout o;
     MinFingerprintContentLength := MinFingerprintContentLength o;
     TagCommitAsRelease := TagCommitAsRelease o;
     Experimental := Experimental o; Version := Version o |}.

(** [MapEnvToOptions]: options left empty by the caller are filled from
    the detected CI environment; the integration name only while it
    still is the default [CLI]. *)
Definition MapEnvToOptions (o : DebrickedOptions) (env : Env.Env)
  : DebrickedOptions :=
  let o := if Nat.eqb (String.length (RepositoryName o)) 0
           then set_RepositoryName (Env.Repository env) o else o in
  let o := if Nat.eqb (String.length (CommitName o)) 0
           then set_CommitName (Env.Commit env) o else o in
  let o := if Nat.eqb (String.length (BranchName o)) 0
           then set_BranchName (Env.Branch env) o else o in
  let o := if Nat.eqb (String.length (CommitAuthor o)) 0
           then set_CommitAuthor (Env.Author env) o else o in
  let o := if Nat.eqb (String.length (RepositoryUrl o)) 0
           then set_RepositoryUrl (Env.RepositoryUrl env) o else o in
  let o := if String.eqb (IntegrationName o) "CLI"
           then if negb (Nat.eqb (String.length (Env.Integration env)) 0)
                then set_IntegrationName (Env.Integration env) o else o
           else o in
  let o := if Nat.eqb (String.length (Path o)) 0
              && Nat.ltb 0 (String.length (Env.Filepath env))
           then set_Path (Env.Filepath env) o else o in
  o.

(** [fmt.Sprintf("%d", n)]. *)
Definition decimal (n : Z) : string := NilZero.string_of_int (Z.to_int n).

Definition newline : string := String (ascii_of_nat 10) EmptyString.

Section Scanner.

(** The world outside the process (file system, network, clock) and
    the values of the collaborating packages that the scanner only
    passes along. *)
Context {W MetaObject Groups Fingerprints DebrickedConfig : Type}.

Definition UploaderOptions : Type :=
  Upload.DebrickedOptions Groups MetaObject DebrickedConfig.

(** *** What a run does that can be observed

    Every call to a collaborator is recorded with its arguments and
    what it returned, every line written to the standard output with
    its text. *)
Inductive Event :=
| EvDebugLog (message : string) (debug : bool)
| EvPrint (text : string)
| EvPrintln (err : error)
| EvRender (rule : Upload.AutomationRule)
| EvFind (e : Env.Env) (err : option error)
| EvNow (seconds : Z)
| EvAbs (path : string) (abs : string) (err : option error)
| EvChdir (dir : string) (err : option error)
| EvNewMetaObject (path repositoryName commitName branchName commitAuthor
                   repositoryUrl : string) (r : result MetaObject)
| EvResolve (paths : list string) (options : Resolution.DebrickedOptions)
            (err : option error)
| EvIsEnterpriseCustomer (silent : bool) (enterprise : bool)
| EvFingerprintFiles (options : Fingerprint.DebrickedOptions)
                     (r : result Fingerprints)
| EvToFile (fingerprints : Fingerprints) (name : string)
           (err : option error)
| EvGenerateWithTimer (options : Callgraph.DebrickedOptions)
                      (err : option error)
| EvGetGroups (options : Finder.DebrickedOptions) (r : result Groups)
| EvGetConfigPath (path : string) (exclusions inclusions : list string)
                  (configPath : string)
| EvGetDebrickedConfig (configPath : string)
                       (config : option DebrickedConfig)
| EvUpload (options : UploaderOptions) (r : result Upload.UploadResult)
| EvParseDetailsURL (detailsURL : string) (r : result (string * string))
| EvOrder (a : Sbom.OrderArgs) (err : option error)
| EvWriteFile (name : string) (data : string) (perm : Z)
              (err : option error).

Record State := {
  world : W;
  trace : list Event
}.

(** Computations of the scanner: they read and change the world and
    extend the trace. *)
Definition M (A : Type) : Type := State -> A * State.

Definition ret {A : Type} (a : A) : M A := fun s => (a, s).

Definition bind {A B : Type} (m : M A) (k : A -> M B) : M B :=
  fun s => let (a, s') := m s in k a s'.

Definition emit (e : Event) : M unit :=
  fun s => (tt, {| world := world s; trace := trace s ++ [e] |}).

(** A call to a collaborator [f], recorded as [ev] of what it
    returned. *)
Definition call {A : Type} (f : W -> A * W) (ev : A -> Event) : M A :=
  fun s => let (a, w) := f (world s) in
           (a, {| world := w; trace := trace s ++ [ev a] |}).

(** *** The collaborators of [DebrickedScanner] *)

Record IDebClient := {
  IsEnterpriseCustomer : bool -> W -> bool * W
}.

Record IFinder := {
  GetGroups : Finder.DebrickedOptions -> W -> result Groups * W;
  GetConfigPath : string -> list string -> list string -> W -> string * W
}.

Record IUploader := {
  Upload_ : UploaderOptions -> W -> result Upload.UploadResult * W
}.

Record IService := {
  Find : W -> (Env.Env * option error) * W
}.

Record IResolver := {
  Resolve_ : list string -> Resolution.DebrickedOptions ->
             W -> option error * W
}.

Record IFingerprint := {
  FingerprintFiles : Fingerprint.DebrickedOptions ->
                     W -> result Fingerprints * W
}.

Record IGenerator := {
  GenerateWithTimer : Callgraph.DebrickedOptions -> W -> option error * W
}.

Record DebrickedScanner := {
  client : IDebClient;
  finder : IFinder;
  uploader : IUploader;
  ciService : IService;
  resolver : IResolver;
  fingerprint : IFingerprint;
  callgraph : IGenerator
}.

(** *** What the scanner uses of other packages and of the runtime *)

Record Packages := {
  (* package fingerprint *)
  DefaultExclusionsFingerprint : list string;
  DefaultInclusionsFingerprint : list string;
  OutputFileNameFingerprints : string;
  ToFile : Fingerprints -> string -> W -> option error * W;
  (* package file *)
  StrictAll : Z;
  (* package upload *)
  GetDebrickedConfig : string -> W -> option DebrickedConfig * W;
  (* package sbom: the methods of a Reporter built on the client *)
  ParseDetailsURL : IDebClient -> string -> W -> result (string * string) * W;
  Order : IDebClient -> Sbom.OrderArgs -> W -> option error * W;
  (* package git *)
  NewMetaObject : string -> string -> string -> string -> string ->
                  string -> W -> result MetaObject * W;
  (* package color *)
  BlueString : string -> string;
  (* the standard library *)
  Abs : string -> W -> (string * option error) * W;
  Chdir : string -> W -> option error * W;
  Now_Unix : W -> Z * W;
  MarshalIndent : Upload.UploadResult -> string -> string ->
                  string * option error;
  WriteFile : string -> string -> Z -> W -> option error * W
}.


Notation "x <- m ;; k" := (bind m (fun x => k))
  (at level 61, m at next level, right associativity).
Notation "m ;; k" := (bind m (fun _ => k))
  (at level 61, right associativity).

Definition debug_Log (message : string) (debug : bool) : M unit :=
  emit (EvDebugLog message debug).

Variable dScanner : DebrickedScanner.
Variable pkg : Packages.

(** *** The stages *)

Definition scanReportSBOM (options : DebrickedOptions) (detailsURL : string)
  : M (option error) :=
  if String.eqb (SBOM options) "" then ret None
  else
    parsed <- call (ParseDetailsURL pkg (client dScanner) detailsURL)
                   (EvParseDetailsURL detailsURL) ;;
    match parsed with
    | Err err => ret (Some err)
    | Ok (repositoryID, commitID) =>
        let a := {| Sbom.Format := SBOM options;
                    Sbom.RepositoryID := repositoryID;
                    Sbom.CommitID := commitID;
                    Sbom.Branch := BranchName options;
                    Sbom.Vulnerabilities := true;
                    Sbom.Licenses := true;
                    Sbom.Output := SBOMOutput options |} in
        call (Order pkg (client dScanner) a) (EvOrder a)
    end.

Definition scanResolve (options : DebrickedOptions) : M (option error) :=
  let resolveOptions :=
    {| Resolution.Path := Path options;
       Resolution.Verbose := Verbose options;
       Resolution.Regenerate := Regenerate options;
       Resolution.Exclusions := Exclusions options;
       Resolution.Inclusions := Inclusions options;
       Resolution.NpmPreferred := NpmPreferred options |} in
  if Resolve options then
    resErr <- call (Resolve_ (resolver dScanner) [Path options] resolveOptions)
                   (EvResolve [Path options] resolveOptions) ;;
    match resErr with
    | Some resErr => ret (Some resErr)
    | None => ret None
    end
  else ret None.

Definition scanFingerprint (options : DebrickedOptions) : M (option error) :=
  if Fingerprint options then
    enterprise <- call (IsEnterpriseCustomer (client dScanner) false)
                       (EvIsEnterpriseCustomer false) ;;
    if negb enterprise then ret None
    else
      let fingerprintOptions :=
        {| Fingerprint.Path := Path options;
           Fingerprint.Exclusions :=
             (Exclusions options ++ DefaultExclusionsFingerprint pkg)%list;
           Fingerprint.Inclusions :=
             (Inclusions options ++ DefaultInclusionsFingerprint pkg)%list;
           Fingerprint.MinFingerprintContentLength :=
             MinFingerprintContentLength options;
           Fingerprint.FingerprintCompressedContent := false;
           Fingerprint.Regenerate := Z.ltb 0 (Regenerate options) |} in
      r <- call (FingerprintFiles (fingerprint dScanner) fingerprintOptions)
                (EvFingerprintFiles fingerprintOptions) ;;
      match r with
      | Err err => ret (Some err)
      | Ok fingerprints =>
          call (ToFile pkg fingerprints (OutputFileNameFingerprints pkg))
               (EvToFile fingerprints (OutputFileNameFingerprints pkg))
      end
  else ret None.

Definition getDebrickedConfig (path : string)
           (exclusions inclusions : list string)
  : M (option DebrickedConfig) :=
  configPath <- call (GetConfigPath (finder dScanner) path exclusions inclusions)
                     (EvGetConfigPath path exclusions inclusions) ;;
  if String.eqb configPath "" then ret None
  else call (GetDebrickedConfig pkg configPath)
            (EvGetDebrickedConfig configPath).

(** The stage sequence: resolve, fingerprint, call graph, file groups,
    upload, SBOM report; the first error ends it. *)
Definition scan (options : DebrickedOptions) (gitMetaObject : MetaObject)
  : M (result Upload.UploadResult) :=
  debug_Log "Running scanResolve..." (Debug options) ;;
  err <- scanResolve options ;;
  match err with
  | Some err => ret (Err err)
  | None =>
  debug_Log "Running scanFingerprint..." (Debug options) ;;
  err <- scanFingerprint options ;;
  match err with
  | Some err => ret (Err err)
  | None =>
  resErr <- (if CallGraph options then
               debug_Log "Running scanFingerprint..." (Debug options) ;;
               let configs :=
                 [ Config.NewConfig "java" [] [("pm", "maven")] true
                                    "maven" (Version options);
                   Config.NewConfig "golang" [] [("pm", "go")] true
                                    "go" (Version options) ] in
               let timeout := CallGraphGenerateTimeout options in
               let path := Path options in
               let path := if String.eqb path "" then "." else path in
               let callgraphOptions :=
                 {| Callgraph.Paths := [path];
                    Callgraph.Exclusions := Exclusions options;
                    Callgraph.Inclusions := Inclusions options;
                    Callgraph.Configs := configs;
                    Callgraph.Timeout := timeout |} in
               call (GenerateWithTimer (callgraph dScanner) callgraphOptions)
                    (EvGenerateWithTimer callgraphOptions)
             else ret None) ;;
  match resErr with
  | Some resErr => ret (Err resErr)
  | None =>
  debug_Log "Matching groups..." (Debug options) ;;
  let finderOptions :=
    {| Finder.RootPath := Path options;
       Finder.Exclusions := Exclusions options;
       Finder.Inclusions := Inclusions options;
       Finder.LockFileOnly := false;
       Finder.Strictness := StrictAll pkg |} in
  groups <- call (GetGroups (finder dScanner) finderOptions)
                 (EvGetGroups finderOptions) ;;
  match groups with
  | Err err => ret (Err err)
  | Ok fileGroups =>
  debug_Log "Starting upload..." (Debug options) ;;
  config <- getDebrickedConfig (Path options) (Exclusions options)
                               (Inclusions options) ;;
  let uploaderOptions : UploaderOptions :=
    {| Upload.FileGroups := fileGroups;
       Upload.GitMetaObject := gitMetaObject;
       Upload.IntegrationsName := IntegrationName options;
       Upload.CallGraphUploadTimeout := CallGraphUploadTimeout options;
       Upload.VersionHint := VersionHint options;
       Upload.DebrickedConfig := config;
       Upload.TagCommitAsRelease := TagCommitAsRelease options;
       Upload.Experimental := Experimental options |} in
  uploaded <- call (Upload_ (uploader dScanner) uploaderOptions)
                   (EvUpload uploaderOptions) ;;
  match uploaded with
  | Err err => ret (Err err)
  | Ok result =>
  err <- scanReportSBOM options (Upload.DetailsUrl result) ;;
  match err with
  | Some err => ret (Err err)
  | None => ret (Ok result)
  end end end end end end.

Definition handleScanError (err : error) (passOnTimeOut : bool)
  : M (option error) :=
  if error_eqb err NoResErr && passOnTimeOut then
    emit (EvPrintln err) ;;
    ret None
  else ret (Some err).

(** *** Before the stages *)

(** [SetWorkingDirectory]: the process moves to the absolute form of
    the path option, which becomes empty; the error of [filepath.Abs]
    is dropped. *)
Definition SetWorkingDirectory (d : DebrickedOptions)
  : M (DebrickedOptions * option error) :=
  abs <- call (Abs pkg (Path d)) (fun r => EvAbs (Path d) (fst r) (snd r)) ;;
  let absPath := fst abs in
  err <- call (Chdir pkg absPath) (EvChdir absPath) ;;
  match err with
  | Some err => ret (d, Some err)
  | None =>
      let d := set_Path "" d in
      emit (EvPrint ("Working directory: " ++ absPath ++ newline)) ;;
      ret (d, None)
  end.

Definition GenerateCommitNameTimestamp : M string :=
  now <- call (Now_Unix pkg) EvNow ;;
  ret ("generated-" ++ decimal now).

Definition UpdatedEmptyCommitName (o : DebrickedOptions)
  : M DebrickedOptions :=
  if GenerateCommitName o && String.eqb (CommitName o) "" then
    debug_Log "No commit name set, generating commit name" (Debug o) ;;
    name <- GenerateCommitNameTimestamp ;;
    ret (set_CommitName name o)
  else ret o.

(** *** After the stages *)

(** [WriteApiReplyToJsonFile]: both the error of the serialisation and
    the error of the write are dropped. *)
Definition WriteApiReplyToJsonFile (options : DebrickedOptions)
           (result : Upload.UploadResult) : M unit :=
  if negb (String.eqb (JsonFilePath options) "") then
    let file := fst (MarshalIndent pkg result "" " ") in
    call (WriteFile pkg (JsonFilePath options) file 384)
         (EvWriteFile (JsonFilePath options) file 384) ;;
    ret tt
  else ret tt.

(** The loop over the automation rules: each rule is rendered, and
    [failPipeline] accumulates the verdict. *)
Fixpoint renderRules (rules : list Upload.AutomationRule)
         (failPipeline : bool) : M bool :=
  match rules with
  | [] => ret failPipeline
  | rule :: rest =>
      emit (EvRender rule) ;;
      renderRules rest
        (failPipeline
         || (Upload.Triggered rule && Upload.FailPipeline rule))
  end.

(** *** The pipeline *)

Definition Scan (o : IOptions) : M (option error) :=
  match o with
  | Foreign => ret (Some BadOptsErr)
  | Debricked dOptions =>
  debug_Log "Options initialized, finding CI service..." (Debug dOptions) ;;
  found <- call (Find (ciService dScanner))
                (fun r => EvFind (fst r) (snd r)) ;;
  let e := fst found in
  debug_Log "Mapping environment variables..." (Debug dOptions) ;;
  let dOptions := MapEnvToOptions dOptions e in
  dOptions <- UpdatedEmptyCommitName dOptions ;;
  moved <- SetWorkingDirectory dOptions ;;
  let dOptions := fst moved in
  match snd moved with
  | Some err => ret (Some err)
  | None =>
  debug_Log "Setting up git objects..." (Debug dOptions) ;;
  meta <- call (NewMetaObject pkg (Path dOptions) (RepositoryName dOptions)
                  (CommitName dOptions) (BranchName dOptions)
                  (CommitAuthor dOptions) (RepositoryUrl dOptions))
               (EvNewMetaObject (Path dOptions) (RepositoryName dOptions)
                  (CommitName dOptions) (BranchName dOptions)
                  (CommitAuthor dOptions) (RepositoryUrl dOptions)) ;;
  match meta with
  | Err err => ret (Some err)
  | Ok gitMetaObject =>
  debug_Log "Running scan with initialized scanner..." (Debug dOptions) ;;
  scanned <- scan dOptions gitMetaObject ;;
  match scanned with
  | Err err => handleScanError err (PassOnTimeOut dOptions)
  | Ok result =>
  if Upload.LongQueue result then
    emit (EvPrint ("Progress polling terminated due to long scan times. Please try again later" ++ newline)) ;;
    emit (EvPrint ("For full details, visit: "
                   ++ BlueString pkg (Upload.DetailsUrl result)
                   ++ newline ++ newline)) ;;
    ret None
  else
    WriteApiReplyToJsonFile dOptions result ;;
    emit (EvPrint (newline ++ decimal (Upload.VulnerabilitiesFound result)
                   ++ " vulnerabilities found" ++ newline)) ;;
    emit (EvPrint newline) ;;
    failPipeline <- renderRules (Upload.AutomationRules result) false ;;
    emit (EvPrint ("For full details, visit: "
                   ++ BlueString pkg (Upload.DetailsUrl result)
                   ++ newline ++ newline)) ;;
    if failPipeline then ret (Some FailPipelineErr) else ret None
  end end end end.

End Scanner.

(** The text of an error value; the text of [client.NoResErr] is fixed
    in package [client] and plays no part here. *)
Definition Error (e : error) : option string :=
  match e with
  | BadOptsErr => Some "failed to type case IOptions"
  | FailPipelineErr => Some ""
  | NoResErr => None
  | OtherErr msg => Some msg
  end.

End Scan.

(** ** The fingerprint command: [RunE] *)

Module FingerprintCmd.

Section Command.

(** The world outside the process and the fingerprints, which the
    command only passes along. *)
Context {W Output : Type}.

(** What a run of the command does that can be observed. *)
Inductive Event :=
| EvFingerprintFiles (path : string) (exclusions : list string)
                     (r : result Output)
| EvToFile (output : Output) (name : string) (err : option error).

Record State := {
  world : W;
  trace : list Event
}.

Definition M (A : Type) : Type := State -> A * State.

Definition ret {A : Type} (a : A) : M A := fun s => (a, s).

Definition bind {A B : Type} (m : M A) (k : A -> M B) : M B :=
  fun s => let (a, s') := m s in k a s'.

Definition call {A : Type} (f : W -> A * W) (ev : A -> Event) : M A :=
  fun s => let (a, w) := f (world s) in
           (a, {| world := w; trace := trace s ++ [ev a] |}).

(** [file.IFingerprint], as the command uses it. *)
Record IFingerprint := {
  FingerprintFiles : string -> list string -> W -> result Output * W
}.

(** The method [ToFile] of the fingerprints and the name of the output
    file, [file.OutputFileNameFingerprints]. *)
Variable ToFile : Output -> string -> W -> option error * W.
Variable OutputFileNameFingerprints : string.

Notation "x <- m ;; k" := (bind m (fun x => k))
  (at level 61, m at next level, right associativity).

(** [RunE]: [exclusions] is the package variable of that name, as the
    flags have left it. *)
Definition RunE (f : IFingerprint) (exclusions : list string)
           (args : list string) : M (option error) :=
  let path := "" in
  let path := match args with
              | arg :: _ => arg
              | [] => path
              end in
  r <- call (FingerprintFiles f path exclusions)
            (EvFingerprintFiles path exclusions) ;;
  match r with
  | Err err => ret (Some err)
  | Ok output =>
      err <- call (ToFile output OutputFileNameFingerprints)
                  (EvToFile output OutputFileNameFingerprints) ;;
      match err with
      | Some err => ret (Some err)
      | None => ret None
      end
  end.

End Command.

(** The variable initialised at package level: the default exclusions of
    the fingerprinting. *)
Definition exclusions : list string := File.DefaultExclusionsFingerprint.

Definition ExclusionFlag : string := "exclusion-fingerprint".

End FingerprintCmd.

(** ** Notions used to state the properties *)

Module Props.

(** A pattern without wildcard ([*], [?], a class or an alternation) and
    without directory separator. *)
Definition plain_char (c : ascii) : bool :=
  negb (Ascii.eqb c "*" || Ascii.eqb c "?" || Ascii.eqb c "["
        || Ascii.eqb c "{" || Ascii.eqb c "/").

Fixpoint bare_filename (pattern : string) : bool :=
  match pattern with
  | EmptyString => true
  | String c rest => plain_char c && bare_filename rest
  end.

Fixpoint lits (s : string) : list Glob.tok :=
  match s with
  | EmptyString => []
  | String c rest => Glob.Lit c :: lits rest
  end.

Fixpoint bchars (s : string) : list Glob.brace :=
  match s with
  | EmptyString => []
  | String c rest => Glob.BChar c :: bchars rest
  end.

End Props.

(** ** Notions used to state the properties of the pipeline *)

Module Pipeline.

Import Scan.

(** The stages of the pipeline, in their order. *)
Inductive Stage :=
| StResolve
| StFingerprint
| StCallGraph
| StGroupFiles
| StUpload
| StReportSBOM.

Definition rank (st : Stage) : nat :=
  match st with
  | StResolve => 0
  | StFingerprint => 1
  | StCallGraph => 2
  | StGroupFiles => 3
  | StUpload => 4
  | StReportSBOM => 5
  end.

Definition stage_le (a b : Stage) : Prop := rank a <= rank b.

Definition stage_eqb (a b : Stage) : bool := Nat.eqb (rank a) (rank b).

Definition failed {A : Type} (r : result A) : option error :=
  match r with
  | Ok _ => None
  | Err e => Some e
  end.

(** Keeping what a partial function picks from a list. *)
Fixpoint pick {A B : Type} (f : A -> option B) (l : list A) : list B :=
  match l with
  | [] => []
  | x :: l' =>
      match f x with
      | Some y => y :: pick f l'
      | None => pick f l'
      end
  end.

Fixpoint sortedb (l : list nat) : bool :=
  match l with
  | [] => true
  | x :: l' =>
      match l' with
      | [] => true
      | y :: _ => Nat.leb x y && sortedb l'
      end
  end.

(** The stages that the options ask for, in the order of the pipeline:
    resolution, fingerprinting and the call graph have a toggle, the
    SBOM report is asked for by naming a format, and the grouping of the
    files and the upload are always due. *)
Definition enabled (options : DebrickedOptions) : list Stage :=
  ((if Resolve options then [StResolve] else [])
   ++ (if Fingerprint options then [StFingerprint] else [])
   ++ (if CallGraph options then [StCallGraph] else [])
   ++ [StGroupFiles; StUpload]
   ++ (if String.eqb (SBOM options) "" then [] else [StReportSBOM]))%list.

(** The stages asked for up to a stage, that stage included. *)
Definition enabled_until (st : Stage) (options : DebrickedOptions)
  : list Stage :=
  filter (fun x => Nat.leb (rank x) (rank st)) (enabled options).

Section Notions.

Context {W MetaObject Groups Fingerprints DebrickedConfig : Type}.

Local Abbreviation Event :=
  (@Event MetaObject Groups Fingerprints DebrickedConfig).
Local Abbreviation State :=
  (@State W MetaObject Groups Fingerprints DebrickedConfig).
Local Abbreviation M :=
  (@M W MetaObject Groups Fingerprints DebrickedConfig).
Local Abbreviation DebrickedScanner :=
  (@DebrickedScanner W MetaObject Groups Fingerprints DebrickedConfig).
Local Abbreviation Packages :=
  (@Packages W MetaObject Fingerprints DebrickedConfig).

(** The stage a collaborator call belongs to; the calls that prepare
    the uploader's options count with the upload. *)
Definition stage_of (e : Event) : option Stage :=
  match e with
  | EvResolve _ _ _ => Some StResolve
  | EvIsEnterpriseCustomer _ _ => Some StFingerprint
  | EvFingerprintFiles _ _ => Some StFingerprint
  | EvToFile _ _ _ => Some StFingerprint
  | EvGenerateWithTimer _ _ => Some StCallGraph
  | EvGetGroups _ _ => Some StGroupFiles
  | EvGetConfigPath _ _ _ _ => Some StUpload
  | EvGetDebrickedConfig _ _ => Some StUpload
  | EvUpload _ _ => Some StUpload
  | EvParseDetailsURL _ _ => Some StReportSBOM
  | EvOrder _ _ => Some StReportSBOM
  | _ => None
  end.

(** The error a call of a stage returned, if it returned one. *)
Definition stage_failure (e : Event) : option error :=
  match e with
  | EvResolve _ _ err => err
  | EvFingerprintFiles _ r => failed r
  | EvToFile _ _ err => err
  | EvGenerateWithTimer _ err => err
  | EvGetGroups _ r => failed r
  | EvUpload _ r => failed r
  | EvParseDetailsURL _ r => failed r
  | EvOrder _ err => err
  | _ => None
  end.

Definition failure_in_stage (e : Event) : option (Stage * error) :=
  match stage_of e, stage_failure e with
  | Some st, Some err => Some (st, err)
  | _, _ => None
  end.

Definition stages (t : list Event) : list Stage := pick stage_of t.

Definition stage_failures (t : list Event) : list error :=
  pick stage_failure t.

(** What the calls of [Upload] returned. *)
Definition uploads (t : list Event) : list (result Upload.UploadResult) :=
  pick (fun e => match e with EvUpload _ r => Some r | _ => None end) t.

(** The rules rendered, the files written, the errors printed. *)
Definition renders (t : list Event) : list Upload.AutomationRule :=
  pick (fun e => match e with EvRender rule => Some rule | _ => None end) t.

Definition json_writes (t : list Event) : list string :=
  pick (fun e => match e with
                 | EvWriteFile name _ _ _ => Some name
                 | _ => None
                 end) t.

Definition printed_errors (t : list Event) : list error :=
  pick (fun e => match e with EvPrintln err => Some err | _ => None end) t.

Definition ran (st : Stage) (t : list Event) : bool :=
  existsb (stage_eqb st) (stages t).

(** The call with which a stage begins: the fingerprint stage begins by
    asking whether the customer is an enterprise customer, the SBOM
    report by parsing the details URL. *)
Definition enters (e : Event) : option Stage :=
  match e with
  | EvResolve _ _ _ => Some StResolve
  | EvIsEnterpriseCustomer _ _ => Some StFingerprint
  | EvGenerateWithTimer _ _ => Some StCallGraph
  | EvGetGroups _ _ => Some StGroupFiles
  | EvUpload _ _ => Some StUpload
  | EvParseDetailsURL _ _ => Some StReportSBOM
  | _ => None
  end.

(** The stages begun in a trace, in the order in which they began. *)
Definition entered (t : list Event) : list Stage := pick enters t.

(** The failing calls of a trace, each with its stage. *)
Definition failures_by_stage (t : list Event) : list (Stage * error) :=
  pick failure_in_stage t.

(** What a computation returns and what it adds to the trace. *)
Definition returned {A : Type} (m : M A) (s : State) : A := fst (m s).

Definition observed {A : Type} (m : M A) (s : State) : list Event :=
  skipn (length (trace s)) (trace (snd (m s))).

(** Once a call of a stage has failed nothing follows, and the error
    is the result. *)
Fixpoint aborts (res : result Upload.UploadResult) (t : list Event) : Prop :=
  match t with
  | [] => True
  | e :: t' =>
      match stage_failure e with
      | Some err => t' = [] /\ res = Err err
      | None => aborts res t'
      end
  end.

(** The verdict over the automation rules. *)
Definition verdict (rules : list Upload.AutomationRule) : bool :=
  existsb (fun rule => Upload.Triggered rule && Upload.FailPipeline rule)
          rules.

(** What one run of the stage sequence looks like. *)
Definition scan_shape (options : DebrickedOptions) (t : list Event)
           (res : result Upload.UploadResult) : Prop :=
  sortedb (map rank (stages t)) = true
  /\ aborts res t
  /\ renders t = [] /\ json_writes t = [] /\ printed_errors t = []
  /\ match res with
     | Ok r =>
         uploads t = [Ok r] /\ stage_failures t = []
         /\ ran StResolve t = Resolve options
         /\ ran StFingerprint t = Fingerprint options
         /\ ran StCallGraph t = CallGraph options
         /\ ran StGroupFiles t = true
         /\ ran StUpload t = true
         /\ ran StReportSBOM t = negb (String.eqb (SBOM options) "")
     | Err err =>
         stage_failures t = [err]
         /\ (uploads t = [] \/ uploads t = [Err err]
             \/ exists r, uploads t = [Ok r]
                          /\ ran StReportSBOM t = true)
     end.

(** Which stages one run of the stage sequence begins: all that are
    asked for when it returns a result; when it returns an error, those
    up to the stage of the one failing call, whose error it is. *)
Definition scan_steps (options : DebrickedOptions) (t : list Event)
           (res : result Upload.UploadResult) : Prop :=
  match res with
  | Ok r => entered t = enabled options
  | Err err =>
      exists st,
        failures_by_stage t = [(st, err)]
        /\ entered t = enabled_until st options
        /\ In st (entered t)
        /\ (forall r, In (Ok r) (uploads t) -> st = StReportSBOM)
  end.

(** Events that belong to no stage and show nothing of a verdict. *)
Definition quiet (t : list Event) : Prop :=
  stages t = [] /\ stage_failures t = [] /\ uploads t = []
  /\ renders t = [] /\ json_writes t = [] /\ printed_errors t = [].

(** What [Scan] makes of the result of the stage sequence: [r] is
    what it returns, [post] what it adds to the trace. *)
Definition concluded (dOptions : DebrickedOptions)
           (scanned : result Upload.UploadResult) (r : option error)
           (post : list Event) : Prop :=
  stages post = [] /\ stage_failures post = [] /\ uploads post = []
  /\ match scanned with
     | Err err =>
         let passed := error_eqb err NoResErr && PassOnTimeOut dOptions in
         r = (if passed then None else Some err)
         /\ printed_errors post = (if passed then [err] else [])
         /\ renders post = [] /\ json_writes post = []
     | Ok result =>
         printed_errors post = []
         /\ if Upload.LongQueue result then
              r = None /\ renders post = [] /\ json_writes post = []
            else
              r = (if verdict (Upload.AutomationRules result)
                   then Some FailPipelineErr else None)
              /\ renders post = Upload.AutomationRules result
              /\ json_writes post
                 = (if String.eqb (JsonFilePath dOptions) "" then []
                    else [JsonFilePath dOptions])
     end.

(** The preparation leaves the policy options as the caller set
    them. *)
Definition keeps_policy (o : DebrickedOptions)
           (p : result (DebrickedOptions * MetaObject)) : Prop :=
  match p with
  | Ok (d, _) =>
      PassOnTimeOut d = PassOnTimeOut o
      /\ JsonFilePath d = JsonFilePath o
  | Err _ => True
  end.

(** What one run of the pipeline looks like: the preparation failed,
    or it was followed by the stage sequence and the conclusion. *)
Definition Scan_outline (o : DebrickedOptions) (t : list Event)
           (r : option error) : Prop :=
  (quiet t /\ r <> None)
  \/ exists d res pre mid post,
       t = (pre ++ mid ++ post)%list
       /\ quiet pre
       /\ PassOnTimeOut d = PassOnTimeOut o
       /\ JsonFilePath d = JsonFilePath o
       /\ scan_shape d mid res /\ concluded d res r post.

(** *** The parts of [Scan] and of [scan], named

    [Scan] prepares the options and the git object, runs the stage
    sequence and concludes; [scan] runs the resolve and fingerprint
    stages and then the remaining ones.  The parts are the text of the
    two functions, cut at these points (see [Scan_parts] and
    [scan_fingerprint_parts]). *)

Notation "x <- m ;; k" := (bind m (fun x => k))
  (at level 61, m at next level, right associativity).
Notation "m ;; k" := (bind m (fun _ => k))
  (at level 61, right associativity).

Variable dScanner : DebrickedScanner.
Variable pkg : Packages.

Definition prepare (dOptions : DebrickedOptions)
  : M (result (DebrickedOptions * MetaObject)) :=
  debug_Log "Options initialized, finding CI service..." (Debug dOptions) ;;
  found <- call (Find (ciService dScanner))
                (fun r => EvFind (fst r) (snd r)) ;;
  let e := fst found in
  debug_Log "Mapping environment variables..." (Debug dOptions) ;;
  let dOptions := MapEnvToOptions dOptions e in
  dOptions <- UpdatedEmptyCommitName pkg dOptions ;;
  moved <- SetWorkingDirectory pkg dOptions ;;
  let dOptions := fst moved in
  match snd moved with
  | Some err => ret (Err err)
  | None =>
  debug_Log "Setting up git objects..." (Debug dOptions) ;;
  meta <- call (NewMetaObject pkg (Path dOptions) (RepositoryName dOptions)
                  (CommitName dOptions) (BranchName dOptions)
                  (CommitAuthor dOptions) (RepositoryUrl dOptions))
               (EvNewMetaObject (Path dOptions) (RepositoryName dOptions)
                  (CommitName dOptions) (BranchName dOptions)
                  (CommitAuthor dOptions) (RepositoryUrl dOptions)) ;;
  match meta with
  | Err err => ret (Err err)
  | Ok gitMetaObject =>
  debug_Log "Running scan with initialized scanner..." (Debug dOptions) ;;
  ret (Ok (dOptions, gitMetaObject))
  end end.

Definition conclude (dOptions : DebrickedOptions)
           (scanned : result Upload.UploadResult) : M (option error) :=
  match scanned with
  | Err err => handleScanError err (PassOnTimeOut dOptions)
  | Ok result =>
  if Upload.LongQueue result then
    emit (EvPrint ("Progress polling terminated due to long scan times. Please try again later" ++ newline)) ;;
    emit (EvPrint ("For full details, visit: "
                   ++ BlueString pkg (Upload.DetailsUrl result)
                   ++ newline ++ newline)) ;;
    ret None
  else
    WriteApiReplyToJsonFile pkg dOptions result ;;
    emit (EvPrint (newline ++ decimal (Upload.VulnerabilitiesFound result)
                   ++ " vulnerabilities found" ++ newline)) ;;
    emit (EvPrint newline) ;;
    failPipeline <- renderRules (Upload.AutomationRules result) false ;;
    emit (EvPrint ("For full details, visit: "
                   ++ BlueString pkg (Upload.DetailsUrl result)
                   ++ newline ++ newline)) ;;
    if failPipeline then ret (Some FailPipelineErr) else ret None
  end.

Definition untilFingerprint (options : DebrickedOptions)
  : M (option error) :=
  debug_Log "Running scanResolve..." (Debug options) ;;
  err <- scanResolve dScanner options ;;
  match err with
  | Some err => ret (Some err)
  | None =>
      debug_Log "Running scanFingerprint..." (Debug options) ;;
      ret None
  end.

Definition afterFingerprint (options : DebrickedOptions)
           (gitMetaObject : MetaObject)
  : M (result Upload.UploadResult) :=
  resErr <- (if CallGraph options then
               debug_Log "Running scanFingerprint..." (Debug options) ;;
               let configs :=
                 [ Config.NewConfig "java" [] [("pm", "maven")] true
                                    "maven" (Version options);
                   Config.NewConfig "golang" [] [("pm", "go")] true
                                    "go" (Version options) ] in
               let timeout := CallGraphGenerateTimeout options in
               let path := Path options in
               let path := if String.eqb path "" then "." else path in
               let callgraphOptions :=
                 {| Callgraph.Paths := [path];
                    Callgraph.Exclusions := Exclusions options;
                    Callgraph.Inclusions := Inclusions options;
                    Callgraph.Configs := configs;
                    Callgraph.Timeout := timeout |} in
               call (GenerateWithTimer (callgraph dScanner) callgraphOptions)
                    (EvGenerateWithTimer callgraphOptions)
             else ret None) ;;
  match resErr with
  | Some resErr => ret (Err resErr)
  | None =>
  debug_Log "Matching groups..." (Debug options) ;;
  let finderOptions :=
    {| Finder.RootPath := Path options;
       Finder.Exclusions := Exclusions options;
       Finder.Inclusions := Inclusions options;
       Finder.LockFileOnly := false;
       Finder.Strictness := StrictAll pkg |} in
  groups <- call (GetGroups (finder dScanner) finderOptions)
                 (EvGetGroups finderOptions) ;;
  match groups with
  | Err err => ret (Err err)
  | Ok fileGroups =>
  debug_Log "Starting upload..." (Debug options) ;;
  config <- getDebrickedConfig dScanner pkg (Path options)
                               (Exclusions options) (Inclusions options) ;;
  let uploaderOptions : UploaderOptions :=
    {| Upload.FileGroups := fileGroups;
       Upload.GitMetaObject := gitMetaObject;
       Upload.IntegrationsName := IntegrationName options;
       Upload.CallGraphUploadTimeout := CallGraphUploadTimeout options;
       Upload.VersionHint := VersionHint options;
       Upload.DebrickedConfig := config;
       Upload.TagCommitAsRelease := TagCommitAsRelease options;
       Upload.Experimental := Experimental options |} in
  uploaded <- call (Upload_ (uploader dScanner) uploaderOptions)
                   (EvUpload uploaderOptions) ;;
  match uploaded with
  | Err err => ret (Err err)
  | Ok result =>
  err <- scanReportSBOM dScanner pkg options (Upload.DetailsUrl result) ;;
  match err with
  | Some err => ret (Err err)
  | None => ret (Ok result)
  end end end end.

(** The packages with another JSON serialiser and file writer. *)
Definition with_json_writer
           (marshalIndent : Upload.UploadResult -> string -> string ->
                            string * option error)
           (writeFile : string -> string -> Z -> W -> option error * W)
  : Packages :=
  {| DefaultExclusionsFingerprint := DefaultExclusionsFingerprint pkg;
     DefaultInclusionsFingerprint := DefaultInclusionsFingerprint pkg;
     OutputFileNameFingerprints := OutputFileNameFingerprints pkg;
     ToFile := ToFile pkg;
     StrictAll := StrictAll pkg;
     GetDebrickedConfig := GetDebrickedConfig pkg;
     ParseDetailsURL := ParseDetailsURL pkg;
     Order := Order pkg;
     NewMetaObject := NewMetaObject pkg;
     BlueString := BlueString pkg;
     Abs := Abs pkg;
     Chdir := Chdir pkg;
     Now_Unix := Now_Unix pkg;
     MarshalIndent := marshalIndent;
     WriteFile := writeFile |}.

End Notions.

End Pipeline.

(** ** A small world to run the pipeline in *)

Module Demo.

Import Scan Pipeline.

(** Nothing outside the process matters here: the world is trivial and
    the collaborators answer as they are told to. *)
Definition World : Type := unit.
Definition MetaObject : Type := string.
Definition Groups : Type := list string.
Definition Fingerprints : Type := list string.
Definition DebrickedConfig : Type := unit.

Definition State : Type :=
  @Scan.State World MetaObject Groups Fingerprints DebrickedConfig.

Definition start : State := {| world := tt; trace := [] |}.

Definition noEnv : Env.Env :=
  {| Env.Repository := ""; Env.Commit := ""; Env.Branch := "";
     Env.Author := ""; Env.RepositoryUrl := ""; Env.Integration := "";
     Env.Filepath := "" |}.

Definition scanner (resolved : option error) (enterprise : bool)
           (uploaded : result Upload.UploadResult)
  : @DebrickedScanner World MetaObject Groups Fingerprints DebrickedConfig :=
  {| client := {| IsEnterpriseCustomer := fun _ w => (enterprise, w) |};
     finder := {| GetGroups := fun _ w => (Ok ["package.json"], w);
                  GetConfigPath := fun _ _ _ w => ("", w) |};
     uploader := {| Upload_ := fun _ w => (uploaded, w) |};
     ciService := {| Find := fun w => ((noEnv, None), w) |};
     resolver := {| Resolve_ := fun _ _ w => (resolved, w) |};
     fingerprint := {| FingerprintFiles := fun _ w => (Ok ["f"], w) |};
     callgraph := {| GenerateWithTimer := fun _ w => (None, w) |} |}.

Definition packages (parsed : result (string * string))
           (ordered written : option error)
  : @Packages World MetaObject Fingerprints DebrickedConfig :=
  {| DefaultExclusionsFingerprint := File.DefaultExclusionsFingerprint;
     DefaultInclusionsFingerprint := [];
     OutputFileNameFingerprints := "fingerprints.txt";
     ToFile := fun _ _ w => (None, w);
     StrictAll := 0;
     GetDebrickedConfig := fun _ w => (None, w);
     ParseDetailsURL := fun _ _ w => (parsed, w);
     Order := fun _ _ w => (ordered, w);
     NewMetaObject := fun _ repositoryName _ _ _ _ w => (Ok repositoryName, w);
     BlueString := fun text => text;
     Abs := fun path w => ((path, None), w);
     Chdir := fun _ w => (None, w);
     Now_Unix := fun w => (0%Z, w);
     MarshalIndent := fun _ _ _ => ("{}", None);
     WriteFile := fun _ _ _ w => (written, w) |}.

Definition options (fingerprint : bool) (sbom : string)
           (passOnTimeOut : bool) (jsonFilePath : string)
  : DebrickedOptions :=
  {| Path := "."; Resolve := true; Fingerprint := fingerprint;
     CallGraph := true; SBOM := sbom; SBOMOutput := "";
     Exclusions := File.DefaultExclusions; Inclusions := [];
     Verbose := false; Debug := false; Regenerate := 0;
     VersionHint := false; RepositoryName := "repository";
     CommitName := "commit"; GenerateCommitName := false;
     BranchName := "main"; CommitAuthor := "author";
     RepositoryUrl := ""; IntegrationName := "CLI";
     JsonFilePath := jsonFilePath; NpmPreferred := false;
     PassOnTimeOut := passOnTimeOut;
     CallGraphUploadTimeout := 600; CallGraphGenerateTimeout := 600;
     MinFingerprintContentLength := 45;
     TagCommitAsRelease := false; Experimental := false;
     Version := "v0" |}.

Definition failingRule : Upload.AutomationRule :=
  {| Upload.Triggered := true; Upload.FailPipeline := true |}.

Definition warningRule : Upload.AutomationRule :=
  {| Upload.Triggered := true; Upload.FailPipeline := false |}.

Definition finished (rules : list Upload.AutomationRule)
  : Upload.UploadResult :=
  {| Upload.LongQueue := false; Upload.DetailsUrl := "https://details";
     Upload.VulnerabilitiesFound := 2; Upload.AutomationRules := rules |}.

Definition queued : Upload.UploadResult :=
  {| Upload.LongQueue := true; Upload.DetailsUrl := "https://details";
     Upload.VulnerabilitiesFound := 0; Upload.AutomationRules := [] |}.

(** C3 as the claim states it, for one run with the rules of an
    upload: with no rule triggered the pipeline-failure error is never
    returned; with a rule that is triggered and fails the pipeline it
    always is, after every triggered rule was rendered. *)
Definition verdict_decides
           (t : list (@Event MetaObject Groups Fingerprints DebrickedConfig))
           (r : option error) : Prop :=
  forall result,
    In (Ok result) (uploads t) ->
    ((forall rule, In rule (Upload.AutomationRules result) ->
                   Upload.Triggered rule = false) ->
     r <> Some FailPipelineErr)
    /\ ((exists rule, In rule (Upload.AutomationRules result)
                      /\ Upload.Triggered rule = true
                      /\ Upload.FailPipeline rule = true) ->
        r = Some FailPipelineErr
        /\ forall rule, In rule (Upload.AutomationRules result) ->
                        Upload.Triggered rule = true ->
                        In rule (renders t)).

(** C5 as the claim states it, for one run: a stage error is what the
    pipeline returns, unless it is the no-result error of the upload
    stage under pass-on-timeout. *)
Definition only_upload_timeout_passes (o : DebrickedOptions)
           (t : list (@Event MetaObject Groups Fingerprints DebrickedConfig))
           (r : option error) : Prop :=
  forall st err,
    In (st, err) (pick failure_in_stage t) ->
    r = (if stage_eqb st StUpload && error_eqb err NoResErr
            && PassOnTimeOut o
         then None else Some err).

(** C6 as the claim states it, for one run: once [Upload] has returned
    the long-queue outcome the pipeline returns no error, writes no
    JSON result and renders no rule. *)
Definition long_queue_ends_well
           (t : list (@Event MetaObject Groups Fingerprints DebrickedConfig))
           (r : option error) : Prop :=
  forall result,
    In (Ok result) (uploads t) -> Upload.LongQueue result = true ->
    r = None /\ json_writes t = [] /\ renders t = [].

End Demo.

(** ** More on the preparation of the options *)

Module Options.

Import Scan.

(** The value a text option takes: the caller's when there is one, the
    environment's otherwise. *)
Definition or_env (given detected : string) : string :=
  if String.eqb given "" then detected else given.

(** The integration name: the environment's only over the default. *)
Definition integration_or_env (given detected : string) : string :=
  if String.eqb given "CLI" && negb (String.eqb detected "")
  then detected else given.

(** The steps of [MapEnvToOptions], one conditional assignment each. *)
Definition fill_RepositoryName (env : Env.Env) (o : DebrickedOptions) :=
  if Nat.eqb (String.length (RepositoryName o)) 0
  then set_RepositoryName (Env.Repository env) o else o.

Definition fill_CommitName (env : Env.Env) (o : DebrickedOptions) :=
  if Nat.eqb (String.length (CommitName o)) 0
  then set_CommitName (Env.Commit env) o else o.

Definition fill_BranchName (env : Env.Env) (o : DebrickedOptions) :=
  if Nat.eqb (String.length (BranchName o)) 0
  then set_BranchName (Env.Branch env) o else o.

Definition fill_CommitAuthor (env : Env.Env) (o : DebrickedOptions) :=
  if Nat.eqb (String.length (CommitAuthor o)) 0
  then set_CommitAuthor (Env.Author env) o else o.

Definition fill_RepositoryUrl (env : Env.Env) (o : DebrickedOptions) :=
  if Nat.eqb (String.length (RepositoryUrl o)) 0
  then set_RepositoryUrl (Env.RepositoryUrl env) o else o.

Definition fill_IntegrationName (env : Env.Env) (o : DebrickedOptions) :=
  if String.eqb (IntegrationName o) "CLI"
  then if negb (Nat.eqb (String.length (Env.Integration env)) 0)
       then set_IntegrationName (Env.Integration env) o else o
  else o.

Definition fill_Path (env : Env.Env) (o : DebrickedOptions) :=
  if Nat.eqb (String.length (Path o)) 0
     && Nat.ltb 0 (String.length (Env.Filepath env))
  then set_Path (Env.Filepath env) o else o.

(** What [MapEnvToOptions] returns, field by field. *)
Definition mapped (o : DebrickedOptions) (env : Env.Env) : DebrickedOptions :=
  {| Path := or_env (Path o) (Env.Filepath env);
     Resolve := Resolve o; Fingerprint := Fingerprint o;
     CallGraph := CallGraph o; SBOM := SBOM o; SBOMOutput := SBOMOutput o;
     Exclusions := Exclusions o; Inclusions := Inclusions o;
     Verbose := Verbose o; Debug := Debug o; Regenerate := Regenerate o;
     VersionHint := VersionHint o;
     RepositoryName := or_env (RepositoryName o) (Env.Repository env);
     CommitName := or_env (CommitName o) (Env.Commit env);
     GenerateCommitName := GenerateCommitName o;
     BranchName := or_env (BranchName o) (Env.Branch env);
     CommitAuthor := or_env (CommitAuthor o) (Env.Author env);
     RepositoryUrl := or_env (RepositoryUrl o) (Env.RepositoryUrl env);
     IntegrationName :=
       integration_or_env (IntegrationName o) (Env.Integration env);
     JsonFilePath := JsonFilePath o; NpmPreferred := NpmPreferred o;
     PassOnTimeOut := PassOnTimeOut o;
     CallGraphUploadTimeout := CallGraphUploadTimeout o;
     CallGraphGenerateTimeout := CallGraphGenerateTimeout o;
     MinFingerprintContentLength := MinFingerprintContentLength o;
     TagCommitAsRelease := TagCommitAsRelease o;
     Experimental := Experimental o; Version := Version o |}.

End Options.

(** ** What flows between the calls of a run *)

Module Flow.

Import Scan Pipeline.

(** The methods of the collaborators, in the order in which a run can
    call them. *)
Inductive Call :=
| CallFind
| CallNow
| CallAbs
| CallChdir
| CallNewMetaObject
| CallResolve
| CallIsEnterpriseCustomer
| CallFingerprintFiles
| CallToFile
| CallGenerateWithTimer
| CallGetGroups
| CallGetConfigPath
| CallGetDebrickedConfig
| CallUpload
| CallParseDetailsURL
| CallOrder
| CallWriteFile.

Definition call_rank (c : Call) : nat :=
  match c with
  | CallFind => 0
  | CallNow => 1
  | CallAbs => 2
  | CallChdir => 3
  | CallNewMetaObject => 4
  | CallResolve => 5
  | CallIsEnterpriseCustomer => 6
  | CallFingerprintFiles => 7
  | CallToFile => 8
  | CallGenerateWithTimer => 9
  | CallGetGroups => 10
  | CallGetConfigPath => 11
  | CallGetDebrickedConfig => 12
  | CallUpload => 13
  | CallParseDetailsURL => 14
  | CallOrder => 15
  | CallWriteFile => 16
  end.

Definition call_before (a b : Call) : Prop := call_rank a < call_rank b.

Fixpoint increasing (l : list nat) : bool :=
  match l with
  | [] => true
  | x :: l' =>
      match l' with
      | [] => true
      | y :: _ => Nat.ltb x y && increasing l'
      end
  end.

Section Picks.

Context {W MetaObject Groups Fingerprints DebrickedConfig : Type}.

Local Abbreviation Event :=
  (@Event MetaObject Groups Fingerprints DebrickedConfig).
Local Abbreviation Packages :=
  (@Packages W MetaObject Fingerprints DebrickedConfig).
Local Abbreviation UploaderOptions :=
  (@UploaderOptions MetaObject Groups DebrickedConfig).

(** The calls to collaborators in a trace. *)
Definition call_of (e : Event) : option Call :=
  match e with
  | EvFind _ _ => Some CallFind
  | EvNow _ => Some CallNow
  | EvAbs _ _ _ => Some CallAbs
  | EvChdir _ _ => Some CallChdir
  | EvNewMetaObject _ _ _ _ _ _ _ => Some CallNewMetaObject
  | EvResolve _ _ _ => Some CallResolve
  | EvIsEnterpriseCustomer _ _ => Some CallIsEnterpriseCustomer
  | EvFingerprintFiles _ _ => Some CallFingerprintFiles
  | EvToFile _ _ _ => Some CallToFile
  | EvGenerateWithTimer _ _ => Some CallGenerateWithTimer
  | EvGetGroups _ _ => Some CallGetGroups
  | EvGetConfigPath _ _ _ _ => Some CallGetConfigPath
  | EvGetDebrickedConfig _ _ => Some CallGetDebrickedConfig
  | EvUpload _ _ => Some CallUpload
  | EvParseDetailsURL _ _ => Some CallParseDetailsURL
  | EvOrder _ _ => Some CallOrder
  | EvWriteFile _ _ _ _ => Some CallWriteFile
  | EvDebugLog _ _ | EvPrint _ | EvPrintln _ | EvRender _ => None
  end.

Definition calls (t : list Event) : list Call := pick call_of t.

Definition in_order (t : list Event) : Prop :=
  increasing (map call_rank (calls t)) = true.

(** The path the call-graph generator is given. *)
Definition callgraph_path (options : DebrickedOptions) : string :=
  if String.eqb (Path options) "" then "." else Path options.

(** The calls of the stage sequence and its debug lines. *)
Definition stage_or_debug (e : Event) : bool :=
  match e with
  | EvDebugLog _ _ => true
  | _ => match stage_of e with Some _ => true | None => false end
  end.

(** The groups the finder returned, and what the uploader was given. *)
Definition groups_found (t : list Event) : list Groups :=
  pick (fun e => match e with EvGetGroups _ (Ok g) => Some g | _ => None end) t.

Definition upload_inputs (t : list Event) : list UploaderOptions :=
  pick (fun e => match e with EvUpload o _ => Some o | _ => None end) t.

(** The configuration chosen for the upload: none when the finder knows
    no configuration file, what was read from it otherwise. *)
Definition config_chosen (t : list Event) : list (option DebrickedConfig) :=
  pick (fun e => match e with
                 | EvGetConfigPath _ _ _ p =>
                     if String.eqb p "" then Some None else None
                 | EvGetDebrickedConfig _ c => Some c
                 | _ => None
                 end) t.

Definition config_paths (t : list Event) : list string :=
  pick (fun e => match e with
                 | EvGetConfigPath _ _ _ p => Some p
                 | _ => None
                 end) t.

Definition config_reads (t : list Event) : list string :=
  pick (fun e => match e with
                 | EvGetDebrickedConfig p _ => Some p
                 | _ => None
                 end) t.

(** The fingerprints computed, and those written with the file name. *)
Definition fingerprints_made (t : list Event) : list Fingerprints :=
  pick (fun e => match e with
                 | EvFingerprintFiles _ (Ok f) => Some f
                 | _ => None
                 end) t.

Definition fingerprints_written (t : list Event)
  : list (Fingerprints * string) :=
  pick (fun e => match e with
                 | EvToFile f name _ => Some (f, name)
                 | _ => None
                 end) t.

(** The details URLs parsed, the identifiers obtained, the SBOM orders. *)
Definition urls_parsed (t : list Event) : list string :=
  pick (fun e => match e with
                 | EvParseDetailsURL url _ => Some url
                 | _ => None
                 end) t.

Definition ids_parsed (t : list Event) : list (string * string) :=
  pick (fun e => match e with
                 | EvParseDetailsURL _ (Ok ids) => Some ids
                 | _ => None
                 end) t.

Definition orders (t : list Event) : list Sbom.OrderArgs :=
  pick (fun e => match e with EvOrder a _ => Some a | _ => None end) t.

Definition uploaded (t : list Event) : list Upload.UploadResult :=
  pick (fun e => match e with EvUpload _ (Ok r) => Some r | _ => None end) t.

(** The arguments each call of a stage gets from the options. *)
Definition stage_inputs (pkg : Packages) (options : DebrickedOptions)
           (g : MetaObject) (e : Event) : Prop :=
  match e with
  | EvResolve paths ro _ =>
      paths = [Path options]
      /\ ro = {| Resolution.Path := Path options;
                 Resolution.Verbose := Verbose options;
                 Resolution.Regenerate := Regenerate options;
                 Resolution.Exclusions := Exclusions options;
                 Resolution.Inclusions := Inclusions options;
                 Resolution.NpmPreferred := NpmPreferred options |}
  | EvIsEnterpriseCustomer silent _ => silent = false
  | EvFingerprintFiles fo _ =>
      fo = {| Fingerprint.Path := Path options;
              Fingerprint.Exclusions :=
                (Exclusions options ++ DefaultExclusionsFingerprint pkg)%list;
              Fingerprint.Inclusions :=
                (Inclusions options ++ DefaultInclusionsFingerprint pkg)%list;
              Fingerprint.MinFingerprintContentLength :=
                MinFingerprintContentLength options;
              Fingerprint.FingerprintCompressedContent := false;
              Fingerprint.Regenerate := Z.ltb 0 (Regenerate options) |}
  | EvToFile _ name _ => name = OutputFileNameFingerprints pkg
  | EvGenerateWithTimer co _ =>
      Callgraph.Paths co = [callgraph_path options]
      /\ Callgraph.Exclusions co = Exclusions options
      /\ Callgraph.Inclusions co = Inclusions options
      /\ Callgraph.Timeout co = CallGraphGenerateTimeout options
      /\ map Config.language (Callgraph.Configs co) = ["java"; "golang"]
      /\ map Config.packageManager (Callgraph.Configs co) = ["maven"; "go"]
      /\ map Config.version (Callgraph.Configs co)
         = [Version options; Version options]
  | EvGetGroups fo _ =>
      fo = {| Finder.RootPath := Path options;
              Finder.Exclusions := Exclusions options;
              Finder.Inclusions := Inclusions options;
              Finder.LockFileOnly := false;
              Finder.Strictness := StrictAll pkg |}
  | EvGetConfigPath path exclusions inclusions _ =>
      path = Path options /\ exclusions = Exclusions options
      /\ inclusions = Inclusions options
  | EvUpload uo _ =>
      Upload.GitMetaObject uo = g
      /\ Upload.IntegrationsName uo = IntegrationName options
      /\ Upload.CallGraphUploadTimeout uo = CallGraphUploadTimeout options
      /\ Upload.VersionHint uo = VersionHint options
      /\ Upload.TagCommitAsRelease uo = TagCommitAsRelease options
      /\ Upload.Experimental uo = Experimental options
  | EvOrder a _ =>
      Sbom.Format a = SBOM options /\ Sbom.Branch a = BranchName options
      /\ Sbom.Vulnerabilities a = true /\ Sbom.Licenses a = true
      /\ Sbom.Output a = SBOMOutput options
  | _ => True
  end.

(** What flows through one run of the stage sequence. *)
Definition scan_flow (pkg : Packages) (options : DebrickedOptions)
           (g : MetaObject) (t : list Event) : Prop :=
  forallb stage_or_debug t = true
  /\ in_order t
  /\ Forall (stage_inputs pkg options g) t
  /\ map Upload.FileGroups (upload_inputs t) = groups_found t
  /\ map Upload.DebrickedConfig (upload_inputs t) = config_chosen t
  /\ config_reads t
     = filter (fun p => negb (String.eqb p "")) (config_paths t)
  /\ fingerprints_written t
     = map (fun f => (f, OutputFileNameFingerprints pkg)) (fingerprints_made t)
  /\ urls_parsed t
     = (if String.eqb (SBOM options) "" then []
        else map Upload.DetailsUrl (uploaded t))
  /\ map (fun a => (Sbom.RepositoryID a, Sbom.CommitID a)) (orders t)
     = ids_parsed t.

(** *** The preparation *)

Definition preparation_event (e : Event) : bool :=
  match e with
  | EvDebugLog _ _ | EvFind _ _ | EvNow _ | EvAbs _ _ _ | EvChdir _ _
  | EvPrint _ | EvNewMetaObject _ _ _ _ _ _ _ => true
  | _ => false
  end.

Definition finds (t : list Event) : list Env.Env :=
  pick (fun e => match e with EvFind env _ => Some env | _ => None end) t.

Definition clock_reads (t : list Event) : list Z :=
  pick (fun e => match e with EvNow z => Some z | _ => None end) t.

(** The paths made absolute, with the result, and the directories the
    process was asked to move to. *)
Definition abs_results (t : list Event) : list (string * string) :=
  pick (fun e => match e with EvAbs p a _ => Some (p, a) | _ => None end) t.

Definition chdirs (t : list Event) : list string :=
  pick (fun e => match e with EvChdir dir _ => Some dir | _ => None end) t.

(** The arguments of the git object: path, repository, commit, branch,
    author, repository URL. *)
Definition metas (t : list Event)
  : list (string * string * string * string * string * string) :=
  pick (fun e => match e with
                 | EvNewMetaObject p r c b a u _ => Some (p, r, c, b, a, u)
                 | _ => None
                 end) t.

Definition metas_made (t : list Event) : list MetaObject :=
  pick (fun e => match e with
                 | EvNewMetaObject _ _ _ _ _ _ (Ok g) => Some g
                 | _ => None
                 end) t.

Definition preparation_failures (t : list Event) : list error :=
  pick (fun e => match e with
                 | EvChdir _ (Some err) => Some err
                 | EvNewMetaObject _ _ _ _ _ _ (Err err) => Some err
                 | _ => None
                 end) t.

Definition prints (t : list Event) : list string :=
  pick (fun e => match e with EvPrint text => Some text | _ => None end) t.

(** The options after the environment is mapped and the commit name is
    generated from the clock readings of the run, if any. *)
Definition generates (o : DebrickedOptions) : bool :=
  GenerateCommitName o && String.eqb (CommitName o) "".

Definition named (o : DebrickedOptions) (env : Env.Env) (clock : list Z)
  : DebrickedOptions :=
  let o := MapEnvToOptions o env in
  match clock with
  | z :: _ => set_CommitName ("generated-" ++ decimal z) o
  | [] => o
  end.

(** What one preparation looks like: [pre] is what it adds to the trace,
    [p] the options and git object it hands on, or its error. *)
Definition prepare_flow (o : DebrickedOptions) (pre : list Event)
           (p : result (DebrickedOptions * MetaObject)) : Prop :=
  forallb preparation_event pre = true
  /\ in_order pre
  /\ exists env,
       finds pre = [env]
       /\ length (clock_reads pre)
          = (if generates (MapEnvToOptions o env) then 1 else 0)
       /\ let o' := named o env (clock_reads pre) in
          map fst (abs_results pre) = [Path o']
          /\ chdirs pre = map snd (abs_results pre)
          /\ match p with
             | Ok (d, g) =>
                 d = set_Path "" o'
                 /\ preparation_failures pre = []
                 /\ metas pre
                    = [("", RepositoryName o', CommitName o', BranchName o',
                        CommitAuthor o', RepositoryUrl o')]
                 /\ metas_made pre = [g]
                 /\ prints pre
                    = map (fun dir => "Working directory: " ++ dir ++ newline)
                          (chdirs pre)
             | Err err =>
                 preparation_failures pre = [err]
                 /\ metas_made pre = []
                 /\ (metas pre = []
                     \/ metas pre
                        = [("", RepositoryName o', CommitName o',
                            BranchName o', CommitAuthor o', RepositoryUrl o')])
             end.

(** *** The conclusion *)

Definition conclusion_event (e : Event) : bool :=
  match e with
  | EvPrint _ | EvPrintln _ | EvRender _ | EvWriteFile _ _ _ _ => true
  | _ => false
  end.

Definition json_files (t : list Event) : list (string * string * Z) :=
  pick (fun e => match e with
                 | EvWriteFile name data perm _ => Some (name, data, perm)
                 | _ => None
                 end) t.

Definition details_line (pkg : Packages) (result : Upload.UploadResult)
  : string :=
  "For full details, visit: " ++ BlueString pkg (Upload.DetailsUrl result)
  ++ newline ++ newline.

Definition conclude_flow (pkg : Packages) (d : DebrickedOptions)
           (scanned : result Upload.UploadResult) (post : list Event) : Prop :=
  forallb conclusion_event post = true
  /\ in_order post
  /\ match scanned with
     | Err _ => json_files post = [] /\ prints post = []
     | Ok result =>
         if Upload.LongQueue result then
           json_files post = []
           /\ prints post
              = [ "Progress polling terminated due to long scan times. Please try again later" ++ newline;
                  details_line pkg result ]
         else
           json_files post
           = (if String.eqb (JsonFilePath d) "" then []
              else [(JsonFilePath d, fst (MarshalIndent pkg result "" " "),
                     384%Z)])
           /\ prints post
              = [ newline ++ decimal (Upload.VulnerabilitiesFound result)
                  ++ " vulnerabilities found" ++ newline;
                  newline;
                  details_line pkg result ]
     end.

(** *** A whole run *)

(** The options the stages and the conclusion work with: the named
    options with the path emptied. *)
Definition in_place (e : Event) : Prop :=
  match e with
  | EvNewMetaObject p _ _ _ _ _ _ => p = ""
  | EvResolve paths ro _ => paths = [""] /\ Resolution.Path ro = ""
  | EvFingerprintFiles fo _ => Fingerprint.Path fo = ""
  | EvGenerateWithTimer co _ => Callgraph.Paths co = ["."]
  | EvGetGroups fo _ => Finder.RootPath fo = ""
  | EvGetConfigPath p _ _ _ => p = ""
  | _ => True
  end.

Definition patterns_kept (pkg : Packages) (o : DebrickedOptions) (e : Event)
  : Prop :=
  match e with
  | EvResolve _ ro _ =>
      Resolution.Exclusions ro = Exclusions o
      /\ Resolution.Inclusions ro = Inclusions o
  | EvFingerprintFiles fo _ =>
      Fingerprint.Exclusions fo
      = (Exclusions o ++ DefaultExclusionsFingerprint pkg)%list
      /\ Fingerprint.Inclusions fo
         = (Inclusions o ++ DefaultInclusionsFingerprint pkg)%list
  | EvGenerateWithTimer co _ =>
      Callgraph.Exclusions co = Exclusions o
      /\ Callgraph.Inclusions co = Inclusions o
  | EvGetGroups fo _ =>
      Finder.Exclusions fo = Exclusions o
      /\ Finder.Inclusions fo = Inclusions o
  | EvGetConfigPath _ exclusions inclusions _ =>
      exclusions = Exclusions o /\ inclusions = Inclusions o
  | _ => True
  end.

(** The settings each call gets: the caller's, and for the upload the
    integration name after the environment was mapped. *)
Definition settings_kept (pkg : Packages) (o : DebrickedOptions)
           (env : Env.Env) (e : Event) : Prop :=
  match e with
  | EvResolve _ ro _ =>
      Resolution.Verbose ro = Verbose o
      /\ Resolution.Regenerate ro = Regenerate o
      /\ Resolution.NpmPreferred ro = NpmPreferred o
  | EvIsEnterpriseCustomer silent _ => silent = false
  | EvFingerprintFiles fo _ =>
      Fingerprint.MinFingerprintContentLength fo
      = MinFingerprintContentLength o
      /\ Fingerprint.FingerprintCompressedContent fo = false
      /\ Fingerprint.Regenerate fo = Z.ltb 0 (Regenerate o)
  | EvGenerateWithTimer co _ =>
      Callgraph.Timeout co = CallGraphGenerateTimeout o
      /\ map Config.language (Callgraph.Configs co) = ["java"; "golang"]
      /\ map Config.packageManager (Callgraph.Configs co) = ["maven"; "go"]
      /\ map Config.version (Callgraph.Configs co) = [Version o; Version o]
  | EvGetGroups fo _ =>
      Finder.LockFileOnly fo = false /\ Finder.Strictness fo = StrictAll pkg
  | EvUpload uo _ =>
      Upload.IntegrationsName uo
      = (if String.eqb (IntegrationName o) "CLI"
            && negb (String.eqb (Env.Integration env) "")
         then Env.Integration env else IntegrationName o)
      /\ Upload.CallGraphUploadTimeout uo = CallGraphUploadTimeout o
      /\ Upload.VersionHint uo = VersionHint o
      /\ Upload.TagCommitAsRelease uo = TagCommitAsRelease o
      /\ Upload.Experimental uo = Experimental o
  | _ => True
  end.

Definition Scan_flow (pkg : Packages) (o : DebrickedOptions)
           (t : list Event) (r : option error) : Prop :=
  exists pre p,
    prepare_flow o pre p
    /\ match p with
       | Err err => t = pre /\ r = Some err
       | Ok (d, g) =>
           exists mid post res,
             t = (pre ++ mid ++ post)%list
             /\ scan_flow pkg d g mid /\ scan_shape d mid res
             /\ scan_steps d mid res
             /\ conclude_flow pkg d res post /\ concluded d res r post
       end.

End Picks.

End Flow.

(** ** What a run of the fingerprint command shows *)

Module Command.

Import FingerprintCmd.

Section Notions.

Context {W Output : Type}.

Local Abbreviation Event := (@FingerprintCmd.Event Output).
Local Abbreviation State := (@FingerprintCmd.State W Output).
Local Abbreviation M := (@FingerprintCmd.M W Output).

(** The files written in a trace, and the fingerprinting calls. *)
Definition written (t : list Event) : list (Output * string) :=
  Pipeline.pick (fun e => match e with
                          | EvToFile output name _ => Some (output, name)
                          | _ => None
                          end) t.

Definition fingerprinted (t : list Event)
  : list (string * list string * result Output) :=
  Pipeline.pick (fun e => match e with
                          | EvFingerprintFiles path exclusions r =>
                              Some (path, exclusions, r)
                          | _ => None
                          end) t.

Definition observed {A : Type} (m : M A) (s : State) : list Event :=
  skipn (length (trace s)) (trace (snd (m s))).

Definition returned {A : Type} (m : M A) (s : State) : A := fst (m s).

End Notions.

End Command.

(** ** Further sample runs *)

Module Samples.

Import Scan Pipeline.

(** Options with every name given and an integration name of the
    caller's own. *)
Definition complete : DebrickedOptions :=
  {| Path := "project"; Resolve := true; Fingerprint := false;
     CallGraph := false; SBOM := ""; SBOMOutput := "";
     Exclusions := File.DefaultExclusions; Inclusions := [];
     Verbose := false; Debug := false; Regenerate := 0;
     VersionHint := false; RepositoryName := "repository";
     CommitName := "commit"; GenerateCommitName := true;
     BranchName := "main"; CommitAuthor := "author";
     RepositoryUrl := "https://repository"; IntegrationName := "azureDevOps";
     JsonFilePath := ""; NpmPreferred := false;
     PassOnTimeOut := false;
     CallGraphUploadTimeout := 600; CallGraphGenerateTimeout := 600;
     MinFingerprintContentLength := 45;
     TagCommitAsRelease := false; Experimental := false;
     Version := "v0" |}.

(** Options without a commit name, which is to be generated. *)
Definition unnamed : DebrickedOptions :=
  {| Path := "project"; Resolve := true; Fingerprint := false;
     CallGraph := false; SBOM := ""; SBOMOutput := "";
     Exclusions := File.DefaultExclusions; Inclusions := [];
     Verbose := false; Debug := false; Regenerate := 0;
     VersionHint := false; RepositoryName := "";
     CommitName := ""; GenerateCommitName := true;
     BranchName := ""; CommitAuthor := "author";
     RepositoryUrl := ""; IntegrationName := "CLI";
     JsonFilePath := ""; NpmPreferred := false;
     PassOnTimeOut := true;
     CallGraphUploadTimeout := 600; CallGraphGenerateTimeout := 600;
     MinFingerprintContentLength := 45;
     TagCommitAsRelease := false; Experimental := false;
     Version := "v0" |}.

(** What a CI service detects. *)
Definition detected : Env.Env :=
  {| Env.Repository := "detected/repository"; Env.Commit := "";
     Env.Branch := "detected-branch"; Env.Author := "detected-author";
     Env.RepositoryUrl := "https://detected"; Env.Integration := "github";
     Env.Filepath := "detected-path" |}.

(** A scanner in that CI service, whose other collaborators succeed. *)
Definition scanner (uploaded : result Upload.UploadResult)
  : @DebrickedScanner Demo.World Demo.MetaObject Demo.Groups
                      Demo.Fingerprints Demo.DebrickedConfig :=
  {| client := {| IsEnterpriseCustomer := fun _ w => (true, w) |};
     finder := {| GetGroups := fun _ w => (Ok ["package.json"], w);
                  GetConfigPath := fun _ _ _ w => ("", w) |};
     uploader := {| Upload_ := fun _ w => (uploaded, w) |};
     ciService := {| Find := fun w => ((detected, None), w) |};
     resolver := {| Resolve_ := fun _ _ w => (None, w) |};
     fingerprint := {| FingerprintFiles := fun _ w => (Ok ["f"], w) |};
     callgraph := {| GenerateWithTimer := fun _ w => (None, w) |} |}.

(** Packages as in the other sample runs, with a clock that has
    advanced and a working directory that may be out of reach. *)
Definition packages (moved : option error)
  : @Packages Demo.World Demo.MetaObject Demo.Fingerprints
              Demo.DebrickedConfig :=
  {| DefaultExclusionsFingerprint := File.DefaultExclusionsFingerprint;
     DefaultInclusionsFingerprint := [];
     OutputFileNameFingerprints := "fingerprints.txt";
     ToFile := fun _ _ w => (None, w);
     StrictAll := 0;
     GetDebrickedConfig := fun _ w => (None, w);
     ParseDetailsURL := fun _ _ w => (Ok ("1", "2"), w);
     Order := fun _ _ w => (None, w);
     NewMetaObject := fun _ repositoryName _ _ _ _ w => (Ok repositoryName, w);
     BlueString := fun text => text;
     Abs := fun path w => (("/home/" ++ path, None), w);
     Chdir := fun _ w => (moved, w);
     Now_Unix := fun w => (1700000000%Z, w);
     MarshalIndent := fun _ _ _ => ("{}", None);
     WriteFile := fun _ _ _ w => (None, w) |}.

(** A state later in the life of the process. *)
Definition later : Demo.State :=
  {| world := tt; trace := [EvPrint "started"] |}.

End Samples.

(** ** Properties of the exclusion sets and of the path classifier *)

Section FileFacts.

Import Props.

Lemma Split_nonempty (s : string) (sep : ascii) : Strings.Split s sep <> [].
Proof.
  destruct s as [|c s]; simpl; [discriminate|].
  destruct (Ascii.eqb c sep); [discriminate|].
  destruct (Strings.Split s sep); discriminate.
Qed.

Lemma Split_no_separator (s : string) (sep : ascii) :
  Strings.contains sep s = false -> Strings.Split s sep = [s].
Proof.
  induction s as [|c s IH]; simpl; intros H; [reflexivity|].
  apply orb_false_iff in H as [Hc Hs].
  rewrite Hc, (IH Hs). reflexivity.
Qed.

Lemma Split_singleton (s : string) (sep : ascii) (x : string) :
  Strings.Split s sep = [x] -> x = s /\ Strings.contains sep s = false.
Proof.
  revert x. induction s as [|c s IH]; simpl; intros x H.
  - injection H as <-. split; reflexivity.
  - destruct (Ascii.eqb c sep) eqn:E.
    + injection H as _ H. now apply Split_nonempty in H.
    + destruct (Strings.Split s sep) as [|h t] eqn:Es.
      * now apply Split_nonempty in Es.
      * injection H as <- ->. destruct (IH h eq_refl) as [-> Hc].
        split; [reflexivity|exact Hc].
Qed.

(** Joining what [Split] returned gives the string back: the pieces are
    verbatim substrings, nothing is trimmed or re-quoted. *)
Lemma Join_Split (s : string) (sep : ascii) :
  Strings.Join (Strings.Split s sep) (String sep "") = s.
Proof.
  unfold Strings.Join.
  induction s as [|c s IH]; simpl; [reflexivity|].
  destruct (Ascii.eqb_spec c sep) as [->|Hne].
  - destruct (Strings.Split s sep) as [|h t] eqn:Es.
    + now apply Split_nonempty in Es.
    + simpl in *. now rewrite IH.
  - destruct (Strings.Split s sep) as [|h t] eqn:Es.
    + now apply Split_nonempty in Es.
    + destruct t; simpl in *; now rewrite <- IH.
Qed.

Lemma ToSlash_id (path : string) : Filepath.ToSlash path = path.
Proof.
  induction path as [|c rest IH]; simpl; [reflexivity|].
  rewrite IH. unfold Filepath.Separator.
  destruct (Ascii.eqb_spec c "/"); congruence.
Qed.

(** The decision rule, whatever the matcher: a matching inclusion wins. *)
Lemma ExcludedWith_inclusion (glob_match : string -> string -> bool)
      (exclusions inclusions : list string) (path : string) :
  File.any_match glob_match inclusions (Filepath.ToSlash path) = true ->
  File.ExcludedWith glob_match exclusions inclusions path = false.
Proof. unfold File.ExcludedWith. now intros ->. Qed.

Lemma ExcludedWith_no_inclusion (glob_match : string -> string -> bool)
      (exclusions : list string) (path : string) :
  File.ExcludedWith glob_match exclusions [] path
  = File.any_match glob_match exclusions (Filepath.ToSlash path).
Proof.
  unfold File.ExcludedWith. simpl.
  now destruct (File.any_match glob_match exclusions _).
Qed.

(** C1: a path that some inclusion pattern glob-matches is never
    excluded, whatever the exclusion patterns are and however many of
    them match it. *)
Theorem Excluded_inclusions_dominate
        (exclusions inclusions : list string) (p : string) :
  (exists inclusion,
      In inclusion inclusions /\ Glob.Match inclusion p = true) ->
  File.Excluded exclusions inclusions p = false.
Proof.
  intros [inclusion [Hin Hm]].
  apply ExcludedWith_inclusion. rewrite ToSlash_id.
  apply existsb_exists. now exists inclusion.
Qed.

Lemma Excluded_inclusions_dominate_witness :
  File.Excluded ["**/node_modules/**"; "**/*.json"] ["**/package.json"]
                "node_modules/package.json" = false.
Proof.
  apply Excluded_inclusions_dominate.
  exists "**/package.json". split; [left; reflexivity | vm_compute; reflexivity].
Defined.

(** The cases of [TestExcluded], and the depth-independent match of the
    data model. *)
Example TestExcluded_NodeModules :
  File.Excluded ["**/node_modules/**"] [] "node_modules/package.json" = true.
Proof. vm_compute. reflexivity. Qed.

Example TestExcluded_Inclusions :
  File.Excluded ["**/node_modules/**"] ["**/package.json"]
                "node_modules/package.json" = false.
Proof. vm_compute. reflexivity. Qed.

Example Match_at_any_depth :
  Glob.Match "**/node_modules/**" "a/b/node_modules/pkg.json" = true
  /\ Glob.Match "*/composer/*" "testdata/composer/composer.lock" = true
  /\ Glob.Match "*/composer/*" "testdata/sub/composer/composer.lock" = false
  /\ Glob.Match "**/*.{mod,sum}" "testdata/go/go.sum" = true
  /\ Glob.Match "**/[a-c]?[!x-z]" "testdata/bdy" = false.
Proof. vm_compute. repeat split. Qed.

Example DefaultExclusionsFingerprint_value :
  File.DefaultExclusionsFingerprint
  = [ "**/nbproject/**"; "**/nbbuild/**"; "**/nbdist/**";
      "**/node_modules/**"; "**/__pycache__/**"; "**/_yardoc/**";
      "**/eggs/**"; "**/wheels/**"; "**/htmlcov/**";
      "**/__pypackages__/**"; "**/*.egg-info/**"; "**/*venv/**" ].
Proof. reflexivity. Qed.

(** *** Bare file names *)

Lemma plain_char_inv (c : ascii) :
  plain_char c = true ->
  Ascii.eqb c "*" = false /\ Ascii.eqb c "?" = false
  /\ Ascii.eqb c "[" = false /\ Ascii.eqb c "{" = false
  /\ Ascii.eqb c "/" = false.
Proof.
  unfold plain_char. intros H. apply negb_true_iff in H.
  repeat (apply orb_false_iff in H as [H ?]). now repeat split.
Qed.

Lemma parse_braces_bare (s : string) (cur : list Glob.brace) :
  bare_filename s = true ->
  Glob.parse_braces s cur [] = None
  \/ Glob.parse_braces s cur [] = Some (rev cur ++ bchars s)%list.
Proof.
  revert cur. induction s as [|c s IH]; simpl; intros cur H.
  - right. now rewrite app_nil_r.
  - apply andb_true_iff in H as [Hc Hs].
    apply plain_char_inv in Hc as (_ & _ & _ & Hbrace & _).
    rewrite Hbrace.
    destruct (Ascii.eqb c ","); [|destruct (Ascii.eqb c "}")];
      try (now left);
      (destruct (IH (Glob.BChar c :: cur) Hs) as [E|E]; rewrite E;
       [now left | right; simpl; now rewrite <- app_assoc]).
Qed.

Lemma expand_seq_bchars (s : string) : Glob.expand_seq (bchars s) = [s].
Proof.
  induction s as [|c s IH]; simpl; [reflexivity|]. now rewrite IH.
Qed.

Lemma bare_no_separator (s : string) :
  bare_filename s = true -> Strings.contains "/" s = false.
Proof.
  induction s as [|c s IH]; simpl; intros H; [reflexivity|].
  apply andb_true_iff in H as [Hc Hs]. rewrite (IH Hs).
  apply plain_char_inv in Hc as (_ & _ & _ & _ & Hslash).
  now rewrite Hslash.
Qed.

Lemma tokens_bare (s : string) :
  bare_filename s = true -> Glob.tokens s Glob.Outside = Some (lits s).
Proof.
  induction s as [|c s IH]; simpl; intros H; [reflexivity|].
  apply andb_true_iff in H as [Hc Hs]. rewrite (IH Hs).
  apply plain_char_inv in Hc as (Hstar & Hq & Hclass & _ & _).
  now rewrite Hstar, Hq, Hclass.
Qed.

Lemma bare_not_doublestar (s : string) :
  bare_filename s = true -> String.eqb s "**" = false.
Proof.
  destruct s as [|c s]; [reflexivity|]. simpl. intros H.
  apply andb_true_iff in H as [Hc _].
  apply plain_char_inv in Hc as (Hstar & _). now rewrite Hstar.
Qed.

Lemma match_toks_lits (pat s : string) :
  Glob.match_toks (lits pat) s = true -> s = pat.
Proof.
  revert s. induction pat as [|c pat IH]; simpl; intros s H.
  - now apply String.eqb_eq in H.
  - destruct s as [|c' s]; [discriminate|].
    apply andb_true_iff in H as [Hc Hs].
    apply Ascii.eqb_eq in Hc as ->. now rewrite (IH s Hs).
Qed.

(** The matcher on a bare file name: it compiles to one literal segment,
    or it does not compile at all (a stray closing brace). *)
Lemma compile_bare (pat : string) :
  bare_filename pat = true ->
  Glob.compile pat = None
  \/ Glob.compile pat = Some [[Glob.Seg (lits pat)]].
Proof.
  intros H. unfold Glob.compile.
  destruct (parse_braces_bare pat [] H) as [E|E]; rewrite E; [now left|].
  right. simpl. rewrite expand_seq_bchars. simpl.
  unfold Glob.parse_path.
  rewrite (Split_no_separator pat "/" (bare_no_separator pat H)). simpl.
  unfold Glob.parse_seg.
  now rewrite (bare_not_doublestar pat H), (tokens_bare pat H).
Qed.

Lemma Match_bare (pat p : string) :
  bare_filename pat = true -> Glob.Match pat p = true -> p = pat.
Proof.
  intros Hb. unfold Glob.Match.
  destruct (compile_bare pat Hb) as [E|E]; rewrite E; [discriminate|].
  simpl. rewrite orb_false_r.
  destruct (Strings.Split p "/") as [|x [|y t]] eqn:Es; try discriminate.
  - rewrite andb_true_r. intros Hm. apply match_toks_lits in Hm. subst x.
    apply Split_singleton in Es. now destruct Es.
  - now rewrite andb_false_r.
Qed.

(** C2: an exclusion list that holds one bare file name (no wildcard,
    no separator) excludes only the path that is this very name: the
    name as the single and last segment, nothing in front of it; so the
    nested [sub/dir/composer.json] is not excluded by [composer.json],
    and it is excluded by [**/composer.json]. *)
Theorem Excluded_bare_filename :
  (forall pat p,
      bare_filename pat = true ->
      File.Excluded [pat] [] p = true ->
      p = pat /\ Strings.contains "/" p = false)
  /\ File.Excluded ["composer.json"] [] "sub/dir/composer.json" = false
  /\ File.Excluded ["**/composer.json"] [] "sub/dir/composer.json" = true.
Proof.
  split; [|split; vm_compute; reflexivity].
  intros pat p Hb H. unfold File.Excluded in H.
  rewrite ExcludedWith_no_inclusion, ToSlash_id in H.
  simpl in H. rewrite orb_false_r in H.
  apply (Match_bare pat p Hb) in H. subst p.
  split; [reflexivity | now apply bare_no_separator].
Qed.

Lemma Excluded_bare_filename_witness :
  "composer.json" = "composer.json"
  /\ Strings.contains "/" "composer.json" = false.
Proof.
  apply (proj1 Excluded_bare_filename "composer.json" "composer.json");
    vm_compute; reflexivity.
Defined.

(** *** The effective exclusion set *)

(** C7: a present, non-empty override is split on commas; the pieces
    are the override's own substrings (joining them with commas gives
    the value back) and they are the whole result, none of the defaults
    is kept; the override of the test yields its three patterns in
    order. *)
Theorem Exclusions_override :
  (forall env value,
      env File.debrickedExclusionEnvVar = Some value ->
      value <> "" ->
      File.Exclusions env = Strings.Split value ","
      /\ Strings.Join (File.Exclusions env) "," = value)
  /\ (forall env,
         File.Exclusions
           (File.Setenv env File.debrickedExclusionEnvVar
                        "*/**.lock,**/node_modules/**,*\**.ex")
         = ["*/**.lock"; "**/node_modules/**"; "*\**.ex"]).
Proof.
  split.
  - intros env value Hv Hne.
    assert (E : File.Exclusions env = Strings.Split value ",").
    { unfold File.Exclusions, File.Getenv. rewrite Hv.
      destruct (String.eqb_spec value ""); [contradiction|reflexivity]. }
    split; [exact E|]. rewrite E. apply Join_Split.
  - intros env. unfold File.Exclusions, File.Getenv, File.Setenv.
    rewrite String.eqb_refl. reflexivity.
Qed.

Lemma Exclusions_override_witness :
  File.Exclusions (File.Setenv (fun _ => None) File.debrickedExclusionEnvVar
                               "a,, b ")
  = ["a"; ""; " b "]
  /\ Strings.Join
       (File.Exclusions
          (File.Setenv (fun _ => None) File.debrickedExclusionEnvVar "a,, b "))
       "," = "a,, b ".
Proof.
  apply (proj1 Exclusions_override
               (File.Setenv (fun _ => None) File.debrickedExclusionEnvVar
                            "a,, b ")
               "a,, b ");
    [reflexivity | discriminate].
Defined.

(** C8: an override set to the empty string counts as absent: the
    result is the general defaults followed by the platform excludes, in
    their fixed order, and it is not the empty list. *)
Theorem Exclusions_empty_override (env : File.Environ) :
  env File.debrickedExclusionEnvVar = Some "" ->
  File.Exclusions env = (File.DefaultExclusions ++ File.PlatformExclusions)%list
  /\ File.Exclusions env
     = [ "**/node_modules/**"; "**/vendor/**"; "**/.git/**"; "**/obj/**";
         "**/bower_components/**"; "**/.vscode-test/**" ]
  /\ File.Exclusions env <> []
  /\ File.Exclusions env = File.Exclusions (fun _ => None).
Proof.
  intros H. unfold File.Exclusions, File.Getenv. rewrite H. simpl.
  repeat split. discriminate.
Qed.

Lemma Exclusions_empty_override_witness :
  File.Exclusions (File.Setenv (fun _ => None) File.debrickedExclusionEnvVar "")
  = (File.DefaultExclusions ++ File.PlatformExclusions)%list.
Proof.
  apply (Exclusions_empty_override
           (File.Setenv (fun _ => None) File.debrickedExclusionEnvVar "")).
  reflexivity.
Defined.

End FileFacts.

(** ** Properties of the scan pipeline *)

Section ScanFacts.

Import Scan Pipeline.

Context {W MetaObject Groups Fingerprints DebrickedConfig : Type}.

Local Abbreviation Event :=
  (@Event MetaObject Groups Fingerprints DebrickedConfig).
Local Abbreviation State :=
  (@State W MetaObject Groups Fingerprints DebrickedConfig).
Local Abbreviation M :=
  (@M W MetaObject Groups Fingerprints DebrickedConfig).
Local Abbreviation DebrickedScanner :=
  (@DebrickedScanner W MetaObject Groups Fingerprints DebrickedConfig).
Local Abbreviation Packages :=
  (@Packages W MetaObject Fingerprints DebrickedConfig).

Notation "x <- m ;; k" := (bind m (fun x => k))
  (at level 61, m at next level, right associativity).
Notation "m ;; k" := (bind m (fun _ => k))
  (at level 61, right associativity).

(** *** Traces *)

Lemma pick_app {A B : Type} (f : A -> option B) (l l' : list A) :
  pick f (l ++ l') = (pick f l ++ pick f l')%list.
Proof.
  induction l as [|x l IH]; simpl; [reflexivity|].
  destruct (f x); simpl; now rewrite IH.
Qed.

Lemma observed_app {A : Type} (m : M A) (s : State) (t : list Event) :
  trace (snd (m s)) = (trace s ++ t)%list -> observed m s = t.
Proof.
  unfold observed. intros ->.
  rewrite skipn_app, skipn_all, Nat.sub_diag. reflexivity.
Qed.

Ltac break_match :=
  match goal with
  | |- context [match ?x with _ => _ end] =>
      lazymatch x with
      | context [match _ with _ => _ end] => fail
      | _ => destruct x
      end
  end.

Ltac forget t :=
  tryif is_var t then fail else
    let x := fresh "arg" in set (x := t) in *; clearbody x.

(** Arguments of calls and texts that play no part in the shape of a
    run are made anonymous before the paths are enumerated. *)
Ltac forget_arguments :=
  repeat match goal with
         | |- context [EvDebugLog ?m _] => forget m
         | |- context [EvPrint ?m] => forget m
         | |- context [EvResolve ?p ?o] => first [forget p | forget o]
         | |- context [EvFingerprintFiles ?o] => forget o
         | |- context [EvGenerateWithTimer ?o] => forget o
         | |- context [EvGetGroups ?o] => forget o
         end.

Ltac split_run H :=
  apply pair_equal_spec in H; destruct H as [<- <-]; cbn [trace].

Ltac give_trace :=
  first [ exists []; split; [symmetry; apply app_nil_r|]
        | eexists; split; [rewrite <- ?app_assoc; reflexivity|] ].

(** Every run of the stage sequence, path by path. *)
Lemma scan_run (dScanner : DebrickedScanner) (pkg : Packages)
      (options : DebrickedOptions) (g : MetaObject) (s : State) res s' :
  scan dScanner pkg options g s = (res, s') ->
  exists t, trace s' = (trace s ++ t)%list /\ scan_shape options t res.
Proof.
  unfold scan, scanResolve, scanFingerprint, scanReportSBOM,
    getDebrickedConfig, debug_Log, bind, call, emit, ret.
  cbv beta zeta.
  forget_arguments.
  destruct (Resolve options) eqn:HR, (Fingerprint options) eqn:HF,
    (CallGraph options) eqn:HC, (String.eqb (SBOM options) "") eqn:HS.
  all: repeat break_match.
  all: intros H; split_run H; give_trace.
  all: unfold scan_shape; rewrite ?HS; cbn; repeat split; auto.
  all: try solve [ left; reflexivity
                 | right; left; reflexivity
                 | right; right; eexists; split; reflexivity ].
Qed.

(** Which stages a run of the stage sequence begins, path by path. *)
Lemma scan_begins (dScanner : DebrickedScanner) (pkg : Packages)
      (options : DebrickedOptions) (g : MetaObject) (s : State) res s' :
  scan dScanner pkg options g s = (res, s') ->
  exists t, trace s' = (trace s ++ t)%list /\ scan_steps options t res.
Proof.
  unfold scan, scanResolve, scanFingerprint, scanReportSBOM,
    getDebrickedConfig, debug_Log, bind, call, emit, ret.
  cbv beta zeta.
  forget_arguments.
  destruct (Resolve options) eqn:HR, (Fingerprint options) eqn:HF,
    (CallGraph options) eqn:HC, (String.eqb (SBOM options) "") eqn:HS.
  all: repeat break_match.
  all: intros H; split_run H; give_trace.
  all: unfold scan_steps, enabled_until, enabled;
    rewrite ?HR, ?HF, ?HC, ?HS; cbn.
  all: try reflexivity.
  all: eexists; split; [reflexivity|]; split; [reflexivity|].
  all: split; [auto 8 using in_eq, in_cons|].
  all: intros r Hin; try reflexivity.
  all: solve [ destruct Hin | destruct Hin as [Hin|[]]; discriminate Hin ].
Qed.

(** *** The parts of the two functions *)

Lemma Scan_parts (dScanner : DebrickedScanner) (pkg : Packages)
      (o : DebrickedOptions) (s : State) :
  Scan dScanner pkg (Debricked o) s
  = (prepared <- prepare dScanner pkg o ;;
     match prepared with
     | Err err => ret (Some err)
     | Ok (dOptions, gitMetaObject) =>
         scanned <- scan dScanner pkg dOptions gitMetaObject ;;
         conclude pkg dOptions scanned
     end) s.
Proof.
  unfold Scan, prepare, conclude, bind, ret.
  repeat (break_match; try reflexivity).
Qed.

Lemma renderRules_run (rules : list Upload.AutomationRule) (b : bool)
      (s : State) :
  renderRules rules b s
  = (b || verdict rules,
     {| world := world s; trace := (trace s ++ map EvRender rules)%list |}).
Proof.
  revert b s. induction rules as [|rule rest IH]; intros b s; simpl.
  - unfold ret. rewrite orb_false_r, app_nil_r. now destruct s.
  - unfold bind, emit. rewrite IH. simpl.
    now rewrite orb_assoc, <- app_assoc.
Qed.

Lemma renders_map_EvRender (rules : list Upload.AutomationRule) :
  renders (map EvRender rules : list Event) = rules.
Proof.
  unfold renders. induction rules as [|rule rest IH]; simpl; [reflexivity|].
  now rewrite IH.
Qed.

Lemma MapEnvToOptions_keeps (o : DebrickedOptions) (env : Env.Env) :
  PassOnTimeOut (MapEnvToOptions o env) = PassOnTimeOut o
  /\ JsonFilePath (MapEnvToOptions o env) = JsonFilePath o.
Proof.
  unfold MapEnvToOptions. cbv zeta.
  repeat (break_match; cbn [PassOnTimeOut JsonFilePath set_RepositoryName
            set_CommitName set_BranchName set_CommitAuthor set_RepositoryUrl
            set_IntegrationName set_Path]).
  all: split; reflexivity.
Qed.

Lemma prepare_run (dScanner : DebrickedScanner) (pkg : Packages)
      (o : DebrickedOptions) (s : State) p s1 :
  prepare dScanner pkg o s = (p, s1) ->
  exists pre,
    trace s1 = (trace s ++ pre)%list /\ quiet pre /\ keeps_policy o p.
Proof.
  unfold prepare, UpdatedEmptyCommitName, GenerateCommitNameTimestamp,
    SetWorkingDirectory, debug_Log, bind, call, emit, ret.
  cbv beta zeta. forget_arguments.
  repeat (break_match; cbn [fst snd world trace]).
  all: intros H; split_run H; give_trace.
  all: split; [repeat split|]; unfold keeps_policy; try exact I.
  all: cbn [PassOnTimeOut JsonFilePath set_Path set_CommitName fst];
    apply MapEnvToOptions_keeps.
Qed.

Lemma pick_map_EvRender {B : Type} (f : Event -> option B)
      (rules : list Upload.AutomationRule) :
  (forall rule, f (EvRender rule) = None) ->
  pick f (map EvRender rules) = [].
Proof.
  intros Hf. induction rules as [|rule rest IH]; simpl; [reflexivity|].
  now rewrite Hf.
Qed.

Lemma conclude_run (pkg : Packages) (d : DebrickedOptions)
      (scanned : result Upload.UploadResult) (s : State) r s' :
  conclude pkg d scanned s = (r, s') ->
  exists post,
    trace s' = (trace s ++ post)%list /\ concluded d scanned r post.
Proof.
  unfold conclude, concluded, handleScanError, WriteApiReplyToJsonFile,
    bind, call, emit, ret.
  forget_arguments.
  destruct scanned as [result|err].
  - destruct (Upload.LongQueue result).
    + intros H; split_run H. give_trace. repeat split.
    + destruct (String.eqb (JsonFilePath d) ""); cbn [negb].
      2: destruct (WriteFile pkg _ _ _ _) as [werr w].
      all: rewrite renderRules_run; cbn [trace orb world].
      all: destruct (verdict (Upload.AutomationRules result)).
      all: intros H; split_run H; give_trace.
      all: unfold stages, stage_failures, uploads, printed_errors,
             json_writes, renders.
      all: cbn [pick app]; rewrite !pick_app; cbn [pick app].
      all: rewrite ?app_nil_r; repeat split.
      all: try apply renders_map_EvRender.
      all: rewrite ?pick_map_EvRender by reflexivity; reflexivity.
  - cbv zeta. destruct (error_eqb err NoResErr && PassOnTimeOut d).
    all: intros H; split_run H; give_trace.
    all: repeat split.
Qed.

Lemma error_eqb_eq (a b : error) : error_eqb a b = true <-> a = b.
Proof.
  destruct a, b; simpl; split; intros H; try discriminate; try reflexivity.
  - apply String.eqb_eq in H. now subst.
  - injection H as ->. apply String.eqb_refl.
Qed.

Lemma Scan_run (dScanner : DebrickedScanner) (pkg : Packages)
      (o : DebrickedOptions) (s : State) r s' :
  Scan dScanner pkg (Debricked o) s = (r, s') ->
  exists t, trace s' = (trace s ++ t)%list /\ Scan_outline o t r.
Proof.
  rewrite Scan_parts. unfold bind.
  destruct (prepare dScanner pkg o s) as [p s1] eqn:Hp.
  apply prepare_run in Hp as (pre & Hpre & Hquiet & Hkeeps).
  destruct p as [[d g]|err].
  - destruct (scan dScanner pkg d g s1) as [res s2] eqn:Hs.
    apply scan_run in Hs as (mid & Hmid & Hshape).
    intros Hc. apply conclude_run in Hc as (post & Hpost & Hconcl).
    exists (pre ++ mid ++ post)%list. split.
    + rewrite Hpost, Hmid, Hpre. now rewrite <- !app_assoc.
    + right. exists d, res, pre, mid, post. destruct Hkeeps as [Hk1 Hk2].
      now repeat (split; [assumption || reflexivity|]).
  - unfold ret. intros H. apply pair_equal_spec in H as [<- <-].
    exists pre. split; [exact Hpre|]. left. split; [exact Hquiet|discriminate].
Qed.

(** What the outline says about the whole trace of a run. *)
Lemma outline_facts (o : DebrickedOptions) (t : list Event)
      (r : option error) :
  Scan_outline o t r ->
  (quiet t /\ r <> None)
  \/ exists d res (post : list Event),
       PassOnTimeOut d = PassOnTimeOut o
       /\ JsonFilePath d = JsonFilePath o
       /\ stage_failures t = match res with Ok _ => [] | Err err => [err] end
       /\ match res with
          | Ok result => uploads t = [Ok result]
          | Err err =>
              uploads t = [] \/ uploads t = [Err err]
              \/ exists r0, uploads t = [Ok r0] /\ ran StReportSBOM t = true
          end
       /\ renders t = renders post /\ json_writes t = json_writes post
       /\ printed_errors t = printed_errors post
       /\ concluded d res r post.
Proof.
  intros [H|(d & res & pre & mid & post & -> & Hq & Hk1 & Hk2 & Hs & Hc)];
    [now left|right].
  exists d, res, post.
  destruct Hq as (Hq1 & Hq2 & Hq3 & Hq4 & Hq5 & Hq6).
  destruct Hs as (_ & _ & Hs4 & Hs5 & Hs6 & Hs).
  pose proof Hc as (Hc1 & Hc2 & Hc3 & _).
  assert (Est : stages (pre ++ mid ++ post) = stages mid).
  { unfold stages in *. rewrite !pick_app, Hq1, Hc1. apply app_nil_r. }
  assert (Ef : stage_failures (pre ++ mid ++ post) = stage_failures mid).
  { unfold stage_failures in *. rewrite !pick_app, Hq2, Hc2.
    apply app_nil_r. }
  assert (Eu : uploads (pre ++ mid ++ post) = uploads mid).
  { unfold uploads in *. rewrite !pick_app, Hq3, Hc3. apply app_nil_r. }
  assert (Er : renders (pre ++ mid ++ post) = renders post).
  { unfold renders in *. now rewrite !pick_app, Hq4, Hs4. }
  assert (Ew : json_writes (pre ++ mid ++ post) = json_writes post).
  { unfold json_writes in *. now rewrite !pick_app, Hq5, Hs5. }
  assert (Ep : printed_errors (pre ++ mid ++ post) = printed_errors post).
  { unfold printed_errors in *. now rewrite !pick_app, Hq6, Hs6. }
  unfold ran in *. rewrite Est, Ef, Eu, Er, Ew, Ep.
  split; [exact Hk1|]. split; [exact Hk2|].
  split; [|split; [|do 3 (split; [reflexivity|]); exact Hc]].
  - destruct res; apply Hs.
  - destruct res as [result|err]; [apply Hs|].
    destruct Hs as (_ & [H|[H|(r0 & Hr0 & Hran)]]); auto.
    right; right. now exists r0.
Qed.

Lemma Scan_observed (dScanner : DebrickedScanner) (pkg : Packages)
      (o : DebrickedOptions) (s : State) :
  Scan_outline o (observed (Scan dScanner pkg (Debricked o)) s)
               (returned (Scan dScanner pkg (Debricked o)) s).
Proof.
  destruct (Scan dScanner pkg (Debricked o) s) as [r s'] eqn:E.
  pose proof (Scan_run _ _ _ _ _ _ E) as (t & Ht & Ho).
  unfold returned. rewrite (observed_app _ s t); rewrite E; assumption.
Qed.

Lemma verdict_true (rules : list Upload.AutomationRule) :
  verdict rules = true <->
  exists rule, In rule rules /\ Upload.Triggered rule = true
               /\ Upload.FailPipeline rule = true.
Proof.
  unfold verdict. rewrite existsb_exists.
  split; intros (rule & Hin & H); exists rule; (split; [exact Hin|]).
  - now apply andb_true_iff.
  - apply andb_true_iff. exact H.
Qed.

Lemma verdict_untriggered (rules : list Upload.AutomationRule) :
  (forall rule, In rule rules -> Upload.Triggered rule = false) ->
  verdict rules = false.
Proof.
  intros H. destruct (verdict rules) eqn:E; [|reflexivity].
  apply verdict_true in E as (rule & Hin & Ht & _).
  rewrite (H rule Hin) in Ht. discriminate.
Qed.

(** C5, as the code has it: an error returned by a stage is what the
    pipeline returns, unchanged, with one exception: when the error is
    the no-result error and pass-on-timeout is enabled, the pipeline
    prints it and returns no error -- whichever stage returned it. *)
Theorem Scan_stage_error (dScanner : DebrickedScanner) (pkg : Packages)
        (o : DebrickedOptions) (s : State) (err : error) :
  let t := observed (Scan dScanner pkg (Debricked o)) s in
  let r := returned (Scan dScanner pkg (Debricked o)) s in
  In err (stage_failures t) ->
  (err = NoResErr /\ PassOnTimeOut o = true ->
   r = None /\ printed_errors t = [NoResErr])
  /\ (~ (err = NoResErr /\ PassOnTimeOut o = true) ->
      r = Some err /\ printed_errors t = []).
Proof.
  intros t r Hin.
  destruct (outline_facts _ _ _ (Scan_observed dScanner pkg o s))
    as [[Hq _]|(d & res & post & Hk & _ & Hf & _ & _ & _ & Hp & Hc)];
    fold t in Hq || fold t r in Hf, Hp, Hc.
  - destruct Hq as (_ & Hq & _). rewrite Hq in Hin. destruct Hin.
  - rewrite Hf in Hin. destruct res as [result|err']; [destruct Hin|].
    destruct Hin as [->|[]].
    destruct Hc as (_ & _ & _ & Hret & Hprint & _).
    cbv zeta in Hret, Hprint. rewrite Hk in Hret, Hprint. rewrite Hp.
    split.
    + intros [-> Hpass]. rewrite Hpass in Hret, Hprint. now split.
    + intros Hnot.
      destruct (error_eqb err NoResErr && PassOnTimeOut o) eqn:E;
        [|now split].
      apply andb_true_iff in E as [E1 E2]. apply error_eqb_eq in E1.
      now destruct Hnot.
Qed.

Lemma scan_fingerprint_parts (dScanner : DebrickedScanner) (pkg : Packages)
      (options : DebrickedOptions) (g : MetaObject) (s : State) :
  scan dScanner pkg options g s
  = (err <- untilFingerprint dScanner options ;;
     match err with
     | Some err => ret (Err err)
     | None =>
         err <- scanFingerprint dScanner pkg options ;;
         match err with
         | Some err => ret (Err err)
         | None => afterFingerprint dScanner pkg options g
         end
     end) s.
Proof.
  unfold scan, untilFingerprint, afterFingerprint, bind, ret.
  repeat (break_match; try reflexivity).
Qed.

(** *** The order of the stages *)

Lemma sortedb_Sorted (l : list Stage) :
  sortedb (map rank l) = true -> Sorted stage_le l.
Proof.
  induction l as [|a l IH]; [constructor|].
  destruct l as [|b l]; [repeat constructor|].
  intros H. change (Nat.leb (rank a) (rank b) && sortedb (map rank (b :: l))
                    = true) in H.
  apply andb_true_iff in H as [Hab Hs].
  constructor; [now apply IH|]. constructor. now apply Nat.leb_le.
Qed.

Lemma sortedb_StronglySorted (l : list Stage) :
  sortedb (map rank l) = true -> StronglySorted stage_le l.
Proof.
  intros H. apply Sorted_StronglySorted; [|now apply sortedb_Sorted].
  intros a b c. unfold stage_le. lia.
Qed.

Lemma StronglySorted_last (l : list Stage) (x : Stage) :
  StronglySorted stage_le (l ++ [x]) -> Forall (fun y => stage_le y x) l.
Proof.
  induction l as [|a l IH]; simpl; intros H; [constructor|].
  inversion H as [|? ? Hs Hall]; subst. constructor; [|now apply IH].
  rewrite Forall_forall in Hall. apply Hall, in_elt.
Qed.

Lemma aborts_after (res : result Upload.UploadResult) (t t1 t2 : list Event)
      (e : Event) (err : error) :
  aborts res t -> t = (t1 ++ e :: t2)%list -> stage_failure e = Some err ->
  t2 = [] /\ res = Err err.
Proof.
  revert t. induction t1 as [|x t1 IH]; intros t Ha -> He; simpl in Ha.
  - now rewrite He in Ha.
  - destruct (stage_failure x).
    + destruct Ha as [Hnil _]. now destruct t1.
    + now apply (IH _ Ha).
Qed.

Lemma not_ran_beyond (st : Stage) (l : list Stage) (x : Stage) :
  Forall (fun y => stage_le y x) l -> rank x < rank st ->
  existsb (stage_eqb st) (l ++ [x]) = false.
Proof.
  intros Hall Hlt. rewrite existsb_app. apply orb_false_iff. split.
  - induction Hall as [|y l Hy _ IH]; simpl; [reflexivity|].
    rewrite IH, orb_false_r. apply Nat.eqb_neq.
    unfold stage_le in Hy. lia.
  - simpl. rewrite orb_false_r. apply Nat.eqb_neq. lia.
Qed.

(** C4: one run of the stage sequence.  Its calls come in the order
    Resolve, Fingerprint, CallGraph, GroupFiles, Upload, ReportSBOM; a
    call that returns an error is the last call of the run and its
    error is the result; so after a failure in a stage before Upload
    neither Upload nor ReportSBOM runs.  A run that returns a result
    has begun exactly the stages that the options ask for, each once
    and in that order, with no failing call, and the result is what the
    one call of [Upload] returned.  A run that returns an error has
    exactly one failing call, whose error it is, and has begun exactly
    the stages asked for up to the stage of that call, each once and in
    order, and none after it.  A run without a failing call returns a
    result. *)
Theorem scan_stage_order (dScanner : DebrickedScanner) (pkg : Packages)
        (options : DebrickedOptions) (g : MetaObject) (s : State) :
  let t := observed (scan dScanner pkg options g) s in
  let res := returned (scan dScanner pkg options g) s in
  StronglySorted stage_le (stages t)
  /\ (forall t1 e t2 err,
         t = (t1 ++ e :: t2)%list -> stage_failure e = Some err ->
         t2 = [] /\ res = Err err)
  /\ (forall e st err,
         In e t -> stage_of e = Some st -> stage_failure e = Some err ->
         rank st < rank StUpload ->
         ran StUpload t = false /\ ran StReportSBOM t = false)
  /\ (forall result,
         res = Ok result ->
         stage_failures t = []
         /\ ran StResolve t = Resolve options
         /\ ran StFingerprint t = Fingerprint options
         /\ ran StCallGraph t = CallGraph options
         /\ ran StGroupFiles t = true
         /\ ran StUpload t = true
         /\ ran StReportSBOM t = negb (String.eqb (SBOM options) ""))
  /\ (forall result,
         res = Ok result ->
         entered t = enabled options /\ uploads t = [Ok result])
  /\ (forall err,
         res = Err err ->
         exists st,
           failures_by_stage t = [(st, err)]
           /\ In st (entered t)
           /\ entered t = enabled_until st options)
  /\ (stage_failures t = [] -> exists result, res = Ok result).
Proof.
  intros t res. subst t res. unfold returned.
  destruct (scan dScanner pkg options g s) as [res s'] eqn:E.
  pose proof (scan_run _ _ _ _ _ _ _ E) as (t & Ht & Hshape).
  pose proof (scan_begins _ _ _ _ _ _ _ E) as (t' & Ht' & Hsteps).
  assert (t' = t) as ->
      by (rewrite Ht in Ht'; now apply app_inv_head in Ht').
  rewrite (observed_app _ s t) by (rewrite E; exact Ht).
  cbn [fst]. destruct Hshape as (Hsorted & Habort & _ & _ & _ & Hres).
  apply sortedb_StronglySorted in Hsorted.
  split; [exact Hsorted|]. split; [|split; [|split; [|split; [|split]]]].
  - intros t1 e t2 err Ht1 He. now apply (aborts_after res t t1 t2 e err).
  - intros e st err Hin Hst He Hlt.
    apply in_split in Hin as (t1 & t2 & Ht1).
    destruct (aborts_after res t t1 t2 e err Habort Ht1 He) as [-> _].
    unfold ran. subst t. unfold stages in *. rewrite pick_app in *.
    cbn [pick] in *. rewrite Hst in *.
    apply StronglySorted_last in Hsorted.
    split; apply not_ran_beyond; auto. simpl in *. lia.
  - intros result ->. destruct Hres as (_ & Hres). exact Hres.
  - intros result ->. split; [exact Hsteps|]. apply Hres.
  - intros err ->. destruct Hsteps as (st & Hfail & Hent & Hin & _).
    now exists st.
  - intros Hnone. destruct res as [result|err]; [now exists result|].
    destruct Hres as [Hres _]. rewrite Hres in Hnone. discriminate.
Qed.

(** *** The fingerprint stage *)

(** C9: with the fingerprint toggle on and a client that is not an
    enterprise customer, the fingerprint stage asks the client, calls
    neither the fingerprinter nor the writer of the output file, and
    returns no error; the stage sequence goes on with the stages after
    it. *)
Theorem scanFingerprint_not_enterprise
        (dScanner : DebrickedScanner) (pkg : Packages)
        (options : DebrickedOptions) (s : State) :
  Fingerprint options = true ->
  fst (IsEnterpriseCustomer (client dScanner) false (world s)) = false ->
  let s' := {| world := snd (IsEnterpriseCustomer (client dScanner) false
                                                  (world s));
               trace := (trace s ++ [EvIsEnterpriseCustomer false false])%list
            |} in
  scanFingerprint dScanner pkg options s = (None, s')
  /\ observed (scanFingerprint dScanner pkg options) s
     = [EvIsEnterpriseCustomer false false]
  /\ (forall g s0,
         untilFingerprint dScanner options s0 = (None, s) ->
         scan dScanner pkg options g s0
         = afterFingerprint dScanner pkg options g s').
Proof.
  intros Hon Hno s'.
  assert (E : scanFingerprint dScanner pkg options s = (None, s')).
  { unfold scanFingerprint, bind, call, ret. rewrite Hon.
    subst s'. destruct (IsEnterpriseCustomer _ _ _) as [b w].
    simpl in Hno. subst b. reflexivity. }
  split; [exact E|]. split.
  - apply observed_app. now rewrite E.
  - intros g s0 Hs0. rewrite scan_fingerprint_parts. unfold bind.
    now rewrite Hs0, E.
Qed.

(** With the toggle off the stage does nothing at all. *)
Lemma scanFingerprint_off (dScanner : DebrickedScanner) (pkg : Packages)
      (options : DebrickedOptions) (s : State) :
  Fingerprint options = false ->
  scanFingerprint dScanner pkg options s = (None, s).
Proof. unfold scanFingerprint. now intros ->. Qed.

(** *** The JSON result file *)

Lemma concluded_returns (d : DebrickedOptions)
      (res : result Upload.UploadResult) (r r' : option error)
      (post post' : list Event) :
  concluded d res r post -> concluded d res r' post' -> r = r'.
Proof.
  intros (_ & _ & _ & H) (_ & _ & _ & H').
  destruct res as [result|err].
  - destruct H as [_ H], H' as [_ H'].
    destruct (Upload.LongQueue result);
      destruct H as [-> _], H' as [-> _]; reflexivity.
  - destruct H as [-> _], H' as [-> _]. reflexivity.
Qed.

Lemma Scan_json_writer (dScanner : DebrickedScanner) (pkg : Packages)
      marshalIndent writeFile (io : IOptions) (s : State) :
  returned (Scan dScanner (with_json_writer pkg marshalIndent writeFile) io) s
  = returned (Scan dScanner pkg io) s.
Proof.
  unfold returned. destruct io as [o|]; [|reflexivity].
  rewrite !Scan_parts. unfold bind.
  change (prepare dScanner (with_json_writer pkg marshalIndent writeFile) o s)
    with (prepare dScanner pkg o s).
  destruct (prepare dScanner pkg o s) as [[[d g]|err] s1]; [|reflexivity].
  change (scan dScanner (with_json_writer pkg marshalIndent writeFile) d g s1)
    with (scan dScanner pkg d g s1).
  destruct (scan dScanner pkg d g s1) as [res s2].
  destruct (conclude (with_json_writer pkg marshalIndent writeFile) d res s2)
    as [r1 s3] eqn:E1.
  destruct (conclude pkg d res s2) as [r2 s4] eqn:E2.
  apply conclude_run in E1 as (post1 & _ & H1).
  apply conclude_run in E2 as (post2 & _ & H2).
  exact (concluded_returns _ _ _ _ _ _ H1 H2).
Qed.

(** C10: writing the JSON result never changes what the pipeline
    returns.  Nothing is written when no file path is configured; with
    a path there is one write, whose error is dropped; and the pipeline
    returns the same with any serialiser and any file writer, failing
    or not. *)
Theorem json_write_is_inert (dScanner : DebrickedScanner) (pkg : Packages) :
  (forall marshalIndent writeFile io s,
      returned (Scan dScanner (with_json_writer pkg marshalIndent writeFile)
                     io) s
      = returned (Scan dScanner pkg io) s)
  /\ (forall o result (s : State),
         JsonFilePath o = "" ->
         WriteApiReplyToJsonFile pkg o result s = (tt, s))
  /\ (forall o result (s : State),
         JsonFilePath o <> "" ->
         let file := fst (MarshalIndent pkg result "" " ") in
         observed (WriteApiReplyToJsonFile pkg o result) s
         = [EvWriteFile (JsonFilePath o) file 384
              (fst (WriteFile pkg (JsonFilePath o) file 384 (world s)))])
  /\ (forall o s,
         JsonFilePath o = "" ->
         json_writes (observed (Scan dScanner pkg (Debricked o)) s) = []).
Proof.
  split; [intros; apply Scan_json_writer|]. split; [|split].
  - intros o result s Hempty. unfold WriteApiReplyToJsonFile.
    now rewrite Hempty.
  - intros o result s Hpath file. apply observed_app.
    unfold WriteApiReplyToJsonFile, bind, call, ret.
    destruct (String.eqb_spec (JsonFilePath o) ""); [contradiction|].
    cbn [negb]. fold file.
    now destruct (WriteFile pkg (JsonFilePath o) file 384 (world s)).
  - intros o s Hempty.
    destruct (outline_facts _ _ _ (Scan_observed dScanner pkg o s))
      as [[Hq _]|(d & res & post & _ & Hk & _ & _ & _ & Hw & _ & Hc)].
    + apply Hq.
    + rewrite Hw. destruct Hc as (_ & _ & _ & Hc).
      destruct res as [result|err]; [|apply Hc].
      destruct Hc as [_ Hc]. destruct (Upload.LongQueue result);
        [apply Hc|].
      destruct Hc as (_ & _ & ->). now rewrite Hk, Hempty.
Qed.

End ScanFacts.

Section OptionFacts.

Import Scan Options.

Lemma length_zero (s : string) : Nat.eqb (String.length s) 0 = String.eqb s "".
Proof. now destruct s. Qed.

Lemma length_positive (s : string) :
  Nat.ltb 0 (String.length s) = negb (String.eqb s "").
Proof. now destruct s. Qed.

Lemma MapEnvToOptions_steps (o : DebrickedOptions) (env : Env.Env) :
  MapEnvToOptions o env
  = fill_Path env
      (fill_IntegrationName env
         (fill_RepositoryUrl env
            (fill_CommitAuthor env
               (fill_BranchName env
                  (fill_CommitName env (fill_RepositoryName env o)))))).
Proof. reflexivity. Qed.

Lemma options_eta (o : DebrickedOptions) :
  o = {| Path := Path o; Resolve := Resolve o; Fingerprint := Fingerprint o;
         CallGraph := CallGraph o; SBOM := SBOM o; SBOMOutput := SBOMOutput o;
         Exclusions := Exclusions o; Inclusions := Inclusions o;
         Verbose := Verbose o; Debug := Debug o; Regenerate := Regenerate o;
         VersionHint := VersionHint o; RepositoryName := RepositoryName o;
         CommitName := CommitName o;
         GenerateCommitName := GenerateCommitName o;
         BranchName := BranchName o; CommitAuthor := CommitAuthor o;
         RepositoryUrl := RepositoryUrl o;
         IntegrationName := IntegrationName o;
         JsonFilePath := JsonFilePath o; NpmPreferred := NpmPreferred o;
         PassOnTimeOut := PassOnTimeOut o;
         CallGraphUploadTimeout := CallGraphUploadTimeout o;
         CallGraphGenerateTimeout := CallGraphGenerateTimeout o;
         MinFingerprintContentLength := MinFingerprintContentLength o;
         TagCommitAsRelease := TagCommitAsRelease o;
         Experimental := Experimental o; Version := Version o |}.
Proof. now destruct o. Qed.

Ltac break_if :=
  match goal with
  | |- context [if ?b then _ else _] =>
      lazymatch b with
      | context [if _ then _ else _] => fail
      | _ => destruct b eqn:?
      end
  end.

(** Each step sets its own option. *)
Lemma own_RepositoryName env o :
  RepositoryName (fill_RepositoryName env o)
  = or_env (RepositoryName o) (Env.Repository env).
Proof.
  unfold fill_RepositoryName, or_env. rewrite length_zero.
  now destruct (String.eqb (RepositoryName o) "").
Qed.

Lemma own_CommitName env o :
  CommitName (fill_CommitName env o) = or_env (CommitName o) (Env.Commit env).
Proof.
  unfold fill_CommitName, or_env. rewrite length_zero.
  now destruct (String.eqb (CommitName o) "").
Qed.

Lemma own_BranchName env o :
  BranchName (fill_BranchName env o) = or_env (BranchName o) (Env.Branch env).
Proof.
  unfold fill_BranchName, or_env. rewrite length_zero.
  now destruct (String.eqb (BranchName o) "").
Qed.

Lemma own_CommitAuthor env o :
  CommitAuthor (fill_CommitAuthor env o)
  = or_env (CommitAuthor o) (Env.Author env).
Proof.
  unfold fill_CommitAuthor, or_env. rewrite length_zero.
  now destruct (String.eqb (CommitAuthor o) "").
Qed.

Lemma own_RepositoryUrl env o :
  RepositoryUrl (fill_RepositoryUrl env o)
  = or_env (RepositoryUrl o) (Env.RepositoryUrl env).
Proof.
  unfold fill_RepositoryUrl, or_env. rewrite length_zero.
  now destruct (String.eqb (RepositoryUrl o) "").
Qed.

Lemma own_IntegrationName env o :
  IntegrationName (fill_IntegrationName env o)
  = integration_or_env (IntegrationName o) (Env.Integration env).
Proof.
  unfold fill_IntegrationName, integration_or_env. rewrite length_zero.
  destruct (String.eqb (IntegrationName o) "CLI"); [|reflexivity].
  now destruct (String.eqb (Env.Integration env) "").
Qed.

Lemma own_Path env o :
  Path (fill_Path env o) = or_env (Path o) (Env.Filepath env).
Proof.
  unfold fill_Path, or_env. rewrite length_zero, length_positive.
  destruct (String.eqb_spec (Path o) ""); [|reflexivity].
  destruct (String.eqb_spec (Env.Filepath env) ""); cbn; congruence.
Qed.

(** A step leaves every option that it does not set. *)
Ltac frame f :=
  unfold f; repeat break_if; reflexivity.

Ltac peel :=
  match goal with
  | |- context [?P (fill_Path ?env ?o)] =>
      replace (P (fill_Path env o)) with (P o) by frame fill_Path
  | |- context [?P (fill_IntegrationName ?env ?o)] =>
      replace (P (fill_IntegrationName env o)) with (P o)
        by frame fill_IntegrationName
  | |- context [?P (fill_RepositoryUrl ?env ?o)] =>
      replace (P (fill_RepositoryUrl env o)) with (P o)
        by frame fill_RepositoryUrl
  | |- context [?P (fill_CommitAuthor ?env ?o)] =>
      replace (P (fill_CommitAuthor env o)) with (P o)
        by frame fill_CommitAuthor
  | |- context [?P (fill_BranchName ?env ?o)] =>
      replace (P (fill_BranchName env o)) with (P o) by frame fill_BranchName
  | |- context [?P (fill_CommitName ?env ?o)] =>
      replace (P (fill_CommitName env o)) with (P o) by frame fill_CommitName
  | |- context [?P (fill_RepositoryName ?env ?o)] =>
      replace (P (fill_RepositoryName env o)) with (P o)
        by frame fill_RepositoryName
  end.

Lemma steps_mapped (o : DebrickedOptions) (env : Env.Env) :
  fill_Path env
    (fill_IntegrationName env
       (fill_RepositoryUrl env
          (fill_CommitAuthor env
             (fill_BranchName env
                (fill_CommitName env (fill_RepositoryName env o))))))
  = mapped o env.
Proof.
  etransitivity; [apply options_eta|].
  unfold mapped.
  all: rewrite ?own_Path, ?own_IntegrationName, ?own_RepositoryUrl,
         ?own_CommitAuthor, ?own_BranchName, ?own_CommitName,
         ?own_RepositoryName.
  all: repeat (peel; rewrite ?own_Path, ?own_IntegrationName,
                 ?own_RepositoryUrl, ?own_CommitAuthor, ?own_BranchName,
                 ?own_CommitName, ?own_RepositoryName).
  all: reflexivity.
Qed.

(** [MapEnvToOptions] in closed form. *)
Lemma MapEnvToOptions_mapped (o : DebrickedOptions) (env : Env.Env) :
  MapEnvToOptions o env = mapped o env.
Proof.
  exact (eq_trans (MapEnvToOptions_steps o env) (steps_mapped o env)).
Qed.

Lemma or_env_idem (given detected : string) :
  or_env (or_env given detected) detected = or_env given detected.
Proof.
  unfold or_env. destruct (String.eqb given "") eqn:E; [|now rewrite E].
  now destruct (String.eqb detected "").
Qed.

Lemma integration_or_env_idem (given detected : string) :
  integration_or_env (integration_or_env given detected) detected
  = integration_or_env given detected.
Proof.
  unfold integration_or_env.
  destruct (String.eqb given "CLI" && negb (String.eqb detected "")) eqn:E;
    [|now rewrite E].
  now destruct (String.eqb detected "CLI" && negb (String.eqb detected "")).
Qed.

(** X1: what [MapEnvToOptions] does to the seven options it may set:
    repository, commit, branch, author, repository URL and path take the
    environment's value exactly when the caller left them empty; the
    integration name takes the environment's exactly when it is the
    default [CLI] and the environment names one. *)
Theorem MapEnvToOptions_fills (o : DebrickedOptions) (env : Env.Env) :
  let o' := MapEnvToOptions o env in
  RepositoryName o'
  = (if String.eqb (RepositoryName o) "" then Env.Repository env
     else RepositoryName o)
  /\ CommitName o'
     = (if String.eqb (CommitName o) "" then Env.Commit env else CommitName o)
  /\ BranchName o'
     = (if String.eqb (BranchName o) "" then Env.Branch env else BranchName o)
  /\ CommitAuthor o'
     = (if String.eqb (CommitAuthor o) "" then Env.Author env
        else CommitAuthor o)
  /\ RepositoryUrl o'
     = (if String.eqb (RepositoryUrl o) "" then Env.RepositoryUrl env
        else RepositoryUrl o)
  /\ Path o'
     = (if String.eqb (Path o) "" then Env.Filepath env else Path o)
  /\ IntegrationName o'
     = (if String.eqb (IntegrationName o) "CLI"
           && negb (String.eqb (Env.Integration env) "")
        then Env.Integration env else IntegrationName o).
Proof.
  cbv zeta. rewrite MapEnvToOptions_mapped. repeat split.
Qed.

(** X2: [MapEnvToOptions] leaves every other option as the caller set
    it: the toggles, the exclusion and inclusion lists, the SBOM and JSON
    outputs, the time-outs and the policies. *)
Theorem MapEnvToOptions_frame (o : DebrickedOptions) (env : Env.Env) :
  let o' := MapEnvToOptions o env in
  Resolve o' = Resolve o /\ Fingerprint o' = Fingerprint o
  /\ CallGraph o' = CallGraph o /\ SBOM o' = SBOM o
  /\ SBOMOutput o' = SBOMOutput o /\ Exclusions o' = Exclusions o
  /\ Inclusions o' = Inclusions o /\ Verbose o' = Verbose o
  /\ Debug o' = Debug o /\ Regenerate o' = Regenerate o
  /\ VersionHint o' = VersionHint o
  /\ GenerateCommitName o' = GenerateCommitName o
  /\ JsonFilePath o' = JsonFilePath o /\ NpmPreferred o' = NpmPreferred o
  /\ PassOnTimeOut o' = PassOnTimeOut o
  /\ CallGraphUploadTimeout o' = CallGraphUploadTimeout o
  /\ CallGraphGenerateTimeout o' = CallGraphGenerateTimeout o
  /\ MinFingerprintContentLength o' = MinFingerprintContentLength o
  /\ TagCommitAsRelease o' = TagCommitAsRelease o
  /\ Experimental o' = Experimental o /\ Version o' = Version o.
Proof.
  cbv zeta. rewrite MapEnvToOptions_mapped. repeat split.
Qed.

(** X3: mapping the same environment a second time changes nothing. *)
Theorem MapEnvToOptions_idempotent (o : DebrickedOptions) (env : Env.Env) :
  MapEnvToOptions (MapEnvToOptions o env) env = MapEnvToOptions o env.
Proof.
  rewrite !MapEnvToOptions_mapped. unfold mapped at 1.
  cbn [mapped Path Resolve Fingerprint CallGraph SBOM SBOMOutput Exclusions
       Inclusions Verbose Debug Regenerate VersionHint RepositoryName
       CommitName GenerateCommitName BranchName CommitAuthor RepositoryUrl
       IntegrationName JsonFilePath NpmPreferred PassOnTimeOut
       CallGraphUploadTimeout CallGraphGenerateTimeout
       MinFingerprintContentLength TagCommitAsRelease Experimental Version].
  now rewrite !or_env_idem, integration_or_env_idem.
Qed.

(** X4: options that are all set by the caller, with an integration
    name of the caller's own, pass through whatever the environment
    is. *)
Theorem MapEnvToOptions_complete (o : DebrickedOptions) (env : Env.Env) :
  RepositoryName o <> "" -> CommitName o <> "" -> BranchName o <> "" ->
  CommitAuthor o <> "" -> RepositoryUrl o <> "" -> Path o <> "" ->
  IntegrationName o <> "CLI" ->
  MapEnvToOptions o env = o.
Proof.
  intros H1 H2 H3 H4 H5 H6 H7.
  rewrite MapEnvToOptions_mapped. unfold mapped, or_env, integration_or_env.
  apply String.eqb_neq in H1, H2, H3, H4, H5, H6, H7.
  rewrite H1, H2, H3, H4, H5, H6, H7. cbn [andb]. symmetry. apply options_eta.
Qed.

End OptionFacts.

Section FlowFacts.

Import Scan Pipeline Flow.

Context {W MetaObject Groups Fingerprints DebrickedConfig : Type}.

Local Abbreviation Event :=
  (@Event MetaObject Groups Fingerprints DebrickedConfig).
Local Abbreviation State :=
  (@State W MetaObject Groups Fingerprints DebrickedConfig).
Local Abbreviation M :=
  (@M W MetaObject Groups Fingerprints DebrickedConfig).
Local Abbreviation DebrickedScanner :=
  (@DebrickedScanner W MetaObject Groups Fingerprints DebrickedConfig).
Local Abbreviation Packages :=
  (@Packages W MetaObject Fingerprints DebrickedConfig).

Ltac break_match :=
  match goal with
  | |- context [match ?x with _ => _ end] =>
      lazymatch x with
      | context [match _ with _ => _ end] => fail
      | String.eqb _ _ => destruct x eqn:?
      | andb _ _ => destruct x eqn:?
      | generates _ => destruct x eqn:?
      | _ => destruct x
      end
  end.

Ltac forget t :=
  tryif is_var t then fail else
    let x := fresh "arg" in set (x := t) in *; clearbody x.

Ltac forget_texts :=
  repeat match goal with
         | |- context [EvDebugLog ?m _] => forget m
         | |- context [EvPrint ?m] => forget m
         end.

Ltac split_run H :=
  apply pair_equal_spec in H; destruct H as [<- <-]; cbn [trace].

Ltac give_trace :=
  first [ exists []; split; [symmetry; apply app_nil_r|]
        | eexists; split; [rewrite <- ?app_assoc; reflexivity|] ].

Lemma scan_flows (dScanner : DebrickedScanner) (pkg : Packages)
      (options : DebrickedOptions) (g : MetaObject) (s : State) res s' :
  scan dScanner pkg options g s = (res, s') ->
  exists t, trace s' = (trace s ++ t)%list /\ scan_flow pkg options g t.
Proof.
  unfold scan, scanResolve, scanFingerprint, scanReportSBOM,
    getDebrickedConfig, debug_Log, bind, call, emit, ret.
  cbv beta zeta.
  change (if String.eqb (Path options) "" then "." else Path options)
    with (callgraph_path options).
  forget_texts.
  destruct (Resolve options), (Fingerprint options), (CallGraph options),
    (String.eqb (SBOM options) "") eqn:HS.
  all: repeat break_match.
  all: intros H; split_run H; give_trace.
  all: unfold scan_flow; rewrite ?HS; cbn.
  all: repeat match goal with H : String.eqb _ _ = _ |- _ => rewrite H end;
    cbn.
  all: repeat split; auto.
  all: repeat constructor.
Qed.

Ltac break_pairs :=
  repeat match goal with
         | p : (_ * _)%type |- _ => destruct p
         end.

Lemma prepare_flows (dScanner : DebrickedScanner) (pkg : Packages)
      (o : DebrickedOptions) (s : State) p s1 :
  prepare dScanner pkg o s = (p, s1) ->
  exists pre, trace s1 = (trace s ++ pre)%list /\ prepare_flow o pre p.
Proof.
  unfold prepare, UpdatedEmptyCommitName, GenerateCommitNameTimestamp,
    SetWorkingDirectory, debug_Log, bind, call, emit, ret.
  cbv beta zeta.
  forget_texts.
  repeat (break_match; break_pairs; cbn [fst snd world trace]).
  all: intros H; split_run H; give_trace.
  all: unfold prepare_flow; split; [reflexivity|]; split; [reflexivity|].
  all: eexists; split; [reflexivity|].
  all: unfold generates, named; cbn.
  all: repeat match goal with H : andb _ _ = _ |- _ => rewrite H end.
  all: repeat split; auto.
Qed.

Lemma conclusion_renders (rules : list Upload.AutomationRule) :
  forallb conclusion_event (map EvRender rules : list Event) = true.
Proof. now induction rules. Qed.

Lemma conclude_flows (pkg : Packages) (d : DebrickedOptions)
      (scanned : result Upload.UploadResult) (s : State) r s' :
  conclude pkg d scanned s = (r, s') ->
  exists post,
    trace s' = (trace s ++ post)%list /\ conclude_flow pkg d scanned post.
Proof.
  unfold conclude, conclude_flow, handleScanError, WriteApiReplyToJsonFile,
    details_line, bind, call, emit, ret.
  destruct scanned as [result|err].
  - destruct (Upload.LongQueue result).
    + intros H; split_run H. give_trace. repeat split.
    + destruct (String.eqb (JsonFilePath d) ""); cbn [negb].
      2: destruct (WriteFile pkg _ _ _ _) as [werr w].
      all: rewrite renderRules_run; cbn [trace orb world].
      all: destruct (verdict (Upload.AutomationRules result)).
      all: intros H; split_run H; give_trace.
      all: unfold json_files, prints, in_order, calls.
      all: rewrite ?forallb_app, ?pick_app; cbn [pick app forallb call_of].
      all: rewrite ?forallb_app, ?pick_app; cbn [pick app forallb call_of].
      all: rewrite ?conclusion_renders.
      all: rewrite ?pick_map_EvRender by reflexivity.
      all: repeat split.
  - destruct (error_eqb err NoResErr && PassOnTimeOut d).
    all: intros H; split_run H; give_trace.
    all: repeat split.
Qed.

End FlowFacts.

Section RunFacts.

Import Scan Pipeline Flow Options.

Context {W MetaObject Groups Fingerprints DebrickedConfig : Type}.

Local Abbreviation Event :=
  (@Event MetaObject Groups Fingerprints DebrickedConfig).
Local Abbreviation State :=
  (@State W MetaObject Groups Fingerprints DebrickedConfig).
Local Abbreviation M :=
  (@M W MetaObject Groups Fingerprints DebrickedConfig).
Local Abbreviation DebrickedScanner :=
  (@DebrickedScanner W MetaObject Groups Fingerprints DebrickedConfig).
Local Abbreviation Packages :=
  (@Packages W MetaObject Fingerprints DebrickedConfig).

Lemma pick_none {B : Type} (P : Event -> bool) (f : Event -> option B)
      (l : list Event) :
  forallb P l = true -> (forall e, P e = true -> f e = None) ->
  pick f l = [].
Proof.
  intros Hall Hf. induction l as [|e l IH]; simpl in *; [reflexivity|].
  apply andb_true_iff in Hall as [He Hl]. now rewrite (Hf e He), IH.
Qed.

Lemma pick_member {A B : Type} (f : A -> option B) (l : list A) (y : B) :
  In y (pick f l) <-> exists x, In x l /\ f x = Some y.
Proof.
  induction l as [|a l IH]; simpl.
  - split; [tauto|now intros (x & [] & _)].
  - destruct (f a) as [b|] eqn:Ha; simpl; rewrite IH; split.
    + intros [->|(x & Hin & Hx)]; [exists a|exists x]; auto.
    + intros (x & [->|Hin] & Hx); [left; congruence|right; now exists x].
    + intros (x & Hin & Hx). exists x. auto.
    + intros (x & [->|Hin] & Hx); [congruence|now exists x].
Qed.

Ltac by_kind :=
  let e := fresh "e" in
  intros e; destruct e; simpl; intros; try discriminate; try reflexivity;
  try exact I.

(** One run of the pipeline on options of the right type. *)
Lemma Scan_flows (dScanner : DebrickedScanner) (pkg : Packages)
      (o : DebrickedOptions) (s : State) :
  Scan_flow pkg o (observed (Scan dScanner pkg (Debricked o)) s)
            (returned (Scan dScanner pkg (Debricked o)) s).
Proof.
  unfold returned. destruct (Scan dScanner pkg (Debricked o) s) as [r s'] eqn:E.
  cut (exists t, trace s' = (trace s ++ t)%list /\ Scan_flow pkg o t r).
  { intros (t & Ht & Hflow).
    rewrite (observed_app _ s t) by (rewrite E; exact Ht). exact Hflow. }
  rewrite Scan_parts in E. unfold bind in E.
  destruct (prepare dScanner pkg o s) as [p s1] eqn:Hp.
  apply prepare_flows in Hp as (pre & Hpre & Hprep).
  destruct p as [[d g]|err].
  - destruct (scan dScanner pkg d g s1) as [res s2] eqn:Hs.
    pose proof (scan_flows _ _ _ _ _ _ _ Hs) as (mid & Hmid & Hflow).
    pose proof (scan_run _ _ _ _ _ _ _ Hs) as (mid' & Hmid' & Hshape).
    assert (mid' = mid) as ->
        by (rewrite Hmid in Hmid'; now apply app_inv_head in Hmid').
    pose proof (scan_begins _ _ _ _ _ _ _ Hs) as (mid2 & Hmid2 & Hsteps).
    assert (mid2 = mid) as ->
        by (rewrite Hmid in Hmid2; now apply app_inv_head in Hmid2).
    pose proof (conclude_flows _ _ _ _ _ _ E) as (post & Hpost & Hcf).
    pose proof (conclude_run _ _ _ _ _ _ E) as (post' & Hpost' & Hc).
    assert (post' = post) as ->
        by (rewrite Hpost in Hpost'; now apply app_inv_head in Hpost').
    exists (pre ++ mid ++ post)%list. split.
    + rewrite Hpost, Hmid, Hpre. now rewrite <- !app_assoc.
    + exists pre, (Ok (d, g)). split; [exact Hprep|].
      now exists mid, post, res.
  - unfold ret in E. apply pair_equal_spec in E as [<- <-].
    exists pre. split; [exact Hpre|].
    exists pre, (Err err). now split.
Qed.

(** The options that the preparation hands on. *)
Lemma named_frame (o : DebrickedOptions) (env : Env.Env) (clock : list Z) :
  let d := set_Path "" (named o env clock) in
  Path d = "" /\ Exclusions d = Exclusions o /\ Inclusions d = Inclusions o
  /\ SBOM d = SBOM o /\ SBOMOutput d = SBOMOutput o
  /\ JsonFilePath d = JsonFilePath o
  /\ BranchName d = or_env (BranchName o) (Env.Branch env)
  /\ IntegrationName d
     = integration_or_env (IntegrationName o) (Env.Integration env).
Proof.
  unfold named. cbv zeta. rewrite MapEnvToOptions_mapped.
  destruct clock; repeat split.
Qed.

Ltac scan_cases H :=
  destruct H as (pre & p & Hprep & Hrun);
  destruct Hprep as (Hkind & Horder & env & Hfind & Hclock & Habs & Hchdir
                     & Hp);
  cbv zeta in Habs, Hchdir, Hp;
  destruct p as [[d g]|err];
  [ destruct Hrun as (mid & post & res & Ht & Hflow & Hshape & Hsteps & Hcf
                      & Hconc);
    destruct Hp as (Hd & Hnofail & Hmetas & Hmade & Hprints);
    destruct Hflow as (Hmidkind & Hmidorder & Hinputs & Hgroups & Hconfig
                       & Hreads & Hwritten & Hurls & Hids);
    destruct Hcf as (Hpostkind & Hpostorder & Hcf)
  | destruct Hrun as (Ht & Hr);
    destruct Hp as (Hfail & Hnomade & Hmetas) ].

Lemma metas_in_place (pre : list Event) a :
  forallb preparation_event pre = true ->
  (metas pre = [] \/ metas pre = [a]) -> fst (fst (fst (fst (fst a)))) = "" ->
  Forall in_place pre.
Proof.
  intros Hkind Hmetas Ha. apply Forall_forall. intros e Hin.
  destruct e; try exact I.
  - assert (Hm : In (path, repositoryName, commitName, branchName,
                     commitAuthor, repositoryUrl) (metas pre)).
    { apply pick_member. eexists. split; [exact Hin|reflexivity]. }
    destruct Hmetas as [Hm'|Hm']; rewrite Hm' in Hm; [destruct Hm|].
    destruct Hm as [Hm|[]]. subst a. exact Ha.
  - rewrite forallb_forall in Hkind. now apply Hkind in Hin.
  - rewrite forallb_forall in Hkind. now apply Hkind in Hin.
  - rewrite forallb_forall in Hkind. now apply Hkind in Hin.
  - rewrite forallb_forall in Hkind. now apply Hkind in Hin.
  - rewrite forallb_forall in Hkind. now apply Hkind in Hin.
Qed.

(** X5: in every run of the pipeline the stages work in place, whatever
    path the caller or the environment gave: the git object, the
    resolver, the fingerprinter, the finder and the search for the
    configuration file get the empty path and the call-graph generator
    gets the dot. *)
Theorem Scan_runs_in_place (dScanner : DebrickedScanner) (pkg : Packages)
        (o : DebrickedOptions) (s : State) :
  Forall in_place (observed (Scan dScanner pkg (Debricked o)) s).
Proof.
  pose proof (Scan_flows dScanner pkg o s) as H. scan_cases H; rewrite Ht.
  - assert (Hpath : Path d = "") by (now rewrite Hd).
    clear Hclock Habs Hchdir Hd Hnofail Hmade Hprints Hgroups Hconfig Hreads
          Hwritten Hurls Hids Hshape Hconc Hcf Hfind.
    repeat (apply Forall_app; split).
    + eapply metas_in_place; [exact Hkind|right; exact Hmetas|reflexivity].
    + clear Hmetas. rewrite Forall_forall in Hinputs |- *. intros e Hin.
      specialize (Hinputs e Hin).
      rewrite forallb_forall in Hmidkind. specialize (Hmidkind e Hin).
      destruct e; cbn [in_place]; try exact I;
        cbn in Hmidkind; try discriminate; cbn [stage_inputs] in Hinputs.
      * destruct Hinputs as [-> ->]. now rewrite Hpath.
      * subst options. cbn [Fingerprint.Path]. exact Hpath.
      * destruct Hinputs as (-> & _). unfold callgraph_path.
        now rewrite Hpath.
      * subst options. cbn [Finder.RootPath]. exact Hpath.
      * destruct Hinputs as (-> & _). exact Hpath.
    + apply Forall_forall. intros e Hin.
      rewrite forallb_forall in Hpostkind. specialize (Hpostkind e Hin).
      destruct e; cbn [in_place]; try exact I; discriminate.
  - eapply metas_in_place; [exact Hkind|exact Hmetas|reflexivity].
Qed.

(** Picking from a whole run: what belongs to the stage sequence is
    found in its part of the trace only, and likewise for the
    preparation and the conclusion. *)
Ltac drop_part kind H l :=
  rewrite (pick_none kind _ l H) by by_kind.

Ltac in_mid :=
  match goal with
  | Hkind : forallb preparation_event ?pre = true,
    Hmidkind : forallb stage_or_debug ?mid = true,
    Hpostkind : forallb conclusion_event ?post = true |- _ =>
      rewrite !pick_app;
      drop_part (@preparation_event MetaObject Groups Fingerprints
                                    DebrickedConfig) Hkind pre;
      drop_part (@conclusion_event MetaObject Groups Fingerprints
                                   DebrickedConfig) Hpostkind post;
      rewrite ?app_nil_r; cbn [app]
  end.

Ltac in_pre :=
  match goal with
  | Hkind : forallb preparation_event ?pre = true,
    Hmidkind : forallb stage_or_debug ?mid = true,
    Hpostkind : forallb conclusion_event ?post = true |- _ =>
      rewrite !pick_app;
      drop_part (@stage_or_debug MetaObject Groups Fingerprints
                                 DebrickedConfig) Hmidkind mid;
      drop_part (@conclusion_event MetaObject Groups Fingerprints
                                   DebrickedConfig) Hpostkind post;
      rewrite ?app_nil_r; cbn [app]
  end.

(** X6: the pipeline hands the caller's exclusion and inclusion
    patterns to every stage unchanged -- resolver, call-graph generator,
    finder and the search for the configuration file -- and to the
    fingerprinter with the fingerprint defaults appended. *)
Theorem Scan_keeps_patterns (dScanner : DebrickedScanner) (pkg : Packages)
        (o : DebrickedOptions) (s : State) :
  Forall (patterns_kept pkg o)
         (observed (Scan dScanner pkg (Debricked o)) s).
Proof.
  pose proof (Scan_flows dScanner pkg o s) as H. scan_cases H; rewrite Ht.
  - pose proof (named_frame o env (clock_reads pre)) as Hframe.
    cbv zeta in Hframe. rewrite <- Hd in Hframe.
    destruct Hframe as (_ & Hex & Hinc & _).
    clear Hclock Habs Hchdir Hd Hnofail Hmade Hprints Hgroups Hconfig Hreads
          Hwritten Hurls Hids Hshape Hconc Hcf Hfind Hmetas.
    repeat (apply Forall_app; split).
    + apply Forall_forall. intros e Hin.
      rewrite forallb_forall in Hkind. specialize (Hkind e Hin).
      destruct e; cbn [patterns_kept]; try exact I; discriminate.
    + rewrite Forall_forall in Hinputs |- *. intros e Hin.
      specialize (Hinputs e Hin).
      destruct e; cbn [patterns_kept]; try exact I;
        cbn [stage_inputs] in Hinputs.
      * destruct Hinputs as [_ ->]. now split.
      * subst options. now split; cbn; rewrite ?Hex, ?Hinc.
      * destruct Hinputs as (_ & -> & -> & _). now split.
      * subst options. now split.
      * destruct Hinputs as (_ & -> & ->). now split.
    + apply Forall_forall. intros e Hin.
      rewrite forallb_forall in Hpostkind. specialize (Hpostkind e Hin).
      destruct e; cbn [patterns_kept]; try exact I; discriminate.
  - apply Forall_forall. intros e Hin.
    rewrite forallb_forall in Hkind. specialize (Hkind e Hin).
    destruct e; cbn [patterns_kept]; try exact I; discriminate.
Qed.

(** X7: what is uploaded is what was found: every call of the uploader
    carries the file groups that the finder returned in this run and the
    git object made in the preparation, and the uploader is called for
    every successful search. *)
Theorem Scan_uploads_what_was_found
        (dScanner : DebrickedScanner) (pkg : Packages)
        (o : DebrickedOptions) (s : State) :
  let t := observed (Scan dScanner pkg (Debricked o)) s in
  map Upload.FileGroups (upload_inputs t) = groups_found t
  /\ Forall (fun uo => metas_made t = [Upload.GitMetaObject uo])
            (upload_inputs t).
Proof.
  cbv zeta.
  pose proof (Scan_flows dScanner pkg o s) as H. scan_cases H; rewrite Ht.
  - assert (E1 : upload_inputs (pre ++ mid ++ post) = upload_inputs mid)
      by (unfold upload_inputs; in_mid; reflexivity).
    assert (E2 : groups_found (pre ++ mid ++ post) = groups_found mid)
      by (unfold groups_found; in_mid; reflexivity).
    assert (E3 : metas_made (pre ++ mid ++ post) = metas_made pre)
      by (unfold metas_made; in_pre; reflexivity).
    rewrite E1, E2, E3, Hmade. split; [exact Hgroups|].
    apply Forall_forall. intros uo Hin.
    apply pick_member in Hin as (e & Hin & He).
    rewrite Forall_forall in Hinputs. specialize (Hinputs e Hin).
    destruct e; try discriminate. injection He as ->.
    destruct Hinputs as (-> & _). reflexivity.
  - unfold upload_inputs, groups_found.
    rewrite !(pick_none preparation_event _ pre Hkind) by by_kind.
    split; [reflexivity|constructor].
Qed.

(** X8: the configuration of an upload: the finder is asked for the
    path of the configuration file; the file is read exactly when that
    path is not empty, and the uploader gets what was read, or no
    configuration at all. *)
Theorem Scan_upload_configuration
        (dScanner : DebrickedScanner) (pkg : Packages)
        (o : DebrickedOptions) (s : State) :
  let t := observed (Scan dScanner pkg (Debricked o)) s in
  config_reads t = filter (fun p => negb (String.eqb p "")) (config_paths t)
  /\ map Upload.DebrickedConfig (upload_inputs t) = config_chosen t.
Proof.
  cbv zeta.
  pose proof (Scan_flows dScanner pkg o s) as H. scan_cases H; rewrite Ht.
  - assert (E1 : upload_inputs (pre ++ mid ++ post) = upload_inputs mid)
      by (unfold upload_inputs; in_mid; reflexivity).
    assert (E2 : config_reads (pre ++ mid ++ post) = config_reads mid)
      by (unfold config_reads; in_mid; reflexivity).
    assert (E3 : config_paths (pre ++ mid ++ post) = config_paths mid)
      by (unfold config_paths; in_mid; reflexivity).
    assert (E4 : config_chosen (pre ++ mid ++ post) = config_chosen mid)
      by (unfold config_chosen; in_mid; reflexivity).
    rewrite E1, E2, E3, E4. now split.
  - unfold upload_inputs, config_reads, config_paths, config_chosen.
    rewrite !(pick_none preparation_event _ pre Hkind) by by_kind.
    now split.
Qed.

(** X9: the fingerprints written are the fingerprints computed: the
    output file of the fingerprint stage is written once for every
    successful call of the fingerprinter, with what it returned and under
    the fixed file name. *)
Theorem Scan_writes_the_fingerprints
        (dScanner : DebrickedScanner) (pkg : Packages)
        (o : DebrickedOptions) (s : State) :
  let t := observed (Scan dScanner pkg (Debricked o)) s in
  fingerprints_written t
  = map (fun f => (f, OutputFileNameFingerprints pkg)) (fingerprints_made t).
Proof.
  cbv zeta.
  pose proof (Scan_flows dScanner pkg o s) as H. scan_cases H; rewrite Ht.
  - assert (E1 : fingerprints_written (pre ++ mid ++ post)
                 = fingerprints_written mid)
      by (unfold fingerprints_written; in_mid; reflexivity).
    assert (E2 : fingerprints_made (pre ++ mid ++ post)
                 = fingerprints_made mid)
      by (unfold fingerprints_made; in_mid; reflexivity).
    now rewrite E1, E2.
  - unfold fingerprints_written, fingerprints_made.
    now rewrite !(pick_none preparation_event _ pre Hkind) by by_kind.
Qed.

(** X10: the SBOM report: with a format set, the details URL of every
    successful upload is parsed, and nothing is parsed without one; an
    order is placed for every successful parse, with the identifiers
    parsed, the format and output of the caller, the branch name after
    the environment was mapped, and vulnerabilities and licenses both
    on. *)
Theorem Scan_orders_the_report
        (dScanner : DebrickedScanner) (pkg : Packages)
        (o : DebrickedOptions) (s : State) :
  let t := observed (Scan dScanner pkg (Debricked o)) s in
  urls_parsed t
  = (if String.eqb (SBOM o) "" then []
     else map Upload.DetailsUrl (uploaded t))
  /\ map (fun a => (Sbom.RepositoryID a, Sbom.CommitID a)) (orders t)
     = ids_parsed t
  /\ exists env,
       finds t = [env]
       /\ Forall (fun a =>
                    Sbom.Format a = SBOM o
                    /\ Sbom.Branch a
                       = (if String.eqb (BranchName o) "" then Env.Branch env
                          else BranchName o)
                    /\ Sbom.Vulnerabilities a = true
                    /\ Sbom.Licenses a = true
                    /\ Sbom.Output a = SBOMOutput o)
                 (orders t).
Proof.
  cbv zeta.
  pose proof (Scan_flows dScanner pkg o s) as H. scan_cases H; rewrite Ht.
  - pose proof (named_frame o env (clock_reads pre)) as Hframe.
    cbv zeta in Hframe. rewrite <- Hd in Hframe.
    destruct Hframe as (_ & _ & _ & Hsbom & Hout & _ & Hbranch & _).
    assert (E1 : urls_parsed (pre ++ mid ++ post) = urls_parsed mid)
      by (unfold urls_parsed; in_mid; reflexivity).
    assert (E2 : uploaded (pre ++ mid ++ post) = uploaded mid)
      by (unfold uploaded; in_mid; reflexivity).
    assert (E3 : orders (pre ++ mid ++ post) = orders mid)
      by (unfold orders; in_mid; reflexivity).
    assert (E4 : ids_parsed (pre ++ mid ++ post) = ids_parsed mid)
      by (unfold ids_parsed; in_mid; reflexivity).
    assert (E5 : finds (pre ++ mid ++ post) = finds pre)
      by (unfold finds; in_pre; reflexivity).
    rewrite E1, E2, E3, E4, E5, <- Hsbom.
    split; [exact Hurls|]. split; [exact Hids|].
    exists env. split; [exact Hfind|].
    apply Forall_forall. intros a Hin.
    apply pick_member in Hin as (e & Hin & He).
    rewrite Forall_forall in Hinputs. specialize (Hinputs e Hin).
    destruct e; try discriminate. injection He as ->.
    cbn [stage_inputs] in Hinputs.
    destruct Hinputs as (Hf & Hb & Hv & Hl & Hou).
    rewrite Hf, Hb, Hv, Hl, Hou, Hbranch, Hout. now repeat split.
  - unfold urls_parsed, uploaded, orders, ids_parsed.
    rewrite !(pick_none preparation_event _ pre Hkind) by by_kind.
    split; [now destruct (String.eqb (SBOM o) "")|].
    split; [reflexivity|]. exists env. split; [exact Hfind|constructor].
Qed.

(** X11: an error of the preparation -- the change of the working
    directory or the making of the git object -- is what the pipeline
    returns, unchanged and unprinted, even the no-result error under
    pass-on-timeout; and no stage runs. *)
Theorem Scan_preparation_error
        (dScanner : DebrickedScanner) (pkg : Packages)
        (o : DebrickedOptions) (s : State) (failure : error) :
  let t := observed (Scan dScanner pkg (Debricked o)) s in
  let r := returned (Scan dScanner pkg (Debricked o)) s in
  In failure (preparation_failures t) ->
  r = Some failure /\ stages t = [] /\ printed_errors t = [].
Proof.
  cbv zeta.
  pose proof (Scan_flows dScanner pkg o s) as H. scan_cases H; rewrite Ht.
  - assert (E : preparation_failures (pre ++ mid ++ post)
                = preparation_failures pre)
      by (unfold preparation_failures; in_pre; reflexivity).
    rewrite E, Hnofail. intros [].
  - rewrite Hfail. intros [<-|[]]. split; [exact Hr|].
    unfold stages, printed_errors.
    now rewrite !(pick_none preparation_event _ pre Hkind) by by_kind.
Qed.

Lemma generates_mapped (o : DebrickedOptions) (env : Env.Env) :
  generates (MapEnvToOptions o env)
  = GenerateCommitName o
    && String.eqb (or_env (CommitName o) (Env.Commit env)) "".
Proof. now rewrite MapEnvToOptions_mapped. Qed.

(** X12: how the git object is named: its path is empty; repository,
    branch, author and repository URL are the caller's, or the
    environment's where the caller gave none; the commit is the caller's,
    else the environment's, and only when both are empty and a generated
    name is asked for it is [generated-] followed by the one clock
    reading of the run -- else the clock is not read at all. *)
Theorem Scan_names_the_git_object
        (dScanner : DebrickedScanner) (pkg : Packages)
        (o : DebrickedOptions) (s : State) a :
  let t := observed (Scan dScanner pkg (Debricked o)) s in
  In a (metas t) ->
  exists env,
    finds t = [env]
    /\ let commit := or_env (CommitName o) (Env.Commit env) in
       let generating := GenerateCommitName o && String.eqb commit "" in
       length (clock_reads t) = (if generating then 1 else 0)
       /\ a = ("",
               or_env (RepositoryName o) (Env.Repository env),
               match clock_reads t with
               | z :: _ => "generated-" ++ decimal z
               | [] => commit
               end,
               or_env (BranchName o) (Env.Branch env),
               or_env (CommitAuthor o) (Env.Author env),
               or_env (RepositoryUrl o) (Env.RepositoryUrl env)).
Proof.
  cbv zeta.
  pose proof (Scan_flows dScanner pkg o s) as H. scan_cases H; rewrite Ht.
  - assert (E1 : metas (pre ++ mid ++ post) = metas pre)
      by (unfold metas; in_pre; reflexivity).
    assert (E2 : finds (pre ++ mid ++ post) = finds pre)
      by (unfold finds; in_pre; reflexivity).
    assert (E3 : clock_reads (pre ++ mid ++ post) = clock_reads pre)
      by (unfold clock_reads; in_pre; reflexivity).
    rewrite E1, E2, E3, Hmetas. intros [<-|[]].
    exists env. split; [exact Hfind|]. rewrite <- generates_mapped.
    split; [exact Hclock|].
    unfold named. rewrite MapEnvToOptions_mapped.
    now destruct (clock_reads pre).
  - destruct Hmetas as [Hmetas|Hmetas]; rewrite Hmetas; [intros []|].
    intros [<-|[]]. exists env. split; [exact Hfind|]. rewrite <- generates_mapped.
    split; [exact Hclock|].
    unfold named. rewrite MapEnvToOptions_mapped.
    now destruct (clock_reads pre).
Qed.

(** X13: the JSON result file: it is written only in a run whose stage
    sequence succeeded with a result that is not the long-queue outcome,
    under the caller's path, with mode 0600, holding the serialisation of
    exactly the result that the upload returned; and such a run with a
    path set writes it once. *)
Theorem Scan_json_file (dScanner : DebrickedScanner) (pkg : Packages)
        (o : DebrickedOptions) (s : State) :
  let t := observed (Scan dScanner pkg (Debricked o)) s in
  (forall f,
      In f (json_files t) ->
      exists result,
        uploads t = [Ok result] /\ Upload.LongQueue result = false
        /\ stage_failures t = [] /\ JsonFilePath o <> ""
        /\ f = (JsonFilePath o, fst (MarshalIndent pkg result "" " "), 384%Z))
  /\ (forall result,
         In (Ok result) (uploads t) -> stage_failures t = [] ->
         Upload.LongQueue result = false -> JsonFilePath o <> "" ->
         json_files t
         = [(JsonFilePath o, fst (MarshalIndent pkg result "" " "), 384%Z)]).
Proof.
  cbv zeta.
  pose proof (Scan_flows dScanner pkg o s) as H. scan_cases H; rewrite Ht.
  - pose proof (named_frame o env (clock_reads pre)) as Hframe.
    cbv zeta in Hframe. rewrite <- Hd in Hframe.
    destruct Hframe as (_ & _ & _ & _ & _ & Hjson & _).
    assert (E1 : json_files (pre ++ mid ++ post) = json_files post).
    { unfold json_files. rewrite !pick_app.
      drop_part (@preparation_event MetaObject Groups Fingerprints
                                    DebrickedConfig) Hkind pre.
      drop_part (@stage_or_debug MetaObject Groups Fingerprints
                                 DebrickedConfig) Hmidkind mid.
      reflexivity. }
    assert (E2 : uploads (pre ++ mid ++ post) = uploads mid)
      by (unfold uploads; in_mid; reflexivity).
    assert (E3 : stage_failures (pre ++ mid ++ post) = stage_failures mid)
      by (unfold stage_failures; in_mid; reflexivity).
    rewrite E1, E2, E3. rewrite Hjson in Hcf.
    destruct Hshape as (_ & _ & _ & _ & _ & Hres).
    destruct res as [result|failure].
    + destruct Hres as (Hup & Hok & _). rewrite Hup, Hok.
      destruct (Upload.LongQueue result) eqn:Hlq; destruct Hcf as [Hfiles _];
        rewrite Hfiles.
      * split; [intros f []|].
        intros result' [Heq|[]] _ Hlq'. injection Heq as <-. congruence.
      * destruct (String.eqb_spec (JsonFilePath o) "") as [Hempty|Hpath].
        -- split; [intros f []|]. now intros.
        -- split.
           ++ intros f [<-|[]]. now exists result.
           ++ intros result' [Heq|[]] _ _ _. now injection Heq as <-.
    + destruct Hres as (Hfailed & _). rewrite Hfailed.
      destruct Hcf as [Hfiles _]. rewrite Hfiles.
      split; [intros f []|]. intros; discriminate.
  - unfold json_files, uploads.
    rewrite !(pick_none preparation_event _ pre Hkind) by by_kind.
    split; [intros f []|]. intros result [].
Qed.


Lemma to_int_not_nil (z : Z) :
  Z.to_int z <> Decimal.Pos Decimal.Nil
  /\ Z.to_int z <> Decimal.Neg Decimal.Nil.
Proof.
  pose proof (DecimalZ.to_of (Z.to_int z)) as H.
  rewrite DecimalZ.of_to in H.
  split; intros E; rewrite E in H; discriminate.
Qed.

Lemma decimal_injective (z z' : Z) : decimal z = decimal z' -> z = z'.
Proof.
  unfold decimal. intros H.
  destruct (to_int_not_nil z) as [Hp Hn], (to_int_not_nil z') as [Hp' Hn'].
  pose proof (NilZero.isi (Z.to_int z) Hp Hn) as E.
  pose proof (NilZero.isi (Z.to_int z') Hp' Hn') as E'.
  rewrite H in E. rewrite E in E'. injection E' as E'.
  now apply DecimalZ.to_int_inj.
Qed.

Lemma append_injective (p s s' : string) : p ++ s = p ++ s' -> s = s'.
Proof.
  induction p as [|c p IH]; simpl; intros H; [exact H|].
  injection H as H. now apply IH.
Qed.

(** X15: generated commit names tell the seconds apart: two names are
    equal exactly when the clock readings they were made from are. *)
Theorem GenerateCommitNameTimestamp_distinct (pkg : Packages) (s s' : State) :
  returned (GenerateCommitNameTimestamp pkg) s
  = returned (GenerateCommitNameTimestamp pkg) s'
  <-> fst (Now_Unix pkg (world s)) = fst (Now_Unix pkg (world s')).
Proof.
  unfold returned, GenerateCommitNameTimestamp, bind, call, ret.
  destruct (Now_Unix pkg (world s)) as [z w], (Now_Unix pkg (world s')) as [z' w'].
  cbn [fst]. split.
  - intros H. apply decimal_injective. eapply append_injective. exact H.
  - now intros ->.
Qed.

(** X16: [UpdatedEmptyCommitName] touches nothing -- neither the
    options nor the clock nor the trace -- unless a generated name is
    asked for and no commit name is set; then it reads the clock once and
    sets the commit name to [generated-] and the seconds read, leaving
    every other option alone. *)
Theorem UpdatedEmptyCommitName_cases (pkg : Packages) (o : DebrickedOptions)
        (s : State) :
  (GenerateCommitName o = false \/ CommitName o <> "" ->
   UpdatedEmptyCommitName pkg o s = (o, s))
  /\ (GenerateCommitName o = true -> CommitName o = "" ->
      let now := fst (Now_Unix pkg (world s)) in
      returned (UpdatedEmptyCommitName pkg o) s
      = set_CommitName ("generated-" ++ decimal now) o
      /\ clock_reads (observed (UpdatedEmptyCommitName pkg o) s) = [now]).
Proof.
  unfold UpdatedEmptyCommitName. split.
  - intros [->|Hset]; [reflexivity|].
    apply String.eqb_neq in Hset. rewrite Hset.
    now rewrite andb_false_r.
  - intros Hgen Hname. rewrite Hgen, Hname. cbv zeta. cbn [andb String.eqb].
    unfold returned, observed, GenerateCommitNameTimestamp, debug_Log, bind,
      call, emit, ret. cbn [world trace].
    destruct (Now_Unix pkg (world s)) as [z w]. cbn [fst snd trace world].
    split; [reflexivity|].
    rewrite <- app_assoc, skipn_app, skipn_all, Nat.sub_diag. reflexivity.
Qed.

(** X17: [SetWorkingDirectory] asks to move to whatever [filepath.Abs]
    returned, whether or not that call reported an error; when the move
    fails it returns the error and leaves the options and the output
    alone; when it succeeds it empties the path option, and only that
    one, and prints the directory. *)
Theorem SetWorkingDirectory_cases (pkg : Packages) (d : DebrickedOptions)
        (s : State) :
  let abs := fst (fst (Abs pkg (Path d) (world s))) in
  let moved := fst (Chdir pkg abs (snd (Abs pkg (Path d) (world s)))) in
  let t := observed (SetWorkingDirectory pkg d) s in
  chdirs t = [abs]
  /\ returned (SetWorkingDirectory pkg d) s
     = (match moved with Some _ => d | None => set_Path "" d end, moved)
  /\ prints t
     = match moved with
       | Some _ => []
       | None => ["Working directory: " ++ abs ++ newline]
       end.
Proof.
  cbv zeta.
  unfold returned, observed, SetWorkingDirectory, bind, call, emit, ret.
  destruct (Abs pkg (Path d) (world s)) as [[abs aerr] w1].
  cbn [fst snd trace world].
  destruct (Chdir pkg abs w1) as [[err|] w2]; cbn [fst snd trace world].
  all: rewrite <- ?app_assoc, skipn_app, skipn_all, Nat.sub_diag.
  all: repeat split.
Qed.

(** *** The order of the calls *)

Lemma increasing_app (l l' : list nat) (b : nat) :
  increasing l = true -> increasing l' = true ->
  Forall (fun x => x < b) l -> Forall (fun y => b <= y) l' ->
  increasing (l ++ l') = true.
Proof.
  intros Hl Hl' Hlow Hhigh. induction l as [|x l IH]; [exact Hl'|].
  inversion Hlow as [|? ? Hx Hlow']; subst.
  destruct l as [|y l].
  - cbn [app]. destruct l' as [|y l']; [reflexivity|].
    change (Nat.ltb x y && increasing (y :: l') = true).
    inversion Hhigh; subst. rewrite Hl', andb_true_r. apply Nat.ltb_lt. lia.
  - change (Nat.ltb x y && increasing (y :: l) = true) in Hl.
    apply andb_true_iff in Hl as [Hxy Hl].
    change (Nat.ltb x y && increasing ((y :: l) ++ l') = true).
    rewrite Hxy. now apply IH.
Qed.

Lemma increasing_Sorted (l : list Call) :
  increasing (map call_rank l) = true -> StronglySorted call_before l.
Proof.
  intros H. apply Sorted_StronglySorted.
  { intros a b c. unfold call_before. lia. }
  induction l as [|a l IH]; [constructor|].
  destruct l as [|b l]; [repeat constructor|].
  change (Nat.ltb (call_rank a) (call_rank b)
          && increasing (map call_rank (b :: l)) = true) in H.
  apply andb_true_iff in H as [Hab Hl].
  constructor; [now apply IH|]. constructor. now apply Nat.ltb_lt.
Qed.

Lemma calls_bounded (kind : Event -> bool) (bound : nat -> Prop)
      (t : list Event) :
  forallb kind t = true ->
  (forall e c, kind e = true -> call_of e = Some c -> bound (call_rank c)) ->
  Forall bound (map call_rank (calls t)).
Proof.
  intros Hkind Hbound. apply Forall_forall. intros n Hin.
  apply in_map_iff in Hin as (c & <- & Hin).
  apply pick_member in Hin as (e & Hin & He).
  rewrite forallb_forall in Hkind. exact (Hbound e c (Hkind e Hin) He).
Qed.

Ltac bound_by_kind :=
  let e := fresh "e" in
  let c := fresh "c" in
  let Hk := fresh "Hk" in
  let Hc := fresh "Hc" in
  intros e c Hk Hc; destruct e; cbn in Hk; try discriminate;
  cbn in Hc; try discriminate; injection Hc as <-; cbn; lia.

(** X18: in a run of the pipeline every method of a collaborator is
    called at most once, and the calls come in one fixed order: CI
    service, clock, absolute path, change of directory, git object,
    resolver, enterprise check, fingerprinter, fingerprint file,
    call-graph generator, finder, configuration path, configuration,
    uploader, details URL, SBOM order, JSON file. *)
Theorem Scan_calls_in_order (dScanner : DebrickedScanner) (pkg : Packages)
        (o : DebrickedOptions) (s : State) :
  StronglySorted call_before
                 (calls (observed (Scan dScanner pkg (Debricked o)) s)).
Proof.
  apply increasing_Sorted.
  pose proof (Scan_flows dScanner pkg o s) as H. scan_cases H; rewrite Ht;
    [|exact Horder].
  unfold calls. rewrite !pick_app, !map_app.
  apply (increasing_app _ _ 5); [exact Horder| | |].
  - apply (increasing_app _ _ 16); [exact Hmidorder|exact Hpostorder| |].
    + apply (calls_bounded stage_or_debug _ mid Hmidkind). bound_by_kind.
    + apply (calls_bounded conclusion_event _ post Hpostkind). bound_by_kind.
  - apply (calls_bounded preparation_event _ pre Hkind). bound_by_kind.
  - apply Forall_app. split.
    + apply (calls_bounded stage_or_debug _ mid Hmidkind). bound_by_kind.
    + apply (calls_bounded conclusion_event _ post Hpostkind). bound_by_kind.
Qed.

(** The settings of the options that the preparation hands on. *)
Lemma named_settings (o : DebrickedOptions) (env : Env.Env) (clock : list Z) :
  let d := set_Path "" (named o env clock) in
  Verbose d = Verbose o /\ Regenerate d = Regenerate o
  /\ NpmPreferred d = NpmPreferred o
  /\ MinFingerprintContentLength d = MinFingerprintContentLength o
  /\ CallGraphGenerateTimeout d = CallGraphGenerateTimeout o
  /\ Version d = Version o
  /\ CallGraphUploadTimeout d = CallGraphUploadTimeout o
  /\ VersionHint d = VersionHint o
  /\ TagCommitAsRelease d = TagCommitAsRelease o
  /\ Experimental d = Experimental o.
Proof.
  unfold named. cbv zeta. rewrite MapEnvToOptions_mapped.
  destruct clock; repeat split.
Qed.

(** X19: the settings of the caller reach the stages as they are: the
    resolver gets verbosity, regeneration and the npm preference, the
    fingerprinter the minimal content length, no compressed content and
    regeneration when the count is positive, the call-graph generator
    its time-out and the two configurations for Java with Maven and Go
    with the caller's version, the finder no restriction to lock files,
    the enterprise check is never silent, and the uploader gets the
    upload time-out, the flags and the integration name after the
    environment was mapped. *)
Theorem Scan_stage_settings (dScanner : DebrickedScanner) (pkg : Packages)
        (o : DebrickedOptions) (s : State) :
  let t := observed (Scan dScanner pkg (Debricked o)) s in
  exists env, finds t = [env] /\ Forall (settings_kept pkg o env) t.
Proof.
  cbv zeta.
  pose proof (Scan_flows dScanner pkg o s) as H. scan_cases H; rewrite Ht;
    exists env.
  - assert (E : finds (pre ++ mid ++ post) = finds pre)
      by (unfold finds; in_pre; reflexivity).
    rewrite E. split; [exact Hfind|].
    pose proof (named_frame o env (clock_reads pre)) as Hframe.
    pose proof (named_settings o env (clock_reads pre)) as Hset.
    cbv zeta in Hframe, Hset. rewrite <- Hd in Hframe, Hset.
    destruct Hframe as (_ & _ & _ & _ & _ & _ & _ & Hint).
    unfold integration_or_env in Hint.
    destruct Hset as (Hv & Hr & Hn & Hm & Hg & Hver & Hu & Hh & Htag & Hx).
    clear Hclock Habs Hchdir Hd Hnofail Hmade Hprints Hgroups Hconfig Hreads
          Hwritten Hurls Hids Hshape Hconc Hcf Hfind Hmetas E.
    repeat (apply Forall_app; split).
    + apply Forall_forall. intros e Hin.
      rewrite forallb_forall in Hkind. specialize (Hkind e Hin).
      destruct e; cbn [settings_kept]; try exact I; discriminate.
    + rewrite Forall_forall in Hinputs |- *. intros e Hin.
      specialize (Hinputs e Hin).
      destruct e; cbn [settings_kept]; try exact I;
        cbn [stage_inputs] in Hinputs.
      * destruct Hinputs as [_ ->]. cbn. now rewrite Hv, Hr, Hn.
      * exact Hinputs.
      * subst options. cbn. now rewrite Hm, Hr.
      * destruct Hinputs as (_ & _ & _ & -> & -> & -> & ->).
        now rewrite Hg, Hver.
      * subst options. now split.
      * destruct Hinputs as (_ & -> & -> & -> & -> & ->).
        now rewrite Hint, Hu, Hh, Htag, Hx.
    + apply Forall_forall. intros e Hin.
      rewrite forallb_forall in Hpostkind. specialize (Hpostkind e Hin).
      destruct e; cbn [settings_kept]; try exact I; discriminate.
  - split; [exact Hfind|].
    apply Forall_forall. intros e Hin.
    rewrite forallb_forall in Hkind. specialize (Hkind e Hin).
    destruct e; cbn [settings_kept]; try exact I; discriminate.
Qed.

(** *** After the upload *)

Lemma uploaded_single (l : list Event) (r : Upload.UploadResult) :
  uploads l = [Ok r] -> uploaded l = [r].
Proof.
  unfold uploads, uploaded. revert r.
  induction l as [|e l IH]; intros r; [discriminate|].
  destruct e; cbn [pick]; try apply IH.
  destruct r0 as [r0|err]; intros H; injection H as H Hl; [|discriminate].
  inversion H; subst. f_equal.
  clear IH. induction l as [|e l IH]; [reflexivity|].
  destruct e; cbn [pick] in Hl |- *; try (apply IH; exact Hl).
  discriminate.
Qed.

Lemma enabled_report (d : DebrickedOptions) (st : Stage) :
  In StReportSBOM (enabled_until st d) -> String.eqb (SBOM d) "" = false.
Proof.
  unfold enabled_until. intros H. apply filter_In in H as [H _].
  unfold enabled in H.
  destruct (String.eqb (SBOM d) ""); [|reflexivity].
  destruct (Resolve d), (Fingerprint d), (CallGraph d); cbn in H;
    intuition discriminate.
Qed.

(** What follows a call of [Upload] that returned a result: the SBOM
    report, when one is asked for, and nothing else that can fail. *)
Lemma Scan_after_upload (dScanner : DebrickedScanner) (pkg : Packages)
      (o : DebrickedOptions) (s : State) (result : Upload.UploadResult) :
  let t := observed (Scan dScanner pkg (Debricked o)) s in
  In (Ok result) (uploads t) ->
  StronglySorted stage_le (stages t)
  /\ urls_parsed t
     = (if String.eqb (SBOM o) "" then [] else [Upload.DetailsUrl result])
  /\ ran StReportSBOM t = negb (String.eqb (SBOM o) "")
  /\ map (fun a => (Sbom.RepositoryID a, Sbom.CommitID a)) (orders t)
     = ids_parsed t
  /\ (forall err,
         In err (stage_failures t) ->
         failures_by_stage t = [(StReportSBOM, err)]
         /\ String.eqb (SBOM o) "" = false).
Proof.
  cbv zeta.
  pose proof (Scan_flows dScanner pkg o s) as H. scan_cases H; rewrite Ht.
  - pose proof (named_frame o env (clock_reads pre)) as Hframe.
    cbv zeta in Hframe. rewrite <- Hd in Hframe.
    destruct Hframe as (_ & _ & _ & Hsbom & _).
    assert (E1 : uploads (pre ++ mid ++ post) = uploads mid)
      by (unfold uploads; in_mid; reflexivity).
    assert (E2 : stages (pre ++ mid ++ post) = stages mid)
      by (unfold stages; in_mid; reflexivity).
    assert (E3 : urls_parsed (pre ++ mid ++ post) = urls_parsed mid)
      by (unfold urls_parsed; in_mid; reflexivity).
    assert (E4 : stage_failures (pre ++ mid ++ post) = stage_failures mid)
      by (unfold stage_failures; in_mid; reflexivity).
    assert (E5 : failures_by_stage (pre ++ mid ++ post)
                 = failures_by_stage mid)
      by (unfold failures_by_stage; in_mid; reflexivity).
    assert (E6 : orders (pre ++ mid ++ post) = orders mid)
      by (unfold orders; in_mid; reflexivity).
    assert (E7 : ids_parsed (pre ++ mid ++ post) = ids_parsed mid)
      by (unfold ids_parsed; in_mid; reflexivity).
    unfold ran. rewrite E1, E2, E3, E4, E5, E6, E7, <- Hsbom.
    fold (ran StReportSBOM mid).
    clear E1 E2 E3 E4 E5 E6 E7 Hclock Habs Hchdir Hd Hnofail Hmade Hprints
          Hgroups Hconfig Hreads Hwritten Hcf Hconc Hfind Hmetas Hinputs
          Hkind Hmidkind Hpostkind Horder Hmidorder Hpostorder Hsbom.
    intros Hup.
    destruct Hshape as (Hsorted & _ & _ & _ & _ & Hres).
    apply sortedb_StronglySorted in Hsorted.
    split; [exact Hsorted|].
    assert (Hu : uploads mid = [Ok result]).
    { destruct res as [r0|err0].
      - destruct Hres as [Hu _]. rewrite Hu in Hup.
        destruct Hup as [Heq|[]]. now rewrite Hu, Heq.
      - destruct Hres as (_ & [Hu|[Hu|(r0 & Hu & _)]]); rewrite Hu in Hup.
        + destruct Hup.
        + destruct Hup as [Heq|[]]. discriminate.
        + destruct Hup as [Heq|[]]. now rewrite Hu, Heq. }
    rewrite Hurls, (uploaded_single mid result Hu). cbn [map].
    split; [reflexivity|].
    destruct res as [r0|err0].
    + destruct Hres as (_ & Hnone & _ & _ & _ & _ & _ & Hran).
      split; [exact Hran|]. split; [exact Hids|].
      rewrite Hnone. intros err [].
    + destruct Hres as (Hone & Hups).
      destruct Hsteps as (st & Hfail & Hent & Hin & Hst).
      rewrite (Hst result Hup) in Hfail, Hent, Hin.
      rewrite Hent in Hin. apply enabled_report in Hin.
      rewrite Hin. cbn [negb]. split; [|split; [exact Hids|]].
      * destruct Hups as [Hu'|[Hu'|(r0 & _ & Hran)]];
          [rewrite Hu' in Hu; discriminate..|exact Hran].
      * rewrite Hone. intros err [<-|[]]. now split.
  - unfold uploads. rewrite (pick_none preparation_event _ pre Hkind)
      by by_kind.
    intros [].
Qed.

(** C3, as the code has it: the verdict is computed only in a run
    whose stage sequence succeeds -- the SBOM report, which follows the
    upload, included -- with a result that is not the long-queue
    outcome.  Such a run renders every automation rule, in order, and
    then returns the pipeline-failure error (whose text is empty)
    exactly when some rule is triggered and set to fail the pipeline;
    with no rule triggered it returns no error.  A stage that fails
    after the upload returned is the SBOM report; then no rule is
    rendered and the pipeline returns what the error handling makes of
    that error.  When the result is the long-queue outcome, no rule is
    rendered and the pipeline returns no error.  Both hold whatever the
    rules of the result are. *)
Theorem Scan_verdict (dScanner : DebrickedScanner) (pkg : Packages)
        (o : DebrickedOptions) (s : State) (result : Upload.UploadResult) :
  let t := observed (Scan dScanner pkg (Debricked o)) s in
  let r := returned (Scan dScanner pkg (Debricked o)) s in
  In (Ok result) (uploads t) ->
  (stage_failures t = [] ->
   Upload.LongQueue result = false ->
   r = (if verdict (Upload.AutomationRules result)
        then Some FailPipelineErr else None)
   /\ renders t = Upload.AutomationRules result
   /\ ((forall rule, In rule (Upload.AutomationRules result) ->
                     Upload.Triggered rule = false) ->
       r = None)
   /\ ((exists rule, In rule (Upload.AutomationRules result)
                     /\ Upload.Triggered rule = true
                     /\ Upload.FailPipeline rule = true) ->
       r = Some FailPipelineErr))
  /\ (forall err,
         In err (stage_failures t) ->
         failures_by_stage t = [(StReportSBOM, err)]
         /\ renders t = []
         /\ r = (if error_eqb err NoResErr && PassOnTimeOut o
                 then None else Some err))
  /\ (stage_failures t = [] ->
      Upload.LongQueue result = true ->
      renders t = [] /\ r = None)
  /\ Error FailPipelineErr = Some "".
Proof.
  intros t r Hup.
  pose proof (Scan_after_upload dScanner pkg o s result Hup)
    as (_ & _ & _ & _ & Hstage). fold t in Hstage.
  destruct (outline_facts _ _ _ (Scan_observed dScanner pkg o s))
    as [[Hq _]|(d & res & post & Hk & _ & Hf & Hu & Hr & _ & _ & Hc)];
    fold t in Hq || fold t r in Hf, Hu, Hr, Hc.
  { destruct Hq as (_ & _ & Hq & _). rewrite Hq in Hup. destruct Hup. }
  destruct Hc as (_ & _ & _ & Hc). rewrite Hr.
  destruct res as [result'|err'].
  - rewrite Hu in Hup. destruct Hup as [Heq|[]]. injection Heq as ->.
    destruct Hc as (_ & Hc).
    split; [|split; [|split; [|reflexivity]]].
    + intros _ Hlq. rewrite Hlq in Hc. destruct Hc as (Hret & Hrend & _).
      split; [exact Hret|]. split; [exact Hrend|]. split.
      * intros Hnone. now rewrite Hret, verdict_untriggered.
      * intros Hsome. apply verdict_true in Hsome. now rewrite Hret, Hsome.
    + rewrite Hf. intros err [].
    + intros _ Hlq. rewrite Hlq in Hc. destruct Hc as (Hret & Hrend & _).
      now split.
  - destruct Hc as (Hret & _ & Hrend & _). cbv zeta in Hret.
    rewrite Hk in Hret.
    split; [|split; [|split; [|reflexivity]]].
    + rewrite Hf. discriminate.
    + intros err Hin. split; [now apply Hstage|].
      rewrite Hf in Hin. destruct Hin as [<-|[]]. now split.
    + rewrite Hf. discriminate.
Qed.

(** C6, as the code has it: when [Upload] returns the long-queue
    outcome, no JSON result is written and no verdict is computed (no
    rule is rendered).  The SBOM report still runs after the upload,
    exactly when a format is set, on the details URL of that result,
    and places an order for what it parsed; it is the only stage that
    can still fail.  The pipeline returns no
    error when no stage fails, as is always so when no SBOM is asked
    for, and what the error handling makes of the error of the report
    when it fails. *)
Theorem Scan_long_queue (dScanner : DebrickedScanner) (pkg : Packages)
        (o : DebrickedOptions) (s : State) (result : Upload.UploadResult) :
  let t := observed (Scan dScanner pkg (Debricked o)) s in
  let r := returned (Scan dScanner pkg (Debricked o)) s in
  In (Ok result) (uploads t) ->
  Upload.LongQueue result = true ->
  json_writes t = [] /\ renders t = []
  /\ (stage_failures t = [] -> r = None)
  /\ (forall err,
         In err (stage_failures t) ->
         ran StReportSBOM t = true
         /\ r = (if error_eqb err NoResErr && PassOnTimeOut o
                 then None else Some err))
  /\ StronglySorted stage_le (stages t)
  /\ ran StReportSBOM t = negb (String.eqb (SBOM o) "")
  /\ urls_parsed t
     = (if String.eqb (SBOM o) "" then [] else [Upload.DetailsUrl result])
  /\ map (fun a => (Sbom.RepositoryID a, Sbom.CommitID a)) (orders t)
     = ids_parsed t
  /\ (SBOM o = "" -> r = None)
  /\ (forall err,
         In err (stage_failures t) ->
         failures_by_stage t = [(StReportSBOM, err)]).
Proof.
  intros t r Hup Hlq.
  pose proof (Scan_after_upload dScanner pkg o s result Hup)
    as (Hsorted & Hurls & Hran & Hids & Hstage).
  fold t in Hsorted, Hurls, Hran, Hids, Hstage.
  assert (Hfailed : forall err,
             In err (stage_failures t) ->
             r = (if error_eqb err NoResErr && PassOnTimeOut o
                  then None else Some err)).
  { destruct (outline_facts _ _ _ (Scan_observed dScanner pkg o s))
      as [[Hq _]|(d & res & post & Hk & _ & Hf & _ & _ & _ & _ & Hc)];
      fold t in Hq || fold t r in Hf, Hc.
    - destruct Hq as (_ & _ & Hq & _). rewrite Hq in Hup. destruct Hup.
    - rewrite Hf. destruct Hc as (_ & _ & _ & Hc).
      destruct res as [result'|err']; [intros err []|].
      destruct Hc as (Hret & _). cbv zeta in Hret. rewrite Hk in Hret.
      now intros err [<-|[]]. }
  assert (Hquiet : json_writes t = [] /\ renders t = []
                   /\ (stage_failures t = [] -> r = None)).
  { destruct (outline_facts _ _ _ (Scan_observed dScanner pkg o s))
      as [[Hq _]|(d & res & post & _ & _ & Hf & Hu & Hr & Hw & _ & Hc)];
      fold t in Hq || fold t r in Hf, Hu, Hr, Hw, Hc.
    - destruct Hq as (_ & _ & Hq & _). rewrite Hq in Hup. destruct Hup.
    - rewrite Hr, Hw, Hf. destruct Hc as (_ & _ & _ & Hc).
      destruct res as [result'|err'].
      + rewrite Hu in Hup. destruct Hup as [Heq|[]]. injection Heq as ->.
        rewrite Hlq in Hc. destruct Hc as (_ & Hret & Hrend & Hwr).
        now repeat split.
      + destruct Hc as (_ & _ & Hrend & Hwr).
        split; [exact Hwr|]. split; [exact Hrend|]. discriminate. }
  destruct Hquiet as (Hwr & Hrend & Hnone).
  split; [exact Hwr|]. split; [exact Hrend|]. split; [exact Hnone|].
  split; [|split; [exact Hsorted|split; [exact Hran|split; [exact Hurls|
                                                          split; [exact Hids|]]]]].
  - intros err Hin. split; [|now apply Hfailed].
    rewrite Hran. destruct (Hstage err Hin) as [_ ->]. reflexivity.
  - split.
    + intros Hno. destruct (stage_failures t) as [|err l] eqn:Hf;
        [now apply Hnone|].
      destruct (Hstage err (or_introl eq_refl)) as [_ Hset].
      rewrite Hno in Hset. discriminate.
    + intros err Hin. now apply Hstage.
Qed.

End RunFacts.

(** ** The properties on concrete runs *)

Section Runs.

Import Scan Pipeline Demo.

(** Two rules, one of them failing the pipeline: both are rendered and
    the pipeline-failure error is returned. *)
Lemma Scan_verdict_witness :
  returned (Scan (scanner None true (Ok (finished [warningRule; failingRule])))
                 (packages (Ok ("1", "2")) None None)
                 (Debricked (options true "CycloneDX" false "result.json")))
           start
  = Some FailPipelineErr
  /\ renders (observed
                (Scan (scanner None true
                               (Ok (finished [warningRule; failingRule])))
                      (packages (Ok ("1", "2")) None None)
                      (Debricked (options true "CycloneDX" false "result.json")))
                start)
     = [warningRule; failingRule].
Proof.
  pose proof (Scan_verdict
                (scanner None true (Ok (finished [warningRule; failingRule])))
                (packages (Ok ("1", "2")) None None)
                (options true "CycloneDX" false "result.json") start
                (finished [warningRule; failingRule])) as H.
  cbv zeta in H.
  destruct H as (H & _); [vm_compute; left; reflexivity|].
  destruct H as (_ & Hrend & _ & Hfail).
  - vm_compute. reflexivity.
  - reflexivity.
  - split; [|exact Hrend]. apply Hfail.
    exists failingRule. repeat split. right. left. reflexivity.
Defined.

(** C3, counterexample: the upload returns a rule that is triggered and
    fails the pipeline, an SBOM is asked for and its order fails: the
    pipeline returns that error, not the pipeline-failure error, and
    renders no rule. *)
Lemma Scan_sbom_failure_without_verdict :
  uploads (observed (Scan (scanner None true (Ok (finished [failingRule])))
                          (packages (Ok ("1", "2"))
                                    (Some (OtherErr "order failed")) None)
                          (Debricked (options false "CycloneDX" false "")))
                    start)
  = [Ok (finished [failingRule])]
  /\ returned (Scan (scanner None true (Ok (finished [failingRule])))
                    (packages (Ok ("1", "2"))
                              (Some (OtherErr "order failed")) None)
                    (Debricked (options false "CycloneDX" false "")))
              start = Some (OtherErr "order failed")
  /\ renders (observed (Scan (scanner None true
                                      (Ok (finished [failingRule])))
                             (packages (Ok ("1", "2"))
                                       (Some (OtherErr "order failed")) None)
                             (Debricked (options false "CycloneDX" false "")))
                       start) = []
  /\ ~ verdict_decides
       (observed (Scan (scanner None true (Ok (finished [failingRule])))
                       (packages (Ok ("1", "2"))
                                 (Some (OtherErr "order failed")) None)
                       (Debricked (options false "CycloneDX" false "")))
                 start)
       (returned (Scan (scanner None true (Ok (finished [failingRule])))
                       (packages (Ok ("1", "2"))
                                 (Some (OtherErr "order failed")) None)
                       (Debricked (options false "CycloneDX" false "")))
                 start).
Proof.
  split; [vm_compute; reflexivity|]. split; [vm_compute; reflexivity|].
  split; [vm_compute; reflexivity|].
  intros H. specialize (H (finished [failingRule])).
  destruct H as [_ H]; [vm_compute; left; reflexivity|].
  destruct H as [H _].
  - exists failingRule. repeat split. left. reflexivity.
  - vm_compute in H. discriminate.
Qed.

(** A failing resolver: nothing of the upload or of the SBOM report
    runs. *)
Lemma scan_stage_order_witness :
  ran StUpload
      (observed (scan (scanner (Some (OtherErr "resolution failed")) true
                               (Ok (finished [])))
                      (packages (Ok ("1", "2")) None None)
                      (options false "CycloneDX" false "") "repository")
                start) = false
  /\ ran StReportSBOM
         (observed (scan (scanner (Some (OtherErr "resolution failed")) true
                                  (Ok (finished [])))
                         (packages (Ok ("1", "2")) None None)
                         (options false "CycloneDX" false "") "repository")
                   start) = false.
Proof.
  pose proof (scan_stage_order
                (scanner (Some (OtherErr "resolution failed")) true
                         (Ok (finished [])))
                (packages (Ok ("1", "2")) None None)
                (options false "CycloneDX" false "") "repository" start) as H.
  cbv zeta in H. destruct H as (_ & _ & H & _).
  eapply H with (st := StResolve) (err := OtherErr "resolution failed").
  - vm_compute. right. left. reflexivity.
  - reflexivity.
  - reflexivity.
  - simpl. lia.
Defined.

(** The upload times out under pass-on-timeout: the error is printed
    and the run succeeds. *)
Lemma Scan_stage_error_witness :
  returned (Scan (scanner None true (Err NoResErr))
                 (packages (Ok ("1", "2")) None None)
                 (Debricked (options false "" true "")))
           start = None
  /\ printed_errors
       (observed (Scan (scanner None true (Err NoResErr))
                       (packages (Ok ("1", "2")) None None)
                       (Debricked (options false "" true "")))
                 start) = [NoResErr].
Proof.
  pose proof (Scan_stage_error (scanner None true (Err NoResErr))
                (packages (Ok ("1", "2")) None None)
                (options false "" true "") start NoResErr) as H.
  cbv zeta in H. destruct H as [H _].
  - vm_compute. left. reflexivity.
  - apply H. split; reflexivity.
Defined.

(** C5, counterexample: the SBOM order, not the upload, ends with the
    no-result error; under pass-on-timeout the pipeline returns no
    error although the claim lets only the upload's time-out pass. *)
Lemma Scan_passes_sbom_timeout :
  pick failure_in_stage
       (observed (Scan (scanner None true (Ok (finished [])))
                       (packages (Ok ("1", "2")) (Some NoResErr) None)
                       (Debricked (options false "CycloneDX" true "")))
                 start)
  = [(StReportSBOM, NoResErr)]
  /\ returned (Scan (scanner None true (Ok (finished [])))
                    (packages (Ok ("1", "2")) (Some NoResErr) None)
                    (Debricked (options false "CycloneDX" true "")))
              start = None
  /\ ~ only_upload_timeout_passes
       (options false "CycloneDX" true "")
       (observed (Scan (scanner None true (Ok (finished [])))
                       (packages (Ok ("1", "2")) (Some NoResErr) None)
                       (Debricked (options false "CycloneDX" true "")))
                 start)
       (returned (Scan (scanner None true (Ok (finished [])))
                       (packages (Ok ("1", "2")) (Some NoResErr) None)
                       (Debricked (options false "CycloneDX" true "")))
                 start).
Proof.
  split; [vm_compute; reflexivity|]. split; [vm_compute; reflexivity|].
  intros H. specialize (H StReportSBOM NoResErr).
  vm_compute in H. specialize (H (or_introl eq_refl)). discriminate.
Qed.

(** The upload ends in the long queue and an SBOM is asked for: the
    report runs on the details URL of the result, nothing is written or
    rendered and the run succeeds. *)
Lemma Scan_long_queue_witness :
  json_writes (observed (Scan (scanner None true (Ok queued))
                              (packages (Ok ("1", "2")) None None)
                              (Debricked (options false "CycloneDX" false
                                                  "result.json")))
                        start) = []
  /\ renders (observed (Scan (scanner None true (Ok queued))
                             (packages (Ok ("1", "2")) None None)
                             (Debricked (options false "CycloneDX" false
                                                 "result.json")))
                       start) = []
  /\ returned (Scan (scanner None true (Ok queued))
                    (packages (Ok ("1", "2")) None None)
                    (Debricked (options false "CycloneDX" false
                                        "result.json")))
              start = None
  /\ ran StReportSBOM
         (observed (Scan (scanner None true (Ok queued))
                         (packages (Ok ("1", "2")) None None)
                         (Debricked (options false "CycloneDX" false
                                             "result.json")))
                   start) = true
  /\ Flow.urls_parsed
       (observed (Scan (scanner None true (Ok queued))
                       (packages (Ok ("1", "2")) None None)
                       (Debricked (options false "CycloneDX" false
                                           "result.json")))
                 start) = ["https://details"].
Proof.
  pose proof (Scan_long_queue (scanner None true (Ok queued))
                (packages (Ok ("1", "2")) None None)
                (options false "CycloneDX" false "result.json") start queued)
    as H.
  cbv zeta in H. destruct H as (Hw & Hr & Hok & _ & _ & Hran & Hurls & _).
  - vm_compute. left. reflexivity.
  - reflexivity.
  - split; [exact Hw|]. split; [exact Hr|]. split; [|split].
    + apply Hok. vm_compute. reflexivity.
    + rewrite Hran. reflexivity.
    + rewrite Hurls. reflexivity.
Defined.

(** C6, counterexample: the upload ends in the long queue, an SBOM is
    asked for and the details URL cannot be parsed: the pipeline returns
    that error, not success. *)
Lemma Scan_long_queue_then_sbom_fails :
  uploads (observed (Scan (scanner None true (Ok queued))
                          (packages (Err (OtherErr "bad details URL")) None None)
                          (Debricked (options false "CycloneDX" false "")))
                    start)
  = [Ok queued]
  /\ returned (Scan (scanner None true (Ok queued))
                    (packages (Err (OtherErr "bad details URL")) None None)
                    (Debricked (options false "CycloneDX" false "")))
              start = Some (OtherErr "bad details URL")
  /\ ~ long_queue_ends_well
       (observed (Scan (scanner None true (Ok queued))
                       (packages (Err (OtherErr "bad details URL")) None None)
                       (Debricked (options false "CycloneDX" false "")))
                 start)
       (returned (Scan (scanner None true (Ok queued))
                       (packages (Err (OtherErr "bad details URL")) None None)
                       (Debricked (options false "CycloneDX" false "")))
                 start).
Proof.
  split; [vm_compute; reflexivity|]. split; [vm_compute; reflexivity|].
  intros H. specialize (H queued).
  vm_compute in H. destruct (H (or_introl eq_refl) eq_refl) as [Hr _].
  discriminate.
Qed.

(** A client that is not an enterprise customer: the stage only asks. *)
Lemma scanFingerprint_not_enterprise_witness :
  scanFingerprint (scanner None false (Ok (finished [])))
                  (packages (Ok ("1", "2")) None None)
                  (options true "" false "") start
  = (None, {| world := tt; trace := [EvIsEnterpriseCustomer false false] |}).
Proof.
  apply (scanFingerprint_not_enterprise
           (scanner None false (Ok (finished [])))
           (packages (Ok ("1", "2")) None None)
           (options true "" false "") start); reflexivity.
Defined.

(** A file writer that fails: one write, and no path no write. *)
Lemma json_write_is_inert_witness :
  observed (WriteApiReplyToJsonFile
              (packages (Ok ("1", "2")) None (Some (OtherErr "disk full")))
              (options false "" false "result.json") (finished []))
           start
  = [EvWriteFile "result.json" "{}" 384 (Some (OtherErr "disk full"))]
  /\ json_writes
       (observed (Scan (scanner None true (Ok (finished [])))
                       (packages (Ok ("1", "2")) None
                                 (Some (OtherErr "disk full")))
                       (Debricked (options false "" false "")))
                 start) = [].
Proof.
  pose proof (json_write_is_inert
                (scanner None true (Ok (finished [])))
                (packages (Ok ("1", "2")) None (Some (OtherErr "disk full"))))
    as (_ & _ & Hone & Hnone).
  split.
  - apply (Hone (options false "" false "result.json") (finished []) start).
    discriminate.
  - apply (Hnone (options false "" false "") start). reflexivity.
Defined.

End Runs.

(** ** The fingerprint command *)

Section CommandFacts.

Import FingerprintCmd Command.

Context {W Output : Type}.

Variable ToFile : Output -> string -> W -> option error * W.
Variable name : string.

Local Abbreviation State := (@FingerprintCmd.State W Output).

(** X20: the fingerprint command fingerprints once, the first argument
    or the empty path when there is none, with the exclusions as they
    are, and further arguments play no part; it writes the output file
    only after the fingerprinting succeeded, with what it returned and
    under the fixed name; and it returns no error exactly when both the
    fingerprinting and the writing succeeded, else the first error. *)
Theorem RunE_cases (f : IFingerprint) (exclusions args : list string)
        (s : State) :
  let path := hd "" args in
  let t := observed (RunE ToFile name f exclusions args) s in
  let r := fst (FingerprintFiles f path exclusions (world s)) in
  fingerprinted t = [(path, exclusions, r)]
  /\ match r with
     | Err err =>
         written t = []
         /\ returned (RunE ToFile name f exclusions args) s = Some err
     | Ok output =>
         written t = [(output, name)]
         /\ returned (RunE ToFile name f exclusions args) s
            = fst (ToFile output name
                          (snd (FingerprintFiles f path exclusions (world s))))
     end
  /\ RunE ToFile name f exclusions args s
     = RunE ToFile name f exclusions [path] s.
Proof.
  cbv zeta. unfold observed, returned, RunE, bind, call, ret. cbv zeta.
  replace (match args with arg :: _ => arg | [] => "" end) with (hd "" args)
    by now destruct args.
  cbn [hd].
  destruct (FingerprintFiles f (hd "" args) exclusions (world s))
    as [[output|err] w]; cbn [fst snd trace world].
  - destruct (ToFile output name w) as [[err|] w']; cbn [fst snd trace].
    all: rewrite <- ?app_assoc, skipn_app, skipn_all, Nat.sub_diag.
    all: repeat split.
  - rewrite skipn_app, skipn_all, Nat.sub_diag. repeat split.
Qed.

End CommandFacts.

(** ** Further sample runs *)

Section MoreRuns.

Import Scan Pipeline Flow Options.

(** Complete options in a CI service: nothing of what the service
    detects is taken. *)
Lemma MapEnvToOptions_complete_witness :
  MapEnvToOptions Samples.complete Samples.detected = Samples.complete.
Proof.
  apply (MapEnvToOptions_complete Samples.complete Samples.detected);
    vm_compute; discriminate.
Defined.

(** The working directory is out of reach: the run ends with that
    error before any stage. *)
Lemma Scan_preparation_error_witness :
  returned (Scan (Samples.scanner (Ok (Demo.finished [])))
                 (Samples.packages (Some NoResErr))
                 (Debricked Samples.unnamed))
           Demo.start
  = Some NoResErr
  /\ stages (observed (Scan (Samples.scanner (Ok (Demo.finished [])))
                            (Samples.packages (Some NoResErr))
                            (Debricked Samples.unnamed))
                      Demo.start) = []
  /\ printed_errors
       (observed (Scan (Samples.scanner (Ok (Demo.finished [])))
                       (Samples.packages (Some NoResErr))
                       (Debricked Samples.unnamed))
                 Demo.start) = [].
Proof.
  apply (Scan_preparation_error
           (Samples.scanner (Ok (Demo.finished [])))
           (Samples.packages (Some NoResErr)) Samples.unnamed Demo.start
           NoResErr).
  vm_compute. left. reflexivity.
Defined.

(** Options without names in a CI service that detects no commit: the
    git object is made with the detected names and a commit name
    generated from the clock. *)
Lemma Scan_names_the_git_object_witness :
  exists env,
    finds (observed (Scan (Samples.scanner (Ok (Demo.finished [])))
                          (Samples.packages None)
                          (Debricked Samples.unnamed))
                    Demo.start) = [env]
    /\ env = Samples.detected
    /\ metas (observed (Scan (Samples.scanner (Ok (Demo.finished [])))
                             (Samples.packages None)
                             (Debricked Samples.unnamed))
                       Demo.start)
       = [("", "detected/repository", "generated-1700000000",
           "detected-branch", "author", "https://detected")].
Proof.
  pose proof (Scan_names_the_git_object
                (Samples.scanner (Ok (Demo.finished [])))
                (Samples.packages None) Samples.unnamed Demo.start
                ("", "detected/repository", "generated-1700000000",
                 "detected-branch", "author", "https://detected")) as H.
  cbv zeta in H. destruct H as (env & Hfind & _).
  - vm_compute. left. reflexivity.
  - exists env. split; [exact Hfind|]. split; [|vm_compute; reflexivity].
    vm_compute in Hfind. now injection Hfind as <-.
Defined.

(** A finished upload with a JSON file asked for: the reply is written
    there once. *)
Lemma Scan_json_file_witness :
  json_files (observed (Scan (Demo.scanner None true (Ok (Demo.finished [])))
                             (Demo.packages (Ok ("1", "2")) None None)
                             (Debricked (Demo.options false "" false
                                                      "result.json")))
                       Demo.start)
  = [("result.json", "{}", 384%Z)].
Proof.
  pose proof (Scan_json_file
                (Demo.scanner None true (Ok (Demo.finished [])))
                (Demo.packages (Ok ("1", "2")) None None)
                (Demo.options false "" false "result.json") Demo.start) as H.
  cbv zeta in H. destruct H as [_ H].
  apply (H (Demo.finished [])).
  - vm_compute. left. reflexivity.
  - vm_compute. reflexivity.
  - reflexivity.
  - vm_compute. discriminate.
Defined.


(** Two states with the same clock: the same commit name. *)
Lemma GenerateCommitNameTimestamp_distinct_witness :
  returned (GenerateCommitNameTimestamp (Samples.packages None)) Demo.start
  = returned (GenerateCommitNameTimestamp (Samples.packages None))
             Samples.later.
Proof.
  apply (GenerateCommitNameTimestamp_distinct
           (Samples.packages None) Demo.start
           Samples.later).
  reflexivity.
Defined.

(** Options without a commit name: the clock is read once and names
    the commit. *)
Lemma UpdatedEmptyCommitName_cases_witness :
  CommitName (returned (UpdatedEmptyCommitName (Samples.packages None)
                                               Samples.unnamed)
                       Demo.start)
  = "generated-1700000000"
  /\ UpdatedEmptyCommitName (Samples.packages None) Samples.complete Demo.start
     = (Samples.complete, Demo.start).
Proof.
  pose proof (UpdatedEmptyCommitName_cases (Samples.packages None)
                                           Samples.unnamed Demo.start) as H.
  pose proof (UpdatedEmptyCommitName_cases (Samples.packages None)
                                           Samples.complete Demo.start) as H'.
  cbv zeta in H, H'. destruct H as [_ H]. destruct H' as [H' _]. split.
  - destruct H as [H _]; [reflexivity|reflexivity|].
    rewrite H. vm_compute. reflexivity.
  - apply H'. right. vm_compute. discriminate.
Defined.

End MoreRuns.
